(** * A shallow embedding of [pretraining/modeling_roberta.py]

    The forward computation of the RoBERTa-style encoder is embedded as
    Rocq functions.  Float tensors are nested lists of rationals computed
    exactly (rounding, infinities and NaN are not represented); integer
    tensors are nested lists of [Z].  The primitives of the tensor runtime
    that have no rational definition (gelu, tanh, softmax, norms, dropout,
    the 4-D reshapes inside attention) are the fields of a [Runtime] record
    over which every definition is parametric.  Python exceptions are the
    [Raise] results of an error monad; dropout threads the state of the
    random generator. *)

From Stdlib Require Import ZArith QArith List String Lia Bool Sorted.
From stdpp Require Import gmap strings list.
Import ListNotations.

Open Scope string_scope.

(** ** Python results *)

Inductive PyError :=
| ValueError | ZeroDivisionError | IndexError | KeyError
| TypeError | AttributeError | RuntimeError | PyException.

(** [Diverge] is the outcome of a loop whose fuel ran out; it is not a
    Python outcome and is shown unreachable for the loops below. *)
Inductive result (A : Type) : Type :=
| Ok (a : A)
| Raise (e : PyError)
| Diverge.
Arguments Ok {A} a.
Arguments Raise {A} e.
Arguments Diverge {A}.

Global Instance result_bind : MBind result := fun A B k c =>
  match c with Ok a => k a | Raise e => Raise e | Diverge => Diverge end.
Global Instance result_ret : MRet result := fun A a => Ok a.
Global Instance result_fmap : FMap result := fun A B f c =>
  match c with Ok a => Ok (f a) | Raise e => Raise e | Diverge => Diverge end.

Fixpoint mapR {A B} (f : A -> result B) (l : list A) : result (list B) :=
  match l with
  | [] => Ok []
  | x :: r => y ← f x; ys ← mapR f r; Ok (y :: ys)
  end.

(** ** Tensors *)

Definition Vec := list Q.
Definition Matrix := list Vec.
(** (batch, seq, hidden) *)
Definition Tensor3 := list (list Vec).
(** (batch, 1, 1, seq): the attention bias built by [RobertaModel.forward] *)
Definition Tensor4 := list (list (list Vec)).

(** A hidden-state tensor before or after [view(-1, H)] / row selection. *)
Inductive Hidden :=
| H3 (t : Tensor3)
| H2 (rows : list Vec).

Definition vec_add (a b : Vec) : Vec := zip_with Qplus a b.
Definition tensor_add (a b : Tensor3) : Tensor3 := zip_with (zip_with vec_add) a b.
Definition tensor_map (f : Q -> Q) (t : Tensor3) : Tensor3 := map (map (map f)) t.

Definition tensor4_map (f : Q -> Q) (t : Tensor4) : Tensor4 := map (map (map (map f))) t.

Definition dot (x y : Vec) : Q := foldr Qplus 0%Q (zip_with Qmult x y).

(** [x.view(-1, x.shape[-1])] *)
Definition view_rows (h : Hidden) : list Vec :=
  match h with H3 t => concat t | H2 rows => rows end.

(** [rows[idx]] and [torch.index_select(rows, 0, idx)] for an index tensor
    of positions: a position past the end raises. *)
Definition index_select {A} (rows : list A) (idx : list nat) : result (list A) :=
  mapR (fun i => match rows !! i with Some r => Ok r | None => Raise IndexError end) idx.

(** [int(q)]: truncation toward zero. *)
Definition py_int (q : Q) : Z := Z.quot (Qnum q) (Zpos (Qden q)).

(** [a % b] on Python integers. *)
Definition py_mod (a b : Z) : result Z :=
  if (b =? 0)%Z then Raise ZeroDivisionError else Ok (a mod b)%Z.

(** [s in t] on Python strings: [s] occurs in [t] as a substring. *)
Fixpoint str_in (s t : string) : bool :=
  String.prefix s t ||
  match t with
  | EmptyString => false
  | String _ t' => str_in s t'
  end.

(** Elementwise binary operation with the broadcasting rule of two 1-D
    tensors: equal sizes, or one of them of size 1. *)
Definition broadcast2 (f : Q -> Q -> Q) (a b : Vec) : result Vec :=
  if (length a =? length b)%nat then Ok (zip_with f a b)
  else match a, b with
       | [x], _ => Ok (map (f x) b)
       | _, [y] => Ok (map (fun x => f x y) a)
       | _, _ => Raise RuntimeError
       end.

(** [torch.split(x, [a, b], dim=-1)] on one row. *)
Definition torch_split2 (x : Vec) (a b : Z) : result (Vec * Vec) :=
  if (a <? 0)%Z || (b <? 0)%Z || negb (Z.of_nat (length x) =? a + b)%Z
  then Raise RuntimeError
  else Ok (take (Z.to_nat a) x, drop (Z.to_nat a) x).

(** ** The tensor runtime *)

Record Runtime := {
  F_gelu : Q -> Q;
  F_tanh : Q -> Q;
  torch_sigmoid : Q -> Q;
  (** [math.sqrt(n)] *)
  math_sqrt : Z -> Q;
  (** [n ** (-1.0 / 2)] for [n <> 0] *)
  pow_neg_half : Z -> Q;
  (** [x.norm(2, dim=-1, keepdim=True)] on one row *)
  vector_norm : Vec -> Q;
  (** [torch.nn.LayerNorm] with the given weight, bias and eps, on one row *)
  F_layer_norm : Vec -> Vec -> Q -> Vec -> Vec;
  (** the value of [CrossEntropyLoss(ignore_index)(logits, target)] on
      targets that are classes or [ignore_index] *)
  F_cross_entropy : Z -> list Vec -> list Z -> Q;
  (** [torch.bmm(a.float(), b.float())] *)
  torch_bmm : Tensor3 -> Tensor3 -> Tensor3;
  (** state of the random generator, and [nn.Dropout(p)] *)
  RNG : Type;
  F_dropout : Q -> Tensor3 -> RNG -> Tensor3 * RNG;
  (** (batch, heads, seq, seq) and (batch, heads, seq, head_size) tensors *)
  T4 : Type;
  (** [x.view(.., heads, head_size).permute(0, 2, 1, 3)] *)
  view_permute_0213 : Z -> Z -> Tensor3 -> T4;
  (** [x.view(.., heads, head_size).permute(0, 2, 3, 1)] *)
  view_permute_0231 : Z -> Z -> Tensor3 -> T4;
  torch_matmul : T4 -> T4 -> T4;
  t4_div : T4 -> Q -> T4;
  t4_add : T4 -> Tensor4 -> T4;
  nn_Softmax : T4 -> T4;
  F_dropout4 : Q -> T4 -> RNG -> T4 * RNG;
  (** [x.permute(0, 2, 1, 3).contiguous().view(.., all_head_size)] *)
  permute_view : Z -> T4 -> Tensor3;
}.

(** Computations that draw from the random generator and may raise. *)
Definition M (rt : Runtime) (A : Type) : Type := RNG rt -> result (A * RNG rt).

Global Instance M_bind rt : MBind (M rt) := fun A B k c s =>
  match c s with
  | Ok (a, s') => k a s'
  | Raise e => Raise e
  | Diverge => Diverge
  end.
Global Instance M_ret rt : MRet (M rt) := fun A a s => Ok (a, s).

Definition liftR {rt A} (r : result A) : M rt A := fun s =>
  match r with Ok a => Ok (a, s) | Raise e => Raise e | Diverge => Diverge end.
Definition liftS {rt A} (f : RNG rt -> A * RNG rt) : M rt A := fun s => Ok (f s).

(** ** Configuration *)

(** The attributes read by the modelled code.  [dyn_attrs] holds the
    boolean attributes that were set on the object by keyword, by name:
    [hasattr] and attribute access on them are lookups by that name. *)
Record RobertaConfig := {
  vocab_size : Z;
  hidden_size : Z;
  num_attention_heads : Z;
  max_position_embeddings : Z;
  type_vocab_size : Z;
  hidden_dropout_prob : Q;
  attention_probs_dropout_prob : Q;
  useLN : bool;
  encoder_ln_mode : string;
  layer_norm_type : string;
  sparse_mask_prediction : bool;
  dyn_attrs : gmap string bool;
}.

Definition hasattr (config : RobertaConfig) (name : string) : bool :=
  bool_decide (is_Some (dyn_attrs config !! name)).

Definition getattr (config : RobertaConfig) (name : string) : result bool :=
  match dyn_attrs config !! name with
  | Some v => Ok v
  | None => Raise AttributeError
  end.

(** ** Activation and linear primitives *)

Definition F_relu (x : Q) : Q := if Qle_bool 0 x then x else 0%Q.

Section Primitives.
Context (rt : Runtime).

Definition swish (x : Q) : Q := (x * torch_sigmoid rt x)%Q.

(** [ACT2FN[act]] *)
Definition ACT2FN (act : string) : result (Q -> Q) :=
  if act =? "gelu" then Ok (F_gelu rt)
  else if act =? "relu" then Ok F_relu
  else if act =? "swish" then Ok swish
  else if act =? "tanh" then Ok (F_tanh rt)
  else Raise KeyError.

(** [F.linear(x, weight, bias)] on one row: [x A^T + b]. *)
Definition F_linear (weight : Matrix) (bias : option Vec) (x : Vec) : Vec :=
  let y := map (dot x) weight in
  match bias with
  | None => y
  | Some b => vec_add y b
  end.

Record nn_Linear := {
  in_features : Z;
  out_features : Z;
  weight : Matrix;
  bias : option Vec;
}.

Definition nn_Linear_forward (l : nn_Linear) (x : Vec) : Vec :=
  F_linear (weight l) (bias l) x.

(** [nn.Linear(in_features, out_features)] creates its weight by
    [torch.empty((out_features, in_features))] and its bias by
    [torch.empty(out_features)], which raise on a negative size and when the
    memory for the tensor cannot be allocated: [torch_empty_fits] tells
    whether a tensor of a given size fits in the memory of the machine.
    [w] and [b] are the initial values of the weight and of the bias. *)
Definition nn_Linear_init (torch_empty_fits : list Z -> bool)
    (in_features out_features : Z) (w : Matrix) (b : Vec) : result nn_Linear :=
  if (in_features <? 0)%Z || (out_features <? 0)%Z
     || negb (torch_empty_fits [out_features; in_features])
     || negb (torch_empty_fits [out_features])
  then Raise RuntimeError
  else Ok {| in_features := in_features; out_features := out_features;
             weight := w; bias := Some b |}.

(** [nn.Dropout(p)]: the probability has to be between 0 and 1. *)
Definition nn_Dropout_init (p : Q) : result Q :=
  if negb (Qle_bool 0 p) || negb (Qle_bool p 1) then Raise ValueError else Ok p.

Definition bias_gelu (bias y : Vec) : Vec := map (F_gelu rt) (vec_add bias y).
Definition bias_relu (bias y : Vec) : Vec := map F_relu (vec_add bias y).
Definition bias_tanh (bias y : Vec) : Vec := map (F_tanh rt) (vec_add bias y).

(** [LinearActivation], always built with [bias=True] and a string [act]. *)
Record LinearActivation := {
  la_fused_gelu : bool;
  la_fused_tanh : bool;
  la_fused_relu : bool;
  la_act_fn : option (Q -> Q);
  la_weight : Matrix;
  la_bias : Vec;
}.

Definition LinearActivation_init (act : string) (w : Matrix) (b : Vec)
  : result LinearActivation :=
  if act =? "gelu" then Ok (Build_LinearActivation true false false None w b)
  else if act =? "tanh" then Ok (Build_LinearActivation false true false None w b)
  else if act =? "relu" then Ok (Build_LinearActivation false false true None w b)
  else f ← ACT2FN act; Ok (Build_LinearActivation false false false (Some f) w b).

Definition LinearActivation_forward (m : LinearActivation) (inp : Vec) : result Vec :=
  if la_fused_gelu m then Ok (bias_gelu (la_bias m) (F_linear (la_weight m) None inp))
  else if la_fused_tanh m then Ok (bias_tanh (la_bias m) (F_linear (la_weight m) None inp))
  else if la_fused_relu m then Ok (bias_relu (la_bias m) (F_linear (la_weight m) None inp))
  else match la_act_fn m with
       | Some f => Ok (map f (F_linear (la_weight m) (Some (la_bias m)) inp))
       | None => Raise AttributeError
       end.

Record RegularLinearActivation := {
  rla_dense : nn_Linear;
  rla_act : Q -> Q;
}.

Definition RegularLinearActivation_init (act : string) (dense : nn_Linear)
  : result RegularLinearActivation :=
  f ← ACT2FN act; Ok (Build_RegularLinearActivation dense f).

Definition RegularLinearActivation_forward (m : RegularLinearActivation) (x : Vec) : Vec :=
  map (rla_act m) (nn_Linear_forward (rla_dense m) x).

(** The [linear_layer] chosen by [config.fused_linear_layer]. *)
Inductive DenseAct :=
| Fused (m : LinearActivation)
| Regular (m : RegularLinearActivation).

Definition DenseAct_forward (m : DenseAct) (x : Vec) : result Vec :=
  match m with
  | Fused m => LinearActivation_forward m x
  | Regular m => Ok (RegularLinearActivation_forward m x)
  end.

(** ** Normalization *)

Record RMSNorm := {
  rms_eps : Q;
  rms_d : nat;
  rms_p : Q;
  rms_bias : bool;
  rms_scale : Vec;
  rms_offset : Vec;
}.

Definition RMSNorm_init (dim : nat) (p eps : Q) (bias : bool) : RMSNorm :=
  {| rms_eps := eps; rms_d := dim; rms_p := p; rms_bias := bias;
     rms_scale := repeat 1%Q dim; rms_offset := repeat 0%Q dim |}.

(** [RMSNorm.forward] on one row of the last axis.  The product
    [self.d * self.p] is taken exactly.  The code computes its rounding to a
    double, which is monotone and leaves the integers up to [2 ^ 53] fixed:
    the two have the same integer part unless the exact product lies less
    than [2 ^ -53] below an integer. *)
Definition RMSNorm_forward (m : RMSNorm) (x : Vec) : result Vec :=
  '(norm_x, d_x) ←
     (if negb (Qle_bool 0 (rms_p m)) || negb (Qle_bool (rms_p m) 1)
      then Ok (vector_norm rt x, Z.of_nat (rms_d m))
      else
        let partial_size := py_int (inject_Z (Z.of_nat (rms_d m)) * rms_p m) in
        '(partial_x, _) ←
           torch_split2 x partial_size (Z.of_nat (rms_d m) - partial_size);
        Ok (vector_norm rt partial_x, partial_size));
  pw ← (if (d_x =? 0)%Z then Raise ZeroDivisionError else Ok (pow_neg_half rt d_x));
  let rms_x := (norm_x * pw)%Q in
  let x_normed := map (fun xi => (xi / (rms_x + rms_eps m))%Q) x in
  y ← broadcast2 Qmult (rms_scale m) x_normed;
  if rms_bias m then broadcast2 Qplus y (rms_offset m) else Ok y.

(** The largest double below 1: a product in double arithmetic is below 1
    exactly when the exact product is at most this. *)
Definition largest_double_below_1 : Q := 1 - (1 # 9007199254740992).

(** The classes of [LAYER_NORM_TYPES], instantiated. *)
Inductive LayerNormModule :=
| TorchLayerNorm (weight bias : Vec) (eps : Q)
| RMSNormModule (m : RMSNorm).

(** The error of [layer_norm(x)] on a value [x] that is no tensor, a tuple
    or [None]: [RMSNorm.forward] reads [x.norm] or calls [torch.split(x, ..)],
    which reads [x.split]; [torch.nn.LayerNorm] passes [x] to
    [F.layer_norm]. *)
Definition layer_norm_non_tensor_error (ln : LayerNormModule) : PyError :=
  match ln with
  | TorchLayerNorm _ _ _ => TypeError
  | RMSNormModule _ => AttributeError
  end.

(** [get_layer_norm_type(config)(dim, eps=eps)] *)
Definition get_layer_norm_type (config : RobertaConfig) (dim : nat) (eps : Q)
  : result LayerNormModule :=
  let ty := layer_norm_type config in
  if (ty =? "pytorch") || (ty =? "apex")
  then Ok (TorchLayerNorm (repeat 1%Q dim) (repeat 0%Q dim) eps)
  else if ty =? "rms_norm" then Ok (RMSNormModule (RMSNorm_init dim (-1) eps false))
  else Raise PyException.

Definition LayerNorm_row (ln : LayerNormModule) (x : Vec) : result Vec :=
  match ln with
  | TorchLayerNorm w b eps => Ok (F_layer_norm rt w b eps x)
  | RMSNormModule m => RMSNorm_forward m x
  end.

Definition LayerNorm_forward (ln : LayerNormModule) (t : Tensor3) : result Tensor3 :=
  mapR (mapR (LayerNorm_row ln)) t.

(** ** Embedding composer *)

(** [nn.Embedding.forward]: row lookup, for every id of a (batch, seq) tensor. *)
Definition nn_Embedding_forward (table : Matrix) (ids : list (list Z)) : result Tensor3 :=
  mapR (mapR (fun i =>
    if (i <? 0)%Z then Raise IndexError
    else match table !! Z.to_nat i with
         | Some row => Ok row
         | None => Raise IndexError
         end)) ids.

(** [t.size(1)] of a (batch, seq) tensor. *)
Definition size_1 {A} (t : list (list A)) : nat :=
  match t with [] => 0 | row :: _ => length row end.

(** [torch.arange(n)] *)
Definition torch_arange (n : nat) : list Z := map Z.of_nat (seq 0 n).

(** [v.unsqueeze(0).expand_as(t)] *)
Definition expand_as {A B} (v : list A) (t : list (list B)) : list (list A) :=
  map (fun _ => v) t.

Definition zeros_like {A} (t : list (list A)) : list (list Z) :=
  map (map (fun _ => 0%Z)) t.
Definition ones_like {A} (t : list (list A)) : list (list Z) :=
  map (map (fun _ => 1%Z)) t.

Record RobertaEmbeddings := {
  word_embeddings : Matrix;
  position_embeddings : Matrix;
  token_type_embeddings : Matrix;
  layernorm_embedding : bool;
  emb_LayerNorm : option LayerNormModule;
  emb_dropout : Q;
}.

(** [RobertaEmbeddings.__init__]; the three tables are the initial values
    of the embedding parameters. *)
Definition RobertaEmbeddings_init (config : RobertaConfig)
    (word position token_type : Matrix) : result RobertaEmbeddings :=
  flag ← (if hasattr config "config.layernorm_embedding"
          then getattr config "layernorm_embedding"
          else Ok false);
  ln ← (if flag
        then Some <$> get_layer_norm_type config (Z.to_nat (hidden_size config)) 1e-12
        else Ok None);
  Ok {| word_embeddings := word;
        position_embeddings := position;
        token_type_embeddings := token_type;
        layernorm_embedding := flag;
        emb_LayerNorm := ln;
        emb_dropout := hidden_dropout_prob config |}.

Definition RobertaEmbeddings_forward (m : RobertaEmbeddings)
    (input_ids : list (list Z)) (token_type_ids : option (list (list Z)))
  : M rt Tensor3 :=
  let seq_length := size_1 input_ids in
  let position_ids := torch_arange seq_length in
  let position_ids := expand_as position_ids input_ids in
  let token_type_ids :=
    match token_type_ids with
    | None => zeros_like input_ids
    | Some t => t
    end in
  words_embeddings ← liftR (nn_Embedding_forward (word_embeddings m) input_ids);
  position_embeddings ← liftR (nn_Embedding_forward (position_embeddings m) position_ids);
  token_type_embeddings ←
    liftR (nn_Embedding_forward (token_type_embeddings m) token_type_ids);
  let embeddings :=
    tensor_add (tensor_add words_embeddings position_embeddings) token_type_embeddings in
  embeddings ←
    (if layernorm_embedding m
     then match emb_LayerNorm m with
          | Some ln => liftR (LayerNorm_forward ln embeddings)
          | None => liftR (Raise AttributeError)
          end
     else mret embeddings);
  liftS (F_dropout rt (emb_dropout m) embeddings).

End Primitives.

(** ** Attention block *)

Section Attention.
Context (rt : Runtime).

Definition linear3 (l : nn_Linear) (t : Tensor3) : Tensor3 :=
  map (map (nn_Linear_forward l)) t.

Record RobertaSelfAttention := {
  sa_num_attention_heads : Z;
  attention_head_size : Z;
  all_head_size : Z;
  query : nn_Linear;
  key : nn_Linear;
  value : nn_Linear;
  sa_dropout : Q;
}.

(** [RobertaSelfAttention.__init__]; [q], [k], [v] are the initial weight
    and bias of the three projections.  The quotient
    [hidden_size / num_attention_heads] is taken exactly; the double the code
    computes is that quotient when it is an integer of magnitude up to
    [2 ^ 53], the range the statements below keep to.  [torch_empty_fits] is
    the memory of the machine, as for [nn.Linear]. *)
Definition RobertaSelfAttention_init (torch_empty_fits : list Z -> bool)
    (config : RobertaConfig) (q k v : Matrix * Vec) : result RobertaSelfAttention :=
  r ← py_mod (hidden_size config) (num_attention_heads config);
  if negb (r =? 0)%Z then Raise ValueError
  else
    let heads := num_attention_heads config in
    let head_size :=
      py_int (inject_Z (hidden_size config) / inject_Z (num_attention_heads config)) in
    let all := (heads * head_size)%Z in
    query ← nn_Linear_init torch_empty_fits (hidden_size config) all q.1 q.2;
    key ← nn_Linear_init torch_empty_fits (hidden_size config) all k.1 k.2;
    value ← nn_Linear_init torch_empty_fits (hidden_size config) all v.1 v.2;
    dropout ← nn_Dropout_init (attention_probs_dropout_prob config);
    Ok {| sa_num_attention_heads := heads;
          attention_head_size := head_size;
          all_head_size := all;
          query := query; key := key; value := value;
          sa_dropout := dropout |}.

Definition transpose_for_scores (m : RobertaSelfAttention) (x : Tensor3) : T4 rt :=
  view_permute_0213 rt (sa_num_attention_heads m) (attention_head_size m) x.

Definition transpose_key_for_scores (m : RobertaSelfAttention) (x : Tensor3) : T4 rt :=
  view_permute_0231 rt (sa_num_attention_heads m) (attention_head_size m) x.

Definition RobertaSelfAttention_forward (m : RobertaSelfAttention)
    (hidden_states : Tensor3) (attention_mask : Tensor4) : M rt (Tensor3 * T4 rt) :=
  let mixed_query_layer := linear3 (query m) hidden_states in
  let mixed_key_layer := linear3 (key m) hidden_states in
  let mixed_value_layer := linear3 (value m) hidden_states in
  let query_layer := transpose_for_scores m mixed_query_layer in
  let key_layer := transpose_key_for_scores m mixed_key_layer in
  let value_layer := transpose_for_scores m mixed_value_layer in
  let attention_scores := torch_matmul rt query_layer key_layer in
  let attention_scores :=
    t4_div rt attention_scores (math_sqrt rt (attention_head_size m)) in
  let attention_scores := t4_add rt attention_scores attention_mask in
  let attention_probs := nn_Softmax rt attention_scores in
  attention_probs ← liftS (F_dropout4 rt (sa_dropout m) attention_probs);
  let context_layer := torch_matmul rt attention_probs value_layer in
  let context_layer := permute_view rt (all_head_size m) context_layer in
  mret (context_layer, attention_probs).

Record RobertaSelfOutput := {
  so_dense : nn_Linear;
  so_dropout : Q;
}.

Definition RobertaSelfOutput_forward (m : RobertaSelfOutput)
    (hidden_states input_tensor : Tensor3) : M rt Tensor3 :=
  let hidden_states := linear3 (so_dense m) hidden_states in
  liftS (F_dropout rt (so_dropout m) hidden_states).

Record RobertaAttention := {
  att_self : RobertaSelfAttention;
  att_output : RobertaSelfOutput;
}.

Definition RobertaAttention_forward (m : RobertaAttention)
    (input_tensor : Tensor3) (attention_mask : Tensor4) : M rt (Tensor3 * T4 rt) :=
  '(context_layer, attention_probs) ←
     RobertaSelfAttention_forward (att_self m) input_tensor attention_mask;
  attention_output ← RobertaSelfOutput_forward (att_output m) context_layer input_tensor;
  mret (attention_output, attention_probs).

(** ** Transformer layer *)

Record RobertaIntermediate := { int_dense : DenseAct }.

Definition RobertaIntermediate_forward (m : RobertaIntermediate) (hidden_states : Tensor3)
  : result Tensor3 :=
  mapR (mapR (DenseAct_forward rt (int_dense m))) hidden_states.

Record RobertaOutput := {
  out_dense : nn_Linear;
  out_dropout : Q;
}.

Definition RobertaOutput_forward (m : RobertaOutput) (hidden_states : Tensor3)
  : M rt Tensor3 :=
  let hidden_states := linear3 (out_dense m) hidden_states in
  liftS (F_dropout rt (out_dropout m) hidden_states).

Record RobertaLayer := {
  attention : RobertaAttention;
  layer_config : RobertaConfig;
  PreAttentionLayerNorm : LayerNormModule;
  PostAttentionLayerNorm : LayerNormModule;
  intermediate : RobertaIntermediate;
  output : RobertaOutput;
}.

Definition maybe_layer_norm (m : RobertaLayer) (hidden_states : Tensor3)
    (layer_norm : LayerNormModule) (current_ln_mode : string) : result Tensor3 :=
  if useLN (layer_config m) && str_in (encoder_ln_mode (layer_config m)) current_ln_mode
  then LayerNorm_forward rt layer_norm hidden_states
  else Ok hidden_states.

(** [t * 1 / keep_prob] *)
Definition scale_residual (t : Tensor3) (keep_prob : Q) : Tensor3 :=
  tensor_map (fun x => (x * 1 / keep_prob)%Q) t.

Definition RobertaLayer_forward (m : RobertaLayer) (hidden_states : Tensor3)
    (attention_mask : Tensor4) (action : Z) (keep_prob : Q)
  : M rt (Tensor3 * option (T4 rt)) :=
  '(intermediate_input, attention_probs) ←
     (if (action =? 0)%Z then mret (hidden_states, None)
      else
        pre_attn_input ←
          liftR (maybe_layer_norm m hidden_states (PreAttentionLayerNorm m) "pre-ln");
        '(attention_output, attention_probs) ←
          RobertaAttention_forward (attention m) pre_attn_input attention_mask;
        let attention_output := scale_residual attention_output keep_prob in
        let intermediate_input := tensor_add hidden_states attention_output in
        intermediate_input ←
          liftR (maybe_layer_norm m intermediate_input (PreAttentionLayerNorm m) "post-ln");
        mret (intermediate_input, Some attention_probs));
  layer_output ←
     (if (action =? 0)%Z then mret intermediate_input
      else
        intermediate_pre_ffn ←
          liftR (maybe_layer_norm m intermediate_input (PostAttentionLayerNorm m) "pre-ln");
        intermediate_output ←
          liftR (RobertaIntermediate_forward (intermediate m) intermediate_pre_ffn);
        layer_output ← RobertaOutput_forward (output m) intermediate_output;
        let layer_output := scale_residual layer_output keep_prob in
        let layer_output := tensor_add layer_output intermediate_input in
        liftR (maybe_layer_norm m layer_output (PostAttentionLayerNorm m) "post-ln"));
  mret (layer_output, attention_probs).

End Attention.

(** The error of [layer(x, mask)] on a value [x] that is no tensor, a tuple
    or [None]: the first statement of [RobertaLayer.forward] that uses [x]
    is the first normalization when it applies, and the query projection
    [F.linear(x, ..)] otherwise. *)
Definition RobertaLayer_non_tensor_error (l : RobertaLayer) : PyError :=
  if useLN (layer_config l) && str_in (encoder_ln_mode (layer_config l)) "pre-ln"
  then layer_norm_non_tensor_error (PreAttentionLayerNorm l)
  else TypeError.

(** ** Encoder stack *)

Section Encoder.
Context (rt : Runtime).

(** What a call of a layer module returns: the DeepSpeed kernel returns a
    tensor, [RobertaLayer] the pair (layer_output, attention_probs). *)
Inductive PyVal :=
| VTensor (t : Tensor3)
| VTuple (t : Tensor3) (attention_probs : option (T4 rt)).

(** [self.layer]: [__init__] fills it with DeepSpeed kernel layers exactly
    when [is_transformer_kernel], and with [RobertaLayer]s otherwise. *)
Inductive LayerList :=
| KernelLayers (ls : list (Tensor3 -> Tensor4 -> RNG rt -> Tensor3 * RNG rt))
| PyLayers (ls : list RobertaLayer).

Record RobertaEncoder := {
  enc_config : RobertaConfig;
  FinalLayerNorm : LayerNormModule;
  layer : LayerList;
  is_Ngram : bool;
  num_hidden_Ngram_layers : nat;
  Ngram_layer : list RobertaLayer;
}.

Definition is_transformer_kernel (m : RobertaEncoder) : bool :=
  match layer m with KernelLayers _ => true | PyLayers _ => false end.

(** [len(self.layer)] *)
Definition len_layer (ls : LayerList) : nat :=
  match ls with KernelLayers ls => length ls | PyLayers ls => length ls end.

(** [l[start:end]] for non-negative bounds *)
Definition slice {A} (l : list A) (start end_ : nat) : list A :=
  take (end_ - start) (drop start l).

(** [layer(x_, mask)] on the value held by [x_]: a module applied to a
    tuple raises. *)
Definition call_kernel (f : Tensor3 -> Tensor4 -> RNG rt -> Tensor3 * RNG rt)
    (x_ : PyVal) (mask : Tensor4) : M rt PyVal :=
  match x_ with
  | VTensor t => t' ← liftS (f t mask); mret (VTensor t')
  | VTuple _ _ => liftR (Raise TypeError)
  end.

Definition call_layer (l : RobertaLayer) (x_ : PyVal) (mask : Tensor4) : M rt PyVal :=
  match x_ with
  | VTensor t => '(o, p) ← RobertaLayer_forward rt l t mask 1 1; mret (VTuple o p)
  | VTuple _ _ => liftR (Raise (RobertaLayer_non_tensor_error l))
  end.

Fixpoint run_modules {A} (call : A -> PyVal -> Tensor4 -> M rt PyVal)
    (layers : list A) (x_ : PyVal) (mask : Tensor4) : M rt PyVal :=
  match layers with
  | [] => mret x_
  | l :: rest => x_ ← call l x_ mask; run_modules call rest x_ mask
  end.

(** [custom(start, end)(x_, mask)] *)
Definition custom (ls : LayerList) (start end_ : nat) (x_ : PyVal) (mask : Tensor4)
  : M rt PyVal :=
  match ls with
  | KernelLayers ls => run_modules call_kernel (slice ls start end_) x_ mask
  | PyLayers ls => run_modules call_layer (slice ls start end_) x_ mask
  end.

(** [checkpoint.checkpoint(f, x, mask)]: its forward value is [f(x, mask)];
    the recomputation happens in the backward pass. *)
Definition checkpoint_checkpoint {A B C} (f : A -> B -> C) (x : A) (mask : B) : C :=
  f x mask.

(** [chunk_length = math.ceil(math.sqrt(num_layers))] *)
Definition chunk_length (num_layers : nat) : nat := Nat.sqrt_up num_layers.

(** The loop [while l < num_layers: state = body(l, l + chunk); l += chunk]. *)
Fixpoint checkpoint_loop {S} (fuel l num_layers chunk : nat)
    (body : nat -> nat -> S -> M rt S) (state : S) : M rt S :=
  if (l <? num_layers)%nat then
    match fuel with
    | 0 => fun _ => Diverge
    | S fuel' =>
        state ← body l (l + chunk) state;
        checkpoint_loop fuel' (l + chunk) num_layers chunk body state
    end
  else mret state.

(** [self.add_attention] *)
Definition add_attention (all_attentions : list (T4 rt)) (attention_probs : option (T4 rt))
  : list (T4 rt) :=
  match attention_probs with
  | Some p => (all_attentions ++ [p])%list
  | None => all_attentions
  end.

Record LoopState := {
  ls_hidden_states : Tensor3;
  ls_Ngram_hidden_states : option Tensor3;
  ls_all_encoder_layers : list PyVal;
  ls_all_attentions : list (T4 rt);
}.

(** The N-gram fusion step of iteration [i].  The N-gram layer is looked
    up and called first: on missing hidden states it raises as on a tuple,
    and on a missing mask when the mask is added to the attention scores,
    after the first normalization.  The position matrix is read after the
    layer has returned. *)
Definition Ngram_step (m : RobertaEncoder) (i : nat) (hidden_states : Tensor3)
    (Ngram_hidden_states Ngram_position_matrix : option Tensor3)
    (Ngram_attention_mask : option Tensor4) : M rt (Tensor3 * option Tensor3) :=
  if is_Ngram m && (i <? num_hidden_Ngram_layers m)%nat then
    match Ngram_layer m !! i with
    | None => liftR (Raise IndexError)
    | Some l =>
        match Ngram_hidden_states with
        | None => liftR (Raise (RobertaLayer_non_tensor_error l))
        | Some nh =>
            match Ngram_attention_mask with
            | None =>
                _ ← liftR (maybe_layer_norm rt l nh (PreAttentionLayerNorm l) "pre-ln");
                liftR (Raise TypeError)
            | Some nmask =>
                '(nh', _) ← RobertaLayer_forward rt l nh nmask 1 1;
                match Ngram_position_matrix with
                | None => liftR (Raise AttributeError)
                | Some pos =>
                    let Ngram_states := torch_bmm rt pos nh' in
                    mret (tensor_add hidden_states Ngram_states, Some nh')
                end
            end
        end
    end
  else mret (hidden_states, Ngram_hidden_states).

(** One iteration of [for i, layer_module in enumerate(self.layer)], given
    the call of [layer_module] that yields the new hidden state and the
    attention probabilities to record. *)
Definition encoder_step (m : RobertaEncoder)
    (run : Tensor3 -> M rt (Tensor3 * option (T4 rt)))
    (Ngram_position_matrix : option Tensor3) (Ngram_attention_mask : option Tensor4)
    (output_all_encoded_layers output_attentions : bool)
    (i : nat) (st : LoopState) : M rt LoopState :=
  '(hidden_states, attention_probs) ← run (ls_hidden_states st);
  let all_attentions :=
    if output_attentions then add_attention (ls_all_attentions st) attention_probs
    else ls_all_attentions st in
  '(hidden_states, Ngram_hidden_states) ←
     Ngram_step m i hidden_states (ls_Ngram_hidden_states st)
       Ngram_position_matrix Ngram_attention_mask;
  mret {| ls_hidden_states := hidden_states;
          ls_Ngram_hidden_states := Ngram_hidden_states;
          ls_all_encoder_layers :=
            if output_all_encoded_layers
            then (ls_all_encoder_layers st ++ [VTensor hidden_states])%list
            else ls_all_encoder_layers st;
          ls_all_attentions := all_attentions |}.

Fixpoint encoder_loop {A} (step : A -> nat -> LoopState -> M rt LoopState)
    (layers : list A) (i : nat) (st : LoopState) : M rt LoopState :=
  match layers with
  | [] => mret st
  | l :: rest => st ← step l i st; encoder_loop step rest (S i) st
  end.

(** The kernel branch binds the returned tensor and records no attention
    probabilities; the other branch unpacks the returned pair. *)
Definition run_kernel (f : Tensor3 -> Tensor4 -> RNG rt -> Tensor3 * RNG rt)
    (attention_mask : Tensor4) (h : Tensor3) : M rt (Tensor3 * option (T4 rt)) :=
  h' ← liftS (f h attention_mask); mret (h', None).

Definition run_layer (l : RobertaLayer) (attention_mask : Tensor4) (h : Tensor3)
  : M rt (Tensor3 * option (T4 rt)) :=
  RobertaLayer_forward rt l h attention_mask 1 1.

(** [self.FinalLayerNorm(hidden_states)] on the value held by the variable *)
Definition final_layer_norm (m : RobertaEncoder) (hidden_states : PyVal) : result PyVal :=
  match hidden_states with
  | VTensor t => VTensor <$> LayerNorm_forward rt (FinalLayerNorm m) t
  | VTuple _ _ => Raise (layer_norm_non_tensor_error (FinalLayerNorm m))
  end.

Definition RobertaEncoder_forward (m : RobertaEncoder)
    (hidden_states : Tensor3) (attention_mask : Tensor4)
    (Ngram_hidden_states Ngram_position_matrix : option Tensor3)
    (Ngram_attention_mask : option Tensor4)
    (output_all_encoded_layers checkpoint_activations output_attentions : bool)
  : M rt (list PyVal * option (list (T4 rt))) :=
  '(hidden_states, all_encoder_layers, all_attentions) ←
     (if checkpoint_activations then
        let num_layers := len_layer (layer m) in
        let chunk_length := chunk_length num_layers in
        hidden_states ←
          checkpoint_loop num_layers 0 num_layers chunk_length
            (fun start end_ x_ =>
               checkpoint_checkpoint (custom (layer m) start end_) x_
                 (tensor4_map (fun x => (x * 1)%Q) attention_mask))
            (VTensor hidden_states);
        mret (hidden_states, [], [])
      else
        let st0 := {| ls_hidden_states := hidden_states;
                      ls_Ngram_hidden_states := Ngram_hidden_states;
                      ls_all_encoder_layers := [];
                      ls_all_attentions := [] |} in
        let step {A} (run : A -> Tensor4 -> Tensor3 -> M rt (Tensor3 * option (T4 rt)))
                 (l : A) :=
          encoder_step m (run l attention_mask) Ngram_position_matrix
            Ngram_attention_mask output_all_encoded_layers
            output_attentions in
        st ← match layer m with
             | KernelLayers ls => encoder_loop (step run_kernel) ls 0 st0
             | PyLayers ls => encoder_loop (step run_layer) ls 0 st0
             end;
        mret (VTensor (ls_hidden_states st), ls_all_encoder_layers st,
              ls_all_attentions st));
  all_encoder_layers ←
     (if negb output_all_encoded_layers || checkpoint_activations then
        hidden_states ←
          (if useLN (enc_config m) && str_in (encoder_ln_mode (enc_config m)) "pre-ln"
           then liftR (final_layer_norm m hidden_states)
           else mret hidden_states);
        mret (all_encoder_layers ++ [hidden_states])%list
      else mret all_encoder_layers);
  mret (all_encoder_layers, if output_attentions then Some all_attentions else None).

End Encoder.

(** [encoded_layers[-1]] *)
Definition last_layer {A} (encoded_layers : list A) : result A :=
  match last encoded_layers with
  | Some h => Ok h
  | None => Raise IndexError
  end.

(** ** Prediction heads *)

Section Heads.
Context (rt : Runtime).

Definition hidden_mapR (f : Vec -> result Vec) (h : Hidden) : result Hidden :=
  match h with
  | H3 t => H3 <$> mapR (mapR f) t
  | H2 rows => H2 <$> mapR f rows
  end.

Definition hidden_map (f : Vec -> Vec) (h : Hidden) : Hidden :=
  match h with
  | H3 t => H3 (map (map f) t)
  | H2 rows => H2 (map f rows)
  end.

Record RobertaPredictionHeadTransform := {
  pht_config : RobertaConfig;
  dense_act : DenseAct;
  pht_LayerNorm : LayerNormModule;
}.

Definition RobertaPredictionHeadTransform_row (m : RobertaPredictionHeadTransform)
    (x : Vec) : result Vec :=
  h ← DenseAct_forward rt (dense_act m) x;
  if useLN (pht_config m) then LayerNorm_row rt (pht_LayerNorm m) h else Ok h.

Definition RobertaPredictionHeadTransform_forward (m : RobertaPredictionHeadTransform)
    (hidden_states : Hidden) : result Hidden :=
  hidden_mapR (RobertaPredictionHeadTransform_row m) hidden_states.

Record RobertaLMPredictionHead := {
  transform : RobertaPredictionHeadTransform;
  decoder : nn_Linear;
  lm_bias : Vec;
  sparse_predict : bool;
}.

(** [RobertaLMPredictionHead.__init__], with the transform already built. *)
Definition RobertaLMPredictionHead_init (config : RobertaConfig)
    (transform : RobertaPredictionHeadTransform)
    (roberta_model_embedding_weights : Matrix) : RobertaLMPredictionHead :=
  let size0 := length roberta_model_embedding_weights in
  let size1 := size_1 roberta_model_embedding_weights in
  let bias := repeat 0%Q size0 in
  {| transform := transform;
     decoder := {| in_features := Z.of_nat size1; out_features := Z.of_nat size0;
                   weight := roberta_model_embedding_weights;
                   bias := if sparse_mask_prediction config then None else Some bias |};
     lm_bias := bias;
     sparse_predict := sparse_mask_prediction config |}.

(** Writing the value [b] into the parameter [self.bias] (by an optimizer
    step or a loaded state): the decoder sees it exactly when [__init__]
    made [self.bias] its bias. *)
Definition set_bias (b : Vec) (m : RobertaLMPredictionHead) : RobertaLMPredictionHead :=
  {| transform := transform m;
     decoder := {| in_features := in_features (decoder m);
                   out_features := out_features (decoder m);
                   weight := weight (decoder m);
                   bias := match bias (decoder m) with
                           | Some _ => Some b
                           | None => None
                           end |};
     lm_bias := b;
     sparse_predict := sparse_predict m |}.

Definition RobertaLMPredictionHead_forward (m : RobertaLMPredictionHead)
    (hidden_states : Hidden) (masked_token_indexes : option (list nat)) : result Hidden :=
  hidden_states ←
    (if sparse_predict m then
       match masked_token_indexes with
       | Some idx => H2 <$> index_select (view_rows hidden_states) idx
       | None => Ok hidden_states
       end
     else Ok hidden_states);
  hidden_states ← RobertaPredictionHeadTransform_forward (transform m) hidden_states;
  let hidden_states := hidden_map (nn_Linear_forward (decoder m)) hidden_states in
  if negb (sparse_predict m) then
    match masked_token_indexes with
    | Some idx => H2 <$> index_select (view_rows hidden_states) idx
    | None => Raise TypeError
    end
  else Ok hidden_states.

(** [RobertaOnlyMLMHead.forward] *)
Definition RobertaOnlyMLMHead_forward (predictions : RobertaLMPredictionHead)
    (sequence_output : Tensor3) (masked_token_indexes : option (list nat)) : result Hidden :=
  RobertaLMPredictionHead_forward predictions (H3 sequence_output) masked_token_indexes.

(** ** Masked-token indexes and the masked-LM loss *)

(** Addition on the int64 dtype of the label tensor. *)
Definition int64_wrap (z : Z) : Z := ((z + 2 ^ 63) mod 2 ^ 64 - 2 ^ 63)%Z.

(** [torch.nonzero(v, as_tuple=False).view(-1)] of a 1-D tensor *)
Fixpoint nonzero_from (i : nat) (v : list Z) : list nat :=
  match v with
  | [] => []
  | x :: rest =>
      if (x =? 0)%Z then nonzero_from (S i) rest else i :: nonzero_from (S i) rest
  end.

Definition torch_nonzero (v : list Z) : list nat := nonzero_from 0 v.

Definition masked_token_indexes_of (masked_lm_labels : list (list Z)) : list nat :=
  torch_nonzero (map (fun x => int64_wrap (x + 1)) (concat masked_lm_labels)).

(** [CrossEntropyLoss(ignore_index)(input, target)] on an (N, C) input and
    N targets: the two sizes have to agree, and every target other than
    [ignore_index] has to be a class, [0 <= t < C]; the value is the
    runtime's. *)
Definition nn_CrossEntropyLoss (ignore_index : Z) (input : list Vec) (target : list Z)
  : result Q :=
  if negb (length input =? length target)%nat then Raise ValueError
  else if forallb (fun t => (t =? ignore_index)%Z
                            || ((0 <=? t)%Z && (t <? Z.of_nat (size_1 input))%Z)) target
       then Ok (F_cross_entropy rt ignore_index input target)
       else Raise IndexError.

(** The masked-LM loss that [RobertaForPreTraining.forward] and
    [RobertaLMHeadModel.forward] compute from the last hidden state of the
    model: the name by which the statements about the two refer to it. *)
Definition masked_lm_loss (cls : RobertaLMPredictionHead) (sequence_output : Tensor3)
    (masked_lm_labels : list (list Z)) : result Q :=
  let masked_token_indexes := masked_token_indexes_of masked_lm_labels in
  prediction_scores ←
    RobertaOnlyMLMHead_forward cls sequence_output (Some masked_token_indexes);
  target ← index_select (concat masked_lm_labels) masked_token_indexes;
  nn_CrossEntropyLoss (-1) (view_rows prediction_scores) target.

End Heads.

(** ** Attention bias of [RobertaModel.forward] *)

(** [t.unsqueeze(1).unsqueeze(2)] *)
Definition unsqueeze_1_2 {A} (t : list (list A)) : list (list (list (list A))) :=
  map (fun row => [[row]]) t.

(** [t.to(dtype=float)] *)
Definition to_float (t : list (list (list (list Z)))) : Tensor4 :=
  map (map (map (map inject_Z))) t.

Definition extended_attention_mask (input_ids : list (list Z))
    (attention_mask : option (list (list Z))) : Tensor4 :=
  let attention_mask :=
    match attention_mask with
    | None => ones_like input_ids
    | Some m => m
    end in
  let extended_attention_mask := unsqueeze_1_2 attention_mask in
  let extended_attention_mask := to_float extended_attention_mask in
  tensor4_map (fun x => ((1 - x) * -10000)%Q) extended_attention_mask.

(** Entry (b, 0, 0, s) of a (batch, 1, 1, seq) tensor, entry (b, s) of a
    (batch, seq) tensor. *)
Definition bias_at (t : Tensor4) (b s : nat) : option Q :=
  row ← t !! b; r1 ← row !! 0; r2 ← r1 !! 0; r2 !! s.

Definition mask_at (t : list (list Z)) (b s : nat) : option Z :=
  row ← t !! b; row !! s.

(** ** Vocabulary of the statements *)

Definition is_ok {A} (r : result A) : Prop := exists a, r = Ok a.
Definition raises {A} (r : result A) : Prop := exists e, r = Raise e.

(** [n] divides [h] evenly: the division is defined and leaves no remainder. *)
Definition evenly_divisible (h n : Z) : Prop := n <> 0%Z /\ exists k, h = (k * n)%Z.

(** The values of the int64 dtype. *)
Definition in_int64 (z : Z) : Prop := (- 2 ^ 63 <= z < 2 ^ 63)%Z.

Definition set_rms_p (p : Q) (m : RMSNorm) : RMSNorm :=
  {| rms_eps := rms_eps m; rms_d := rms_d m; rms_p := p; rms_bias := rms_bias m;
     rms_scale := rms_scale m; rms_offset := rms_offset m |}.

Definition set_sparse_mask_prediction (b : bool) (c : RobertaConfig) : RobertaConfig :=
  {| vocab_size := vocab_size c; hidden_size := hidden_size c;
     num_attention_heads := num_attention_heads c;
     max_position_embeddings := max_position_embeddings c;
     type_vocab_size := type_vocab_size c;
     hidden_dropout_prob := hidden_dropout_prob c;
     attention_probs_dropout_prob := attention_probs_dropout_prob c;
     useLN := useLN c; encoder_ln_mode := encoder_ln_mode c;
     layer_norm_type := layer_norm_type c;
     sparse_mask_prediction := b; dyn_attrs := dyn_attrs c |}.

(** RMSNorm as the specification words it, with the root mean square taken
    over the whole last axis: [scale * x / (rms(x) + eps)], plus the offset
    when there is one.  The root mean square of an empty axis is undefined. *)
Definition RMSNorm_full_axis (rt : Runtime) (m : RMSNorm) (x : Vec) : result Vec :=
  if (length x =? 0)%nat then Raise ZeroDivisionError
  else
    let rms := (vector_norm rt x * pow_neg_half rt (Z.of_nat (length x)))%Q in
    y ← broadcast2 Qmult (rms_scale m) (map (fun xi => (xi / (rms + rms_eps m))%Q) x);
    if rms_bias m then broadcast2 Qplus y (rms_offset m) else Ok y.

(** One row of vocabulary logits from one row of hidden state. *)
Definition logit_row (rt : Runtime) (m : RobertaLMPredictionHead) (r : Vec) : result Vec :=
  nn_Linear_forward (decoder m) <$> RobertaPredictionHeadTransform_row rt (transform m) r.

(** The chunk bounds [(l, l + chunk_length)] visited by the checkpointing
    loop over [num_layers] layers, and the slices of [self.layer] they take. *)
Definition chunk_bounds (rt : Runtime) (num_layers : nat) : M rt (list (nat * nat)) :=
  checkpoint_loop rt num_layers 0 num_layers (chunk_length num_layers)
    (fun start end_ acc => mret (acc ++ [(start, end_)])%list) [].

Definition chunks_of {A} (l : list A) (bounds : list (nat * nat)) : list (list A) :=
  map (fun b => slice l b.1 b.2) bounds.

(** The sum of the three lookups, with positions 0..seq-1 on every row and
    segment ids defaulting to zeros, passed through dropout only. *)
Definition embeddings_without_norm (rt : Runtime) (m : RobertaEmbeddings)
    (input_ids : list (list Z)) (token_type_ids : option (list (list Z)))
  : M rt Tensor3 :=
  fun rng =>
    w ← nn_Embedding_forward (word_embeddings m) input_ids;
    p ← nn_Embedding_forward (position_embeddings m)
          (map (fun _ => map Z.of_nat (seq 0 (size_1 input_ids))) input_ids);
    t ← nn_Embedding_forward (token_type_embeddings m)
          (match token_type_ids with
           | None => map (map (fun _ => 0%Z)) input_ids
           | Some t => t
           end);
    Ok (F_dropout rt (emb_dropout m) (tensor_add (tensor_add w p) t) rng).

(** The prediction head built from a configuration with the sparse flag
    set to [sparse], whose bias parameter then holds [b]. *)
Definition prediction_head (config : RobertaConfig) (T : RobertaPredictionHeadTransform)
    (W : Matrix) (b : Vec) (sparse : bool) : RobertaLMPredictionHead :=
  set_bias b (RobertaLMPredictionHead_init (set_sparse_mask_prediction sparse config) T W).

(** The loop step of the encoder with recording of every layer on or off. *)
Definition recording_step (rt : Runtime) (m : RobertaEncoder rt) {A : Type}
    (run : A -> Tensor3 -> M rt (Tensor3 * option (T4 rt)))
    (Ngram_position_matrix : option Tensor3) (Ngram_attention_mask : option Tensor4)
    (output_attentions record : bool) (l : A)
  : nat -> LoopState rt -> M rt (LoopState rt) :=
  encoder_step rt m (run l) Ngram_position_matrix Ngram_attention_mask record
    output_attentions.

(** Two loop states that differ at most in the recorded list. *)
Definition same_core (rt : Runtime) (st st' : LoopState rt) : Prop :=
  ls_hidden_states rt st = ls_hidden_states rt st' /\
  ls_Ngram_hidden_states rt st = ls_Ngram_hidden_states rt st' /\
  ls_all_attentions rt st = ls_all_attentions rt st'.

(** ** A rational runtime for closed computations

    Inference mode ([nn.Dropout] is the identity) on one sequence of one
    token with one attention head, where a softmax is taken over a single
    score.  Square roots are exact on rational squares, which is all the
    computations below meet; gelu, tanh, sigmoid, the native layer norm and
    the cross entropy have no rational value and are not evaluated by them. *)

Definition Qsqrt (q : Q) : Q :=
  let r := Qred q in Z.sqrt (Qnum r * Zpos (Qden r)) # Qden r.

Definition rational_matmul (a b : Vec) : Vec :=
  match a with
  | [p] => map (Qmult p) b
  | _ => [dot a b]
  end.

Definition rational_runtime : Runtime :=
  {| F_gelu := fun x => x;
     F_tanh := fun x => x;
     torch_sigmoid := fun x => x;
     math_sqrt := fun n => inject_Z (Z.sqrt n);
     pow_neg_half := fun n => Qinv (inject_Z (Z.sqrt n));
     vector_norm := fun x => Qsqrt (dot x x);
     F_layer_norm := fun w b eps x => x;
     F_cross_entropy := fun ignore logits target => 0%Q;
     torch_bmm := fun a b => a;
     RNG := unit;
     F_dropout := fun p t s => (t, s);
     T4 := Vec;
     view_permute_0213 := fun heads head_size t => hd [] (concat t);
     view_permute_0231 := fun heads head_size t => hd [] (concat t);
     torch_matmul := rational_matmul;
     t4_div := fun a c => map (fun x => (x / c)%Q) a;
     t4_add := fun a mask => vec_add a (hd [] (concat (concat mask)));
     nn_Softmax := fun a => map (fun _ => 1%Q) a;
     F_dropout4 := fun p a s => (a, s);
     permute_view := fun all_head_size a => [[a]] |}.

(** ** Closed instances

    One sequence of one token [2], hidden width 1, one head, pre-norm with
    RMSNorm, and layers whose projections are all zero, so that a layer
    returns its input. *)

Definition demo_config : RobertaConfig :=
  {| vocab_size := 2; hidden_size := 1; num_attention_heads := 1;
     max_position_embeddings := 8; type_vocab_size := 2;
     hidden_dropout_prob := 0; attention_probs_dropout_prob := 0;
     useLN := true; encoder_ln_mode := "pre-ln"; layer_norm_type := "rms_norm";
     sparse_mask_prediction := false; dyn_attrs := ∅ |}.

Definition zero_linear : nn_Linear :=
  {| in_features := 1; out_features := 1; weight := [[0%Q]]; bias := Some [0%Q] |}.

Definition demo_norm : LayerNormModule := RMSNormModule (RMSNorm_init 1 (-1) 1e-12 false).

Definition demo_layer : RobertaLayer :=
  {| attention :=
       {| att_self := {| sa_num_attention_heads := 1; attention_head_size := 1;
                         all_head_size := 1; query := zero_linear; key := zero_linear;
                         value := zero_linear; sa_dropout := 0 |};
          att_output := {| so_dense := zero_linear; so_dropout := 0 |} |};
     layer_config := demo_config;
     PreAttentionLayerNorm := demo_norm;
     PostAttentionLayerNorm := demo_norm;
     intermediate :=
       {| int_dense := Regular {| rla_dense := zero_linear; rla_act := F_relu |} |};
     output := {| out_dense := zero_linear; out_dropout := 0 |} |}.

Definition demo_encoder (num_layers : nat) : RobertaEncoder rational_runtime :=
  {| enc_config := demo_config; FinalLayerNorm := demo_norm;
     layer := PyLayers rational_runtime (repeat demo_layer num_layers);
     is_Ngram := false; num_hidden_Ngram_layers := 0; Ngram_layer := [] |}.

Definition demo_hidden : Tensor3 := [[[2]]]%Q.

Definition demo_mask : Tensor4 := extended_attention_mask [[0%Z]] None.

(** The first entry of the final hidden state [encoded_layers[-1]]. *)
Definition first_entry {rt} (out : result (list (PyVal rt) * option (list (T4 rt)) * RNG rt))
  : option Q :=
  match out with
  | Ok (encoded_layers, _, _) =>
      match last encoded_layers with
      | Some (VTensor _ t) => row ← concat t !! 0; row !! 0
      | _ => None
      end
  | _ => None
  end.

(** A prediction head over hidden width 1 and a vocabulary of one entry:
    relu dense projection with weight 1, no normalization, decoder weight 1. *)
Definition unit_config (sparse : bool) : RobertaConfig :=
  {| vocab_size := 1; hidden_size := 1; num_attention_heads := 1;
     max_position_embeddings := 8; type_vocab_size := 2;
     hidden_dropout_prob := 0; attention_probs_dropout_prob := 0;
     useLN := false; encoder_ln_mode := "pre-ln"; layer_norm_type := "rms_norm";
     sparse_mask_prediction := sparse; dyn_attrs := ∅ |}.

Definition unit_transform : RobertaPredictionHeadTransform :=
  {| pht_config := unit_config false;
     dense_act := Regular {| rla_dense := {| in_features := 1; out_features := 1;
                                             weight := [[1%Q]]; bias := Some [0%Q] |};
                             rla_act := F_relu |};
     pht_LayerNorm := RMSNormModule (RMSNorm_init 1 (-1) 1e-12 false) |}.

Definition unit_head (sparse : bool) (b : Vec) : RobertaLMPredictionHead :=
  set_bias b (RobertaLMPredictionHead_init (unit_config sparse) unit_transform [[1%Q]]).

(** A machine on which every parameter tensor fits, and one on which none
    does. *)
Definition enough_memory (size : list Z) : bool := true.
Definition no_memory (size : list Z) : bool := false.

(** A configuration with the given hidden width, number of heads and
    attention dropout probability. *)
Definition attention_config (hidden heads : Z) (dropout : Q) : RobertaConfig :=
  {| vocab_size := 2; hidden_size := hidden; num_attention_heads := heads;
     max_position_embeddings := 8; type_vocab_size := 2;
     hidden_dropout_prob := 0; attention_probs_dropout_prob := dropout;
     useLN := true; encoder_ln_mode := "pre-ln"; layer_norm_type := "pytorch";
     sparse_mask_prediction := false; dyn_attrs := ∅ |}.

(** Hidden width 768 over 12 heads. *)
Definition unit_config_768_12 : RobertaConfig :=
  {| vocab_size := 2; hidden_size := 768; num_attention_heads := 12;
     max_position_embeddings := 8; type_vocab_size := 2;
     hidden_dropout_prob := 0; attention_probs_dropout_prob := 0;
     useLN := true; encoder_ln_mode := "pre-ln"; layer_norm_type := "pytorch";
     sparse_mask_prediction := false; dyn_attrs := ∅ |}.

(** A configuration on which the keyword [layernorm_embedding=True] was set. *)
Definition flagged_config : RobertaConfig :=
  {| vocab_size := 2; hidden_size := 4; num_attention_heads := 1;
     max_position_embeddings := 8; type_vocab_size := 2;
     hidden_dropout_prob := 0; attention_probs_dropout_prob := 0;
     useLN := true; encoder_ln_mode := "pre-ln"; layer_norm_type := "rms_norm";
     sparse_mask_prediction := false;
     dyn_attrs := {[ "layernorm_embedding" := true ]} |}.

(** Entry (b, s) of a (batch, seq, hidden) tensor: one hidden vector. *)
Definition hidden_at (t : Tensor3) (b s : nat) : option Vec :=
  row ← t !! b; row !! s.

(** A layer with its two normalization modules replaced. *)
Definition set_layer_norms (pre post : LayerNormModule) (m : RobertaLayer) : RobertaLayer :=
  {| attention := attention m; layer_config := layer_config m;
     PreAttentionLayerNorm := pre; PostAttentionLayerNorm := post;
     intermediate := intermediate m; output := output m |}.

Definition set_layer_config (c : RobertaConfig) (m : RobertaLayer) : RobertaLayer :=
  {| attention := attention m; layer_config := c;
     PreAttentionLayerNorm := PreAttentionLayerNorm m;
     PostAttentionLayerNorm := PostAttentionLayerNorm m;
     intermediate := intermediate m; output := output m |}.

Definition set_encoder_ln_mode (mode : string) (c : RobertaConfig) : RobertaConfig :=
  {| vocab_size := vocab_size c; hidden_size := hidden_size c;
     num_attention_heads := num_attention_heads c;
     max_position_embeddings := max_position_embeddings c;
     type_vocab_size := type_vocab_size c;
     hidden_dropout_prob := hidden_dropout_prob c;
     attention_probs_dropout_prob := attention_probs_dropout_prob c;
     useLN := useLN c; encoder_ln_mode := mode;
     layer_norm_type := layer_norm_type c;
     sparse_mask_prediction := sparse_mask_prediction c; dyn_attrs := dyn_attrs c |}.

(** [s] occurs in [t]: [t] is [s] between some prefix and some suffix. *)
Definition substring_of (s t : string) : Prop :=
  exists pre post, t = pre ++ s ++ post.

(** The value is a tensor, not the pair a [RobertaLayer] returns. *)
Definition is_tensor {rt} (v : PyVal rt) : Prop := exists t, v = VTensor rt t.

(** Two loop states that differ at most in the N-gram hidden states. *)
Definition same_but_Ngram {rt} (st st' : LoopState rt) : Prop :=
  ls_hidden_states rt st = ls_hidden_states rt st' /\
  ls_all_encoder_layers rt st = ls_all_encoder_layers rt st' /\
  ls_all_attentions rt st = ls_all_attentions rt st'.

(** ** N-gram embeddings and pooler *)

Section Pooling.
Context (rt : Runtime).

(** [RobertaNgramEmbeddings]: two tables and a [torch.nn.LayerNorm]. *)
Record RobertaNgramEmbeddings := {
  ng_word_embeddings : Matrix;
  ng_token_type_embeddings : Matrix;
  ng_LayerNorm_weight : Vec;
  ng_LayerNorm_bias : Vec;
  ng_layer_norm_eps : Q;
  ng_dropout : Q;
}.

Definition RobertaNgramEmbeddings_forward (m : RobertaNgramEmbeddings)
    (input_ids : list (list Z)) (token_type_ids : option (list (list Z)))
  : M rt Tensor3 :=
  let token_type_ids :=
    match token_type_ids with
    | None => zeros_like input_ids
    | Some t => t
    end in
  words_embeddings ← liftR (nn_Embedding_forward (ng_word_embeddings m) input_ids);
  token_type_embeddings ←
    liftR (nn_Embedding_forward (ng_token_type_embeddings m) token_type_ids);
  let embeddings := tensor_add words_embeddings token_type_embeddings in
  embeddings ←
    liftR (LayerNorm_forward rt
             (TorchLayerNorm (ng_LayerNorm_weight m) (ng_LayerNorm_bias m)
                (ng_layer_norm_eps m))
             embeddings);
  liftS (F_dropout rt (ng_dropout m) embeddings).

Record RobertaPooler := {
  pooler_dense_act : DenseAct;
}.

(** [RobertaPooler.__init__]; [w] and [b] are the initial values of the
    weight and the bias of the layer. *)
Definition RobertaPooler_init (config : RobertaConfig) (w : Matrix) (b : Vec)
  : result RobertaPooler :=
  fused_linear_layer ← getattr config "fused_linear_layer";
  dense_act ←
    (if fused_linear_layer : bool
     then Fused <$> LinearActivation_init rt "tanh" w b
     else Regular <$> RegularLinearActivation_init rt "tanh"
                        {| in_features := hidden_size config;
                           out_features := hidden_size config;
                           weight := w; bias := Some b |});
  Ok {| pooler_dense_act := dense_act |}.

(** [hidden_states[:, 0]] *)
Definition first_token (hidden_states : Tensor3) : result Matrix :=
  mapR (fun seq => match seq !! 0 with
                   | Some v => Ok v
                   | None => Raise IndexError
                   end) hidden_states.

(** [RobertaPooler.forward] on the value held by [sequence_output]:
    indexing a tuple by [:, 0] raises. *)
Definition RobertaPooler_forward (m : RobertaPooler) (hidden_states : PyVal rt)
  : result Matrix :=
  match hidden_states with
  | VTensor _ t =>
      first_token_tensor ← first_token t;
      mapR (DenseAct_forward rt (pooler_dense_act m)) first_token_tensor
  | VTuple _ _ _ => Raise TypeError
  end.

End Pooling.

(** A configuration that asks for the fused linear layer. *)
Definition fused_config : RobertaConfig :=
  {| vocab_size := 2; hidden_size := 1; num_attention_heads := 1;
     max_position_embeddings := 8; type_vocab_size := 2;
     hidden_dropout_prob := 0; attention_probs_dropout_prob := 0;
     useLN := true; encoder_ln_mode := "pre-ln"; layer_norm_type := "rms_norm";
     sparse_mask_prediction := false;
     dyn_attrs := {[ "fused_linear_layer" := true ]} |}.

(** ** The models *)

Section Models.
Context (rt : Runtime).

Record RobertaModel := {
  embeddings : RobertaEmbeddings;
  model_is_Ngram : bool;
  (** set by [__init__] only when [is_Ngram] *)
  Ngram_embeddings : option RobertaNgramEmbeddings;
  encoder : RobertaEncoder rt;
  pooler : RobertaPooler;
}.

(** First entry of the tuple [RobertaModel.forward] returns: the list of
    hidden states, or its last entry alone. *)
Inductive EncodedLayers :=
| AllLayers (l : list (PyVal rt))
| LastLayer (h : PyVal rt).

(** The tuple [(encoded_layers, pooled_output)], with the attention
    probabilities as third entry when there is one. *)
Record RobertaModelOutput := {
  encoded_layers : EncodedLayers;
  pooled_output : Matrix;
  attentions : option (list (T4 rt));
}.

(** The N-gram branch of [RobertaModel.forward]: the extended mask and the
    embeddings of the N-gram ids.  [torch.ones_like] and [torch.zeros_like]
    of a missing [input_Ngram_ids] raise, and so does the embedding lookup. *)
Definition Ngram_inputs (m : RobertaModel)
    (input_Ngram_ids Ngram_attention_mask Ngram_token_type_ids : option (list (list Z)))
  : M rt (option Tensor3 * option Tensor4) :=
  if model_is_Ngram m then
    match input_Ngram_ids with
    | Some input_Ngram_ids =>
        let Ngram_token_type_ids :=
          match Ngram_token_type_ids with
          | None => zeros_like input_Ngram_ids
          | Some t => t
          end in
        let extended_Ngram_attention_mask :=
          extended_attention_mask input_Ngram_ids Ngram_attention_mask in
        match Ngram_embeddings m with
        | Some ng =>
            Ngram_embedding_output ←
              RobertaNgramEmbeddings_forward rt ng input_Ngram_ids
                (Some Ngram_token_type_ids);
            mret (Some Ngram_embedding_output, Some extended_Ngram_attention_mask)
        | None => liftR (Raise AttributeError)
        end
    | None =>
        match Ngram_attention_mask, Ngram_token_type_ids, Ngram_embeddings m with
        | Some _, Some _, None => liftR (Raise AttributeError)
        | _, _, _ => liftR (Raise TypeError)
        end
    end
  else mret (None, None).

Definition RobertaModel_forward (m : RobertaModel)
    (input_ids : list (list Z)) (token_type_ids attention_mask : option (list (list Z)))
    (input_Ngram_ids Ngram_attention_mask Ngram_token_type_ids : option (list (list Z)))
    (Ngram_position_matrix : option Tensor3)
    (output_all_encoded_layers checkpoint_activations output_attentions : bool)
  : M rt RobertaModelOutput :=
  let token_type_ids :=
    match token_type_ids with
    | None => zeros_like input_ids
    | Some t => t
    end in
  let extended_attention_mask := extended_attention_mask input_ids attention_mask in
  embedding_output ←
    RobertaEmbeddings_forward rt (embeddings m) input_ids (Some token_type_ids);
  '(Ngram_embedding_output, extended_Ngram_attention_mask) ←
    Ngram_inputs m input_Ngram_ids Ngram_attention_mask Ngram_token_type_ids;
  '(all_encoder_layers, all_attentions) ←
    RobertaEncoder_forward rt (encoder m) embedding_output extended_attention_mask
      Ngram_embedding_output Ngram_position_matrix extended_Ngram_attention_mask
      output_all_encoded_layers checkpoint_activations output_attentions;
  sequence_output ← liftR (last_layer all_encoder_layers);
  pooled_output ← liftR (RobertaPooler_forward rt (pooler m) sequence_output);
  mret {| encoded_layers :=
            if output_all_encoded_layers then AllLayers all_encoder_layers
            else LastLayer sequence_output;
          pooled_output := pooled_output;
          attentions := if output_attentions then all_attentions else None |}.

End Models.

(** A model of hidden width 1 over [num_layers] layers, for the instances. *)
Definition demo_model (num_layers : nat) : RobertaModel rational_runtime :=
  {| embeddings := {| word_embeddings := [[2]; [3]]%Q;
                      position_embeddings := [[0]; [0]]%Q;
                      token_type_embeddings := [[0]]%Q;
                      layernorm_embedding := false;
                      emb_LayerNorm := None;
                      emb_dropout := 0 |};
     model_is_Ngram := false;
     Ngram_embeddings := None;
     encoder := demo_encoder num_layers;
     pooler := {| pooler_dense_act :=
                    Regular {| rla_dense := zero_linear;
                               rla_act := F_tanh rational_runtime |} |} |}.

(** ** Pre-training models *)

Section PreTraining.
Context (rt : Runtime).

(** [self.predictions(sequence_output, masked_token_indexes)] on the value
    held by [sequence_output]: a list or a tuple has no [view], which the
    sparse mode calls first, and is no argument of [F.linear]. *)
Definition call_predictions (predictions : RobertaLMPredictionHead)
    (sequence_output : EncodedLayers rt) (masked_token_indexes : option (list nat))
  : result Hidden :=
  match sequence_output with
  | LastLayer _ (VTensor _ t) =>
      RobertaOnlyMLMHead_forward rt predictions t masked_token_indexes
  | _ =>
      match masked_token_indexes with
      | Some _ => if sparse_predict predictions then Raise AttributeError
                  else Raise TypeError
      | None => Raise TypeError
      end
  end.

Record RobertaPreTrainingHeads := {
  pth_predictions : RobertaLMPredictionHead;
  pth_seq_relationship : nn_Linear;
}.

Definition RobertaPreTrainingHeads_forward (m : RobertaPreTrainingHeads)
    (sequence_output : EncodedLayers rt) (pooled_output : Matrix)
    (masked_token_indexes : option (list nat)) : result (Hidden * Matrix) :=
  prediction_scores ←
    call_predictions (pth_predictions m) sequence_output masked_token_indexes;
  let seq_relationship_score :=
    map (nn_Linear_forward (pth_seq_relationship m)) pooled_output in
  Ok (prediction_scores, seq_relationship_score).

Record RobertaForPreTraining := {
  pt_roberta : RobertaModel rt;
  pt_cls : RobertaPreTrainingHeads;
}.

(** The entries of [batch] that [RobertaForPreTraining.forward] reads:
    [batch[1]], [batch[2]], [batch[3]], [batch[4]] and [batch[5]]. *)
Record PreTrainingBatch := {
  pb_input_ids : list (list Z);
  pb_attention_mask : option (list (list Z));
  pb_token_type_ids : option (list (list Z));
  pb_next_sentence_label : option (list Z);
  pb_masked_lm_labels : option (list (list Z));
}.

Inductive PreTrainingOutput :=
| TotalLoss (total_loss : Q)
| Scores (prediction_scores : Hidden) (seq_relationship_score : Matrix).

(** [RobertaForPreTraining.forward].  The views
    [prediction_scores.view(-1, vocab_size)] and
    [seq_relationship_score.view(-1, 2)] are the rows of the scores: the
    decoder has the [vocab_size] rows of the word embedding it shares, and
    [seq_relationship] is built with 2 outputs. *)
Definition RobertaForPreTraining_forward (m : RobertaForPreTraining)
    (batch : PreTrainingBatch) : M rt PreTrainingOutput :=
  let input_ids := pb_input_ids batch in
  let token_type_ids := pb_token_type_ids batch in
  let attention_mask := pb_attention_mask batch in
  let masked_lm_labels := pb_masked_lm_labels batch in
  let next_sentence_label := pb_next_sentence_label batch in
  let checkpoint_activations := false in
  out ← RobertaModel_forward rt (pt_roberta m) input_ids token_type_ids attention_mask
          None None None None false checkpoint_activations false;
  let sequence_output := encoded_layers rt out in
  let pooled_output := pooled_output rt out in
  match masked_lm_labels, next_sentence_label with
  | Some masked_lm_labels, Some next_sentence_label =>
      let masked_token_indexes := masked_token_indexes_of masked_lm_labels in
      '(prediction_scores, seq_relationship_score) ←
        liftR (RobertaPreTrainingHeads_forward (pt_cls m) sequence_output pooled_output
                 (Some masked_token_indexes));
      target ← liftR (index_select (concat masked_lm_labels) masked_token_indexes);
      masked_lm_loss ←
        liftR (nn_CrossEntropyLoss rt (-1) (view_rows prediction_scores) target);
      next_sentence_loss ←
        liftR (nn_CrossEntropyLoss rt (-1) seq_relationship_score next_sentence_label);
      mret (TotalLoss (masked_lm_loss + next_sentence_loss))
  | _, _ =>
      '(prediction_scores, seq_relationship_score) ←
        liftR (RobertaPreTrainingHeads_forward (pt_cls m) sequence_output pooled_output
                 None);
      mret (Scores prediction_scores seq_relationship_score)
  end.

Record RobertaLMHeadModel := {
  lm_roberta : RobertaModel rt;
  lm_is_Ngram : bool;
  lm_cls : RobertaLMPredictionHead;
}.

(** The entries of [batch] that [RobertaLMHeadModel.forward] reads:
    [batch[1]] to [batch[4]], and [batch[5]] to [batch[8]] with [is_Ngram]. *)
Record LMHeadBatch := {
  lb_input_ids : list (list Z);
  lb_attention_mask : option (list (list Z));
  lb_token_type_ids : option (list (list Z));
  lb_masked_lm_labels : option (list (list Z));
  lb_input_Ngram_ids : option (list (list Z));
  lb_Ngram_attention_mask : option (list (list Z));
  lb_Ngram_token_type_ids : option (list (list Z));
  lb_Ngram_position_matrix : option Tensor3;
}.

(** [roberta_output[-1]]: the last entry of the tuple the model returned. *)
Inductive LastEntry :=
| LastPooled (pooled_output : Matrix)
| LastAttentions (all_attentions : list (T4 rt)).

Definition roberta_output_last (out : RobertaModelOutput rt) : LastEntry :=
  match attentions rt out with
  | Some a => LastAttentions a
  | None => LastPooled (pooled_output rt out)
  end.

(** The prediction scores, or the tuple [(masked_lm_loss,)] with
    [roberta_output[-1]] appended under [output_attentions]. *)
Inductive LMHeadOutput :=
| PredictionScores (prediction_scores : Hidden)
| Outputs (masked_lm_loss : Q) (last : option LastEntry).

(** [RobertaLMHeadModel.forward]; the view of the scores is their rows, as
    above. *)
Definition RobertaLMHeadModel_forward (m : RobertaLMHeadModel) (batch : LMHeadBatch)
    (output_attentions : bool) : M rt LMHeadOutput :=
  let input_ids := lb_input_ids batch in
  let token_type_ids := lb_token_type_ids batch in
  let attention_mask := lb_attention_mask batch in
  let masked_lm_labels := lb_masked_lm_labels batch in
  let input_Ngram_ids := if lm_is_Ngram m then lb_input_Ngram_ids batch else None in
  let Ngram_attention_mask :=
    if lm_is_Ngram m then lb_Ngram_attention_mask batch else None in
  let Ngram_token_type_ids :=
    if lm_is_Ngram m then lb_Ngram_token_type_ids batch else None in
  let Ngram_position_matrix :=
    if lm_is_Ngram m then lb_Ngram_position_matrix batch else None in
  let checkpoint_activations := false in
  roberta_output ←
    RobertaModel_forward rt (lm_roberta m) input_ids token_type_ids attention_mask
      input_Ngram_ids Ngram_attention_mask Ngram_token_type_ids Ngram_position_matrix
      false checkpoint_activations false;
  let sequence_output := encoded_layers rt roberta_output in
  match masked_lm_labels with
  | None =>
      prediction_scores ← liftR (call_predictions (lm_cls m) sequence_output None);
      mret (PredictionScores prediction_scores)
  | Some masked_lm_labels =>
      let masked_token_indexes := masked_token_indexes_of masked_lm_labels in
      prediction_scores ←
        liftR (call_predictions (lm_cls m) sequence_output (Some masked_token_indexes));
      target ← liftR (index_select (concat masked_lm_labels) masked_token_indexes);
      masked_lm_loss ←
        liftR (nn_CrossEntropyLoss rt (-1) (view_rows prediction_scores) target);
      mret (Outputs masked_lm_loss
              (if output_attentions then Some (roberta_output_last roberta_output)
               else None))
  end.

End PreTraining.

(** Pre-training models over [demo_model 1], in the dense mode. *)
Definition demo_lm_model : RobertaLMHeadModel rational_runtime :=
  {| lm_roberta := demo_model 1; lm_is_Ngram := false; lm_cls := unit_head false [5%Q] |}.

Definition demo_pretraining_model : RobertaForPreTraining rational_runtime :=
  {| pt_roberta := demo_model 1;
     pt_cls := {| pth_predictions := unit_head false [5%Q];
                  pth_seq_relationship :=
                    {| in_features := 1; out_features := 2; weight := [[0]; [0]]%Q;
                       bias := Some [0; 0]%Q |} |} |}.

Definition demo_lm_batch (labels : option (list (list Z))) : LMHeadBatch :=
  {| lb_input_ids := [[0%Z]]; lb_attention_mask := None; lb_token_type_ids := None;
     lb_masked_lm_labels := labels; lb_input_Ngram_ids := None;
     lb_Ngram_attention_mask := None; lb_Ngram_token_type_ids := None;
     lb_Ngram_position_matrix := None |}.

Definition demo_pretraining_batch (labels : option (list (list Z)))
    (next : option (list Z)) : PreTrainingBatch :=
  {| pb_input_ids := [[0%Z]]; pb_attention_mask := None; pb_token_type_ids := None;
     pb_next_sentence_label := next; pb_masked_lm_labels := labels |}.

(** ** Sequence classification *)

Section SequenceClassification.
Context (rt : Runtime).
(** The label tensor, [nn.Dropout] on a (batch, hidden) tensor, and the two
    losses [MSELoss()] and [CrossEntropyLoss()] on the label tensor. *)
Context {Labels : Type}.
Context (nn_Dropout : Q -> Matrix -> RNG rt -> Matrix * RNG rt).
Context (MSELoss : list Q -> Labels -> result Q).
Context (CrossEntropyLoss : Matrix -> Labels -> result Q).

Record RobertaForSequenceClassification := {
  sc_num_labels : Z;
  sc_roberta : RobertaModel rt;
  sc_dropout : Q;
  sc_is_Ngram : bool;
  sc_classifier : nn_Linear;
}.

Record SequenceClassifierOutput := {
  sco_loss : option Q;
  sco_logits : Matrix;
  sco_hidden_states : option (list Tensor3);
  sco_attentions : option (list (T4 rt));
}.

Definition RobertaForSequenceClassification_forward (m : RobertaForSequenceClassification)
    (input_ids : list (list Z)) (token_type_ids attention_mask : option (list (list Z)))
    (input_Ngram_ids Ngram_attention_mask Ngram_token_type_ids : option (list (list Z)))
    (Ngram_position_matrix : option Tensor3) (labels : option Labels)
    (checkpoint_activations : bool) : M rt SequenceClassifierOutput :=
  let input_Ngram_ids := if negb (sc_is_Ngram m) then None else input_Ngram_ids in
  let Ngram_attention_mask := if negb (sc_is_Ngram m) then None else Ngram_attention_mask in
  let Ngram_token_type_ids := if negb (sc_is_Ngram m) then None else Ngram_token_type_ids in
  let Ngram_position_matrix :=
    if negb (sc_is_Ngram m) then None else Ngram_position_matrix in
  outputs ←
    RobertaModel_forward rt (sc_roberta m) input_ids token_type_ids attention_mask
      input_Ngram_ids Ngram_attention_mask Ngram_token_type_ids Ngram_position_matrix
      false checkpoint_activations false;
  let pooled_output := pooled_output rt outputs in
  pooled_output ← liftS (nn_Dropout (sc_dropout m) pooled_output);
  let logits := map (nn_Linear_forward (sc_classifier m)) pooled_output in
  loss ←
    match labels with
    | Some labels =>
        if (sc_num_labels m =? 1)%Z
        then loss ← liftR (MSELoss (concat logits) labels); mret (Some loss)
        else loss ← liftR (CrossEntropyLoss logits labels); mret (Some loss)
    | None => mret None
    end;
  mret {| sco_loss := loss; sco_logits := logits;
          sco_hidden_states := None; sco_attentions := None |}.

End SequenceClassification.

(** A two-class classifier over [num_layers] layers, and stand-ins for the
    dropout in inference mode and for the two losses. *)
Definition demo_classifier (num_layers : nat)
  : RobertaForSequenceClassification rational_runtime :=
  {| sc_num_labels := 2; sc_roberta := demo_model num_layers; sc_dropout := 0;
     sc_is_Ngram := false;
     sc_classifier := {| in_features := 1; out_features := 2; weight := [[0]; [0]]%Q;
                         bias := Some [0; 0]%Q |} |}.

Definition eval_dropout (p : Q) (x : Matrix) (rng : unit) : Matrix * unit := (x, rng).

Definition zero_loss {A} (logits : A) (labels : list Z) : result Q := Ok 0%Q.

(** Pre-training models over the embeddings and the final normalization
    alone, which keep every token of a sequence, and a batch of one
    sequence of two tokens. *)
Definition two_token_lm_model : RobertaLMHeadModel rational_runtime :=
  {| lm_roberta := demo_model 0; lm_is_Ngram := false; lm_cls := unit_head false [5%Q] |}.

Definition two_token_pretraining_model : RobertaForPreTraining rational_runtime :=
  {| pt_roberta := demo_model 0;
     pt_cls := {| pth_predictions := unit_head true [5%Q];
                  pth_seq_relationship :=
                    {| in_features := 1; out_features := 2; weight := [[0]; [0]]%Q;
                       bias := Some [0; 0]%Q |} |} |}.

Definition two_token_lm_batch (labels : list (list Z)) : LMHeadBatch :=
  {| lb_input_ids := [[0; 1]]%Z; lb_attention_mask := None; lb_token_type_ids := None;
     lb_masked_lm_labels := Some labels; lb_input_Ngram_ids := None;
     lb_Ngram_attention_mask := None; lb_Ngram_token_type_ids := None;
     lb_Ngram_position_matrix := None |}.

Definition two_token_pretraining_batch (labels : list (list Z)) (next : list Z)
  : PreTrainingBatch :=
  {| pb_input_ids := [[0; 1]]%Z; pb_attention_mask := None; pb_token_type_ids := None;
     pb_next_sentence_label := Some next; pb_masked_lm_labels := Some labels |}.

(** What the model over the embeddings returns on the two tokens. *)
Definition two_token_sequence : Tensor3 :=
  [[[2000000000000 # 2000000000001]; [3000000000000 # 3000000000001]]]%Q.

Definition two_token_output : RobertaModelOutput rational_runtime :=
  {| encoded_layers :=
       LastLayer rational_runtime (VTensor rational_runtime two_token_sequence);
     pooled_output := [[0 # 2000000000001]]%Q;
     attentions := None |}.

(** The masked-LM loss computed from the hidden rows and the labels
    gathered at the masked-token indexes alone. *)
Definition gathered_loss (rt : Runtime) (cls : RobertaLMPredictionHead)
    (sequence_output : Tensor3) (masked_lm_labels : list (list Z)) : result Q :=
  let masked_token_indexes := masked_token_indexes_of masked_lm_labels in
  rows ← index_select (concat sequence_output) masked_token_indexes;
  logits ← mapR (logit_row rt cls) rows;
  targets ← index_select (concat masked_lm_labels) masked_token_indexes;
  nn_CrossEntropyLoss rt (-1) logits targets.

(** * Properties *)

(** ** Results and lists *)

Lemma mapR_ok_Forall2 {A B} (f : A -> result B) l l' :
  mapR f l = Ok l' <-> Forall2 (fun x y => f x = Ok y) l l'.
Proof.
  revert l'. induction l as [|x l IH]; intros l'; simpl.
  - split.
    + intros [= <-]. constructor.
    + intros H. inversion H. reflexivity.
  - split.
    + destruct (f x) as [y| |] eqn:Hx; simpl; try discriminate.
      destruct (mapR f l) as [ys| |] eqn:Hl; simpl; try discriminate.
      intros [= <-]. constructor; [assumption|]. apply IH. reflexivity.
    + intros H. inversion H as [|? y ? ys Hx Hl]; subst.
      unfold mbind, result_bind. rewrite Hx. apply IH in Hl. rewrite Hl. reflexivity.
Qed.

Lemma mapR_total {A B} (f : A -> result B) l :
  Forall (fun x => is_ok (f x)) l -> is_ok (mapR f l).
Proof.
  induction 1 as [|x l [y Hy] _ [ys Hys]]; simpl.
  - eexists. reflexivity.
  - exists (y :: ys). unfold mbind, result_bind. rewrite Hy, Hys. reflexivity.
Qed.

Lemma mapR_length {A B} (f : A -> result B) l l' :
  mapR f l = Ok l' -> length l' = length l.
Proof.
  intros H. apply mapR_ok_Forall2 in H. symmetry. eapply Forall2_length, H.
Qed.

Lemma mapR_concat {A B} (f : A -> result B) t t' :
  mapR (mapR f) t = Ok t' -> mapR f (concat t) = Ok (concat t').
Proof.
  intros H. apply mapR_ok_Forall2 in H. apply mapR_ok_Forall2.
  induction H as [|r r' t t' Hr _ IH]; simpl.
  - constructor.
  - apply mapR_ok_Forall2 in Hr. apply Forall2_app; assumption.
Qed.

Lemma mapR_nested_total {A B} (f : A -> result B) t :
  Forall (fun x => is_ok (f x)) (concat t) -> is_ok (mapR (mapR f) t).
Proof.
  intros H. apply mapR_total. induction t as [|r t IH]; simpl in *.
  - constructor.
  - apply Forall_app in H as [Hr Ht]. constructor; [apply mapR_total, Hr | apply IH, Ht].
Qed.

Lemma index_select_map {A B} (g : A -> B) rows idx :
  index_select (map g rows) idx = map g <$> index_select rows idx.
Proof.
  unfold index_select. induction idx as [|i idx IH]; simpl; [reflexivity|].
  rewrite list_lookup_fmap. destruct (rows !! i) as [r|]; simpl; [|reflexivity].
  unfold mbind, result_bind. rewrite IH. clear IH.
  destruct (mapR _ idx); reflexivity.
Qed.

Lemma index_select_mapR {A B} (f : A -> result B) rows ys idx :
  mapR f rows = Ok ys ->
  index_select ys idx = sel ← index_select rows idx; mapR f sel.
Proof.
  intros H. apply mapR_ok_Forall2 in H.
  unfold index_select. induction idx as [|i idx IH]; simpl; [reflexivity|].
  destruct (rows !! i) as [r|] eqn:Hr.
  - destruct (Forall2_lookup_l _ _ _ _ _ H Hr) as (y & Hy & Hfy).
    rewrite Hy. unfold mbind, result_bind in *. rewrite IH. clear IH.
    destruct (mapR _ idx) as [sel| |]; simpl; try reflexivity.
    rewrite Hfy. reflexivity.
  - assert (ys !! i = None) as ->.
    { apply lookup_ge_None. apply lookup_ge_None in Hr.
      rewrite <- (Forall2_length _ _ _ H). exact Hr. }
    reflexivity.
Qed.

Lemma index_select_ok {A} (rows : list A) idx :
  Forall (fun i => i < length rows) idx -> is_ok (index_select rows idx).
Proof.
  intros H. apply mapR_total. eapply Forall_impl; [exact H|].
  intros i Hi. destruct (lookup_lt_is_Some_2 rows i Hi) as [r Hr].
  exists r. simpl. rewrite Hr. reflexivity.
Qed.


(** ** Attention construction *)

Lemma py_int_div (h n : Z) :
  n <> 0%Z -> py_int (inject_Z h / inject_Z n) = Z.quot h n.
Proof.
  intros Hn. unfold py_int, Qdiv, Qmult, Qinv, inject_Z. simpl.
  destruct n as [|p|p]; simpl; [contradiction| |].
  - rewrite Z.mul_1_r. reflexivity.
  - change (Z.neg p) with (- Z.pos p)%Z. rewrite Z.quot_opp_r by discriminate.
    rewrite <- Z.quot_opp_l by discriminate. f_equal. lia.
Qed.

Lemma evenly_divisible_mod (h n : Z) :
  n <> 0%Z -> (evenly_divisible h n <-> (h mod n = 0)%Z).
Proof.
  intros Hn. unfold evenly_divisible. rewrite Z.mod_divide by assumption.
  unfold Z.divide. tauto.
Qed.

(** C9, as stated for every configuration, fails outside the valid ones:
    with 768 a multiple of the 12 heads, an attention dropout probability of
    1.5 is refused by [nn.Dropout], a hidden size of -768 by [nn.Linear], and
    so are projections that do not fit in memory: the construction raises
    although the width is divisible. *)
Lemma RobertaSelfAttention_init_invalid_config :
  evenly_divisible 768 12 /\
  RobertaSelfAttention_init enough_memory (attention_config 768 12 (3 # 2))
    ([], []) ([], []) ([], []) = Raise ValueError /\
  evenly_divisible (-768) 12 /\
  RobertaSelfAttention_init enough_memory (attention_config (-768) 12 0)
    ([], []) ([], []) ([], []) = Raise RuntimeError /\
  RobertaSelfAttention_init no_memory (attention_config 768 12 0)
    ([], []) ([], []) ([], []) = Raise RuntimeError.
Proof.
  split; [split; [discriminate | exists 64%Z; reflexivity]|].
  split; [reflexivity|].
  split; [split; [discriminate | exists (-64)%Z; reflexivity]|].
  split; reflexivity.
Qed.

(** C9, for the valid configurations (a positive hidden width, up to
    [2 ^ 53], whose projections fit in memory, and an attention dropout
    probability in [0, 1]): constructing the attention block raises exactly
    when the hidden width is not evenly divisible by the number of heads,
    with [ValueError] on a remainder and [ZeroDivisionError] on zero heads;
    when it is divisible the construction succeeds with head size hidden
    width / head count. *)
Theorem RobertaSelfAttention_init_divisible (torch_empty_fits : list Z -> bool)
    (config : RobertaConfig) (q k v : Matrix * Vec) :
  (0 < hidden_size config <= 2 ^ 53)%Z ->
  torch_empty_fits [hidden_size config; hidden_size config] = true ->
  torch_empty_fits [hidden_size config] = true ->
  (0 <= attention_probs_dropout_prob config)%Q ->
  (attention_probs_dropout_prob config <= 1)%Q ->
  (raises (RobertaSelfAttention_init torch_empty_fits config q k v) <->
   ~ evenly_divisible (hidden_size config) (num_attention_heads config)) /\
  (~ evenly_divisible (hidden_size config) (num_attention_heads config) ->
   RobertaSelfAttention_init torch_empty_fits config q k v
   = Raise (if (num_attention_heads config =? 0)%Z then ZeroDivisionError
            else ValueError)) /\
  (evenly_divisible (hidden_size config) (num_attention_heads config) ->
   exists m, RobertaSelfAttention_init torch_empty_fits config q k v = Ok m /\
             attention_head_size m = (hidden_size config / num_attention_heads config)%Z /\
             (num_attention_heads config * attention_head_size m)%Z = hidden_size config /\
             all_head_size m = hidden_size config).
Proof.
  intros Hh Hfw Hfb Hp0 Hp1.
  assert (Hdrop : nn_Dropout_init (attention_probs_dropout_prob config)
                  = Ok (attention_probs_dropout_prob config)).
  { unfold nn_Dropout_init.
    rewrite (proj2 (Qle_bool_iff _ _) Hp0), (proj2 (Qle_bool_iff _ _) Hp1). reflexivity. }
  unfold RobertaSelfAttention_init, py_mod, raises.
  destruct (Z.eqb_spec (num_attention_heads config) 0) as [H0|H0]; simpl.
  - split; [|split].
    + split; [intros _ [Hn _]; contradiction | intros _; eexists; reflexivity].
    + intros _. reflexivity.
    + intros [Hn _]. contradiction.
  - pose proof (evenly_divisible_mod (hidden_size config) _ H0) as Hdiv.
    destruct (Z.eqb_spec (hidden_size config mod num_attention_heads config) 0)
      as [Hm|Hm]; simpl.
    + assert (Hall : (num_attention_heads config
                      * py_int (inject_Z (hidden_size config)
                                / inject_Z (num_attention_heads config)))%Z
                     = hidden_size config).
      { rewrite py_int_div by assumption.
        apply Z.mod_divide in Hm as [c Hc]; [|assumption].
        rewrite Hc, Z.quot_mul by assumption. lia. }
      assert (Hlin : forall w b,
                nn_Linear_init torch_empty_fits (hidden_size config)
                  (num_attention_heads config
                   * py_int (inject_Z (hidden_size config)
                             / inject_Z (num_attention_heads config))) w b
                = Ok {| in_features := hidden_size config;
                        out_features := hidden_size config;
                        weight := w; bias := Some b |}).
      { intros w b. rewrite Hall. unfold nn_Linear_init. rewrite Hfw, Hfb.
        replace (hidden_size config <? 0)%Z with false by (symmetry; apply Z.ltb_ge; lia).
        reflexivity. }
      rewrite !Hlin. simpl. rewrite Hdrop. simpl. split; [|split].
      * split; [intros [e He]; discriminate | intros Hn; exfalso; apply Hn, Hdiv, Hm].
      * intros Hn. exfalso. apply Hn, Hdiv, Hm.
      * intros _. eexists. split; [reflexivity|]. simpl.
        split; [|split; [exact Hall | exact Hall]].
        rewrite py_int_div by assumption.
        apply Z.mod_divide in Hm as [c Hc]; [|assumption].
        rewrite Hc, Z.quot_mul, Z.div_mul by assumption. reflexivity.
    + split; [|split].
      * split; [intros _ Hd; apply Hm, Hdiv, Hd | intros _; eexists; reflexivity].
      * intros _. reflexivity.
      * intros Hd. exfalso. apply Hm, Hdiv, Hd.
Qed.

Lemma RobertaSelfAttention_init_divisible_witness :
  exists m,
    RobertaSelfAttention_init enough_memory unit_config_768_12 ([], []) ([], []) ([], [])
    = Ok m /\
    attention_head_size m = (768 / 12)%Z /\
    (12 * attention_head_size m)%Z = 768%Z /\
    all_head_size m = 768%Z.
Proof.
  apply (RobertaSelfAttention_init_divisible enough_memory unit_config_768_12
           ([], []) ([], []) ([], [])).
  - simpl. lia.
  - reflexivity.
  - reflexivity.
  - unfold Qle. simpl. lia.
  - unfold Qle. simpl. lia.
  - split; [discriminate | exists 64%Z; reflexivity].
Defined.

Example RobertaSelfAttention_init_768_12 (q k v : Matrix * Vec) :
  attention_head_size <$> RobertaSelfAttention_init enough_memory
    (attention_config 768 12 0) q k v = Ok 64%Z.
Proof. reflexivity. Qed.

Example RobertaSelfAttention_init_770_12 (q k v : Matrix * Vec) :
  RobertaSelfAttention_init enough_memory (attention_config 770 12 0) q k v
  = Raise ValueError.
Proof. reflexivity. Qed.


(** ** Attention bias *)

Lemma lookup_map {A B} (f : A -> B) (l : list A) (i : nat) :
  map f l !! i = f <$> l !! i.
Proof. exact (list_lookup_fmap f l i). Qed.

Lemma bias_at_extended (input_ids : list (list Z)) (mask : list (list Z)) (b s : nat) :
  bias_at (extended_attention_mask input_ids (Some mask)) b s =
  (fun v => ((1 - inject_Z v) * -10000)%Q) <$> mask_at mask b s.
Proof.
  unfold bias_at, mask_at, extended_attention_mask, tensor4_map, to_float, unsqueeze_1_2.
  unfold Tensor4, Vec. rewrite !lookup_map.
  destruct (mask !! b) as [row|]; simpl; [|reflexivity].
  rewrite !lookup_map. destruct (row !! s); reflexivity.
Qed.

Lemma mask_at_ones_like {A} (input_ids : list (list A)) (b s : nat) (v : Z) :
  mask_at (ones_like input_ids) b s = Some v -> v = 1%Z.
Proof.
  unfold mask_at, ones_like. rewrite lookup_map.
  destruct (input_ids !! b) as [row|]; simpl; [|discriminate].
  rewrite lookup_map. destruct (row !! s); simpl; congruence.
Qed.

(** C3: the attention bias [(1.0 - mask) * -10000.0] is 0 wherever the
    mask is 1 and -10000 wherever it is 0; a mask of ones gives a bias of
    zeros, and a mask with one zero entry gives -10000 there and 0
    everywhere else.  The bias has an entry exactly where the mask has one. *)
Theorem extended_attention_mask_values (input_ids mask : list (list Z)) :
  let ext := extended_attention_mask input_ids (Some mask) in
  (forall b s, is_Some (bias_at ext b s) <-> is_Some (mask_at mask b s)) /\
  (forall b s, mask_at mask b s = Some 1%Z -> bias_at ext b s = Some 0%Q) /\
  (forall b s, mask_at mask b s = Some 0%Z -> bias_at ext b s = Some (-10000)%Q) /\
  ((forall b s v, mask_at mask b s = Some v -> v = 1%Z) ->
   forall b s x, bias_at ext b s = Some x -> x = 0%Q) /\
  (forall b0 s0,
     mask_at mask b0 s0 = Some 0%Z ->
     (forall b s v, (b, s) <> (b0, s0) -> mask_at mask b s = Some v -> v = 1%Z) ->
     bias_at ext b0 s0 = Some (-10000)%Q /\
     forall b s x, (b, s) <> (b0, s0) -> bias_at ext b s = Some x -> x = 0%Q).
Proof.
  intros ext. subst ext.
  assert (Hone : forall b s, mask_at mask b s = Some 1%Z ->
            bias_at (extended_attention_mask input_ids (Some mask)) b s = Some 0%Q).
  { intros b s H. rewrite bias_at_extended, H. reflexivity. }
  assert (Hzero : forall b s, mask_at mask b s = Some 0%Z ->
            bias_at (extended_attention_mask input_ids (Some mask)) b s = Some (-10000)%Q).
  { intros b s H. rewrite bias_at_extended, H. reflexivity. }
  assert (Hall : forall b s x,
            (forall v, mask_at mask b s = Some v -> v = 1%Z) ->
            bias_at (extended_attention_mask input_ids (Some mask)) b s = Some x -> x = 0%Q).
  { intros b s x H. rewrite bias_at_extended.
    destruct (mask_at mask b s) as [v|] eqn:Hv; simpl; [|discriminate].
    rewrite (H v eq_refl). intros [= <-]. reflexivity. }
  split; [|split; [exact Hone|split; [exact Hzero|split]]].
  - intros b s. rewrite bias_at_extended. apply fmap_is_Some.
  - intros H b s x. apply Hall. intros v. apply H.
  - intros b0 s0 H0 Hrest. split; [apply Hzero, H0|].
    intros b s x Hne. apply Hall. intros v. apply Hrest, Hne.
Qed.

(** With no mask given, every position is attendable and the bias is zero. *)
Lemma extended_attention_mask_default (input_ids : list (list Z)) (b s : nat) (x : Q) :
  bias_at (extended_attention_mask input_ids None) b s = Some x -> x = 0%Q.
Proof.
  change (extended_attention_mask input_ids None)
    with (extended_attention_mask input_ids (Some (ones_like input_ids))).
  rewrite bias_at_extended.
  destruct (mask_at (ones_like input_ids) b s) as [v|] eqn:Hv; simpl; [|discriminate].
  apply mask_at_ones_like in Hv. subst v. intros [= <-]. reflexivity.
Qed.

Lemma extended_attention_mask_values_witness :
  bias_at (extended_attention_mask [[7; 8; 9]; [7; 8; 9]]%Z
             (Some [[1; 1; 1]; [1; 0; 1]]%Z)) 1 1 = Some (-10000)%Q /\
  forall b s x, (b, s) <> (1, 1) ->
    bias_at (extended_attention_mask [[7; 8; 9]; [7; 8; 9]]%Z
               (Some [[1; 1; 1]; [1; 0; 1]]%Z)) b s = Some x -> x = 0%Q.
Proof.
  apply (extended_attention_mask_values [[7; 8; 9]; [7; 8; 9]]%Z [[1; 1; 1]; [1; 0; 1]]%Z).
  - reflexivity.
  - intros b s v Hne.
    destruct b as [|[|b]]; destruct s as [|[|[|s]]]; intros H; cbv in H; congruence.
Defined.


(** ** RMSNorm *)

Lemma Qle_bool_false (a b : Q) : (b < a)%Q -> Qle_bool a b = false.
Proof.
  intros H. destruct (Qle_bool a b) eqn:E; [|reflexivity].
  apply Qle_bool_iff in E. exfalso. exact (Qlt_not_le _ _ H E).
Qed.

Lemma py_int_full_fraction (d : nat) :
  py_int (inject_Z (Z.of_nat d) * 1) = Z.of_nat d.
Proof.
  unfold py_int, Qmult, inject_Z. simpl. rewrite Z.mul_1_r. apply Z.quot_1_r.
Qed.

Lemma torch_split2_whole (x : Vec) :
  torch_split2 x (Z.of_nat (length x)) (Z.of_nat (length x) - Z.of_nat (length x))
  = Ok (x, []).
Proof.
  unfold torch_split2.
  replace (Z.of_nat (length x) <? 0)%Z with false by (symmetry; apply Z.ltb_ge; lia).
  rewrite Z.sub_diag, Z.add_0_r, Z.eqb_refl. simpl.
  rewrite Nat2Z.id, firstn_all, skipn_all. reflexivity.
Qed.

(** C6: with a partial fraction outside [0, 1], RMSNorm on a row of the
    module's width returns what RMSNorm with fraction 1.0 returns, and both
    are the normalization by the root mean square of the whole last axis. *)
Theorem RMSNorm_fraction_outside_unit_interval (rt : Runtime) (m : RMSNorm) (x : Vec) :
  (rms_p m < 0 \/ 1 < rms_p m)%Q ->
  length x = rms_d m ->
  RMSNorm_forward rt m x = RMSNorm_forward rt (set_rms_p 1 m) x /\
  RMSNorm_forward rt m x = RMSNorm_full_axis rt m x.
Proof.
  intros Hp Hlen.
  assert (Hout : negb (Qle_bool 0 (rms_p m)) || negb (Qle_bool (rms_p m) 1) = true).
  { destruct Hp as [Hp|Hp]; rewrite (Qle_bool_false _ _ Hp); simpl;
      [reflexivity | apply orb_true_r]. }
  unfold RMSNorm_forward, RMSNorm_full_axis. rewrite Hout. simpl rms_p.
  change (negb (Qle_bool 0 1) || negb (Qle_bool 1 1)) with false. cbv iota.
  simpl rms_d. simpl rms_eps. simpl rms_scale. simpl rms_bias. simpl rms_offset.
  rewrite py_int_full_fraction, <- Hlen, torch_split2_whole.
  split; [reflexivity|].
  unfold mbind, result_bind.
  destruct (Nat.eqb_spec (length x) 0) as [H0|H0].
  - rewrite H0. reflexivity.
  - replace (Z.of_nat (length x) =? 0)%Z with false by (symmetry; apply Z.eqb_neq; lia).
    reflexivity.
Qed.

Lemma RMSNorm_fraction_outside_unit_interval_witness :
  RMSNorm_forward rational_runtime (RMSNorm_init 4 (3 # 2) 1e-12 false) [2; 2; 2; 2]%Q
  = RMSNorm_forward rational_runtime (set_rms_p 1 (RMSNorm_init 4 (3 # 2) 1e-12 false))
      [2; 2; 2; 2]%Q.
Proof.
  apply (RMSNorm_fraction_outside_unit_interval rational_runtime
           (RMSNorm_init 4 (3 # 2) 1e-12 false) [2; 2; 2; 2]%Q).
  - right. reflexivity.
  - reflexivity.
Defined.

(** The fractions -0.2 and 1.5 on the row [2, 2, 2, 2]: each entry becomes
    2 / (2 + 1e-12), as with the fraction 1.0. *)
Example RMSNorm_forward_fractions :
  let y := Ok (repeat (2000000000000 # 2000000000001) 4) in
  map Qred <$> RMSNorm_forward rational_runtime
                 (RMSNorm_init 4 (-2 # 10) 1e-12 false) [2; 2; 2; 2]%Q = y /\
  map Qred <$> RMSNorm_forward rational_runtime
                 (RMSNorm_init 4 (15 # 10) 1e-12 false) [2; 2; 2; 2]%Q = y /\
  map Qred <$> RMSNorm_forward rational_runtime
                 (RMSNorm_init 4 1 1e-12 false) [2; 2; 2; 2]%Q = y.
Proof. vm_compute. repeat split. Qed.

(** On a row that does not have the module's width the fraction 1.0 cannot
    split the axis, while a fraction outside [0, 1] never splits. *)
Example RMSNorm_forward_other_width :
  RMSNorm_forward rational_runtime (RMSNorm_init 1 1 1e-12 false) [3; 4]%Q
  = Raise RuntimeError /\
  is_ok (RMSNorm_forward rational_runtime (RMSNorm_init 1 (-1) 1e-12 false) [3; 4]%Q).
Proof. split; [reflexivity | eexists; reflexivity]. Qed.


(** ** Masked-LM prediction head *)

Lemma Qplus_0_r_eq (q : Q) : (q + 0)%Q = q.
Proof.
  destruct q as [n d]. unfold Qplus. simpl.
  rewrite Z.mul_1_r, Z.add_0_r, Pos.mul_1_r. reflexivity.
Qed.

Lemma vec_add_zeros (y : Vec) (n : nat) :
  length y <= n -> vec_add y (repeat 0%Q n) = y.
Proof.
  unfold vec_add. revert n. induction y as [|q y IH]; intros n Hn; [reflexivity|].
  destruct n as [|n]; simpl in *; [lia|].
  rewrite Qplus_0_r_eq, IH by lia. reflexivity.
Qed.

Lemma concat_map_map {A B} (g : A -> B) (t : list (list A)) :
  concat (map (map g) t) = map g (concat t).
Proof.
  induction t as [|r t IH]; simpl; [reflexivity|]. rewrite map_app, IH. reflexivity.
Qed.

Section PredictionHead.
Context (rt : Runtime) (config : RobertaConfig) (T : RobertaPredictionHeadTransform).
Context (W : Matrix) (b : Vec).

Local Abbreviation head := (prediction_head config T W b).

(** Sparse mode: select, then transform and decode without bias. *)
Lemma forward_sparse (t : Tensor3) (idx : list nat) :
  RobertaLMPredictionHead_forward rt (head true) (H3 t) (Some idx) =
  sel ← index_select (concat t) idx;
  rows ← mapR (RobertaPredictionHeadTransform_row rt T) sel;
  Ok (H2 (map (F_linear W None) rows)).
Proof.
  unfold RobertaLMPredictionHead_forward, prediction_head. simpl.
  unfold mbind, result_bind, fmap, result_fmap.
  destruct (index_select (concat t) idx) as [sel| |]; simpl; try reflexivity.
  destruct (mapR _ sel); reflexivity.
Qed.

(** Dense mode: transform and decode with bias everywhere, then gather. *)
Lemma forward_dense (t : Tensor3) (idx : list nat) :
  Forall (fun r => is_ok (RobertaPredictionHeadTransform_row rt T r)) (concat t) ->
  RobertaLMPredictionHead_forward rt (head false) (H3 t) (Some idx) =
  sel ← index_select (concat t) idx;
  rows ← mapR (RobertaPredictionHeadTransform_row rt T) sel;
  Ok (H2 (map (F_linear W (Some b)) rows)).
Proof.
  intros Htot.
  destruct (mapR_nested_total _ _ Htot) as [t' Ht'].
  pose proof (mapR_concat _ _ _ Ht') as Hc.
  unfold RobertaLMPredictionHead_forward, prediction_head. simpl.
  unfold fmap at 2, result_fmap. rewrite Ht'. simpl.
  unfold nn_Linear_forward. simpl.
  rewrite concat_map_map, index_select_map, (index_select_mapR _ _ _ idx Hc).
  unfold mbind, result_bind, fmap, result_fmap.
  destruct (index_select (concat t) idx) as [sel| |]; simpl; try reflexivity.
  destruct (mapR _ sel); reflexivity.
Qed.

Lemma F_linear_bias (x : Vec) :
  F_linear W (Some b) x = vec_add (F_linear W None x) b.
Proof. reflexivity. Qed.

Lemma F_linear_zero_bias (x : Vec) :
  F_linear W (Some (repeat 0%Q (length W))) x = F_linear W None x.
Proof.
  unfold F_linear. apply vec_add_zeros. rewrite length_map. lia.
Qed.

End PredictionHead.

(** C1, as the code has it: on hidden states the transform is defined on,
    the rows returned with sparse mode off are the rows returned with
    sparse mode on plus the bias vector, which only the dense decoder
    adds; the two modes return the same rows when the bias is zero, the
    value it is created with. *)
Theorem sparse_prediction_up_to_bias (rt : Runtime) (config : RobertaConfig)
    (T : RobertaPredictionHeadTransform) (W : Matrix) (b : Vec)
    (t : Tensor3) (idx : list nat) :
  Forall (fun r => is_ok (RobertaPredictionHeadTransform_row rt T r)) (concat t) ->
  let head sparse :=
    set_bias b
      (RobertaLMPredictionHead_init (set_sparse_mask_prediction sparse config) T W) in
  RobertaLMPredictionHead_forward rt (head false) (H3 t) (Some idx) =
    hidden_map (fun y => vec_add y b)
      <$> RobertaLMPredictionHead_forward rt (head true) (H3 t) (Some idx) /\
  (b = repeat 0%Q (length W) ->
   RobertaLMPredictionHead_forward rt (head false) (H3 t) (Some idx) =
   RobertaLMPredictionHead_forward rt (head true) (H3 t) (Some idx)).
Proof.
  intros Htot head. subst head. cbv beta.
  pose proof (forward_dense rt config T W b t idx Htot) as Hd.
  pose proof (forward_sparse rt config T W b t idx) as Hs.
  unfold prediction_head in Hd, Hs. rewrite Hd, Hs. clear Hd Hs.
  unfold mbind, result_bind, fmap, result_fmap.
  destruct (index_select (concat t) idx) as [sel| |]; simpl; [|split; reflexivity..].
  destruct (mapR _ sel) as [rows| |]; simpl; [|split; reflexivity..].
  split.
  - rewrite map_map. reflexivity.
  - intros ->. do 2 f_equal. apply map_ext. intros x. apply F_linear_zero_bias.
Qed.

Lemma sparse_prediction_up_to_bias_witness :
  RobertaLMPredictionHead_forward rational_runtime (unit_head false [0%Q])
    (H3 [[[1]; [3]]; [[5]; [-7]]]%Q) (Some [3; 0; 2]) =
  RobertaLMPredictionHead_forward rational_runtime (unit_head true [0%Q])
    (H3 [[[1]; [3]]; [[5]; [-7]]]%Q) (Some [3; 0; 2]).
Proof.
  apply (sparse_prediction_up_to_bias rational_runtime (unit_config false) unit_transform
           [[1%Q]] [0%Q] [[[1]; [3]]; [[5]; [-7]]]%Q [3; 0; 2]).
  - repeat constructor; eexists; reflexivity.
  - reflexivity.
Defined.

(** C1, as stated, fails for a bias that is not zero: on the single hidden
    row [1] with bias [1], sparse mode returns the logit 1 and dense mode
    the logit 2. *)
Lemma sparse_prediction_differs :
  RobertaLMPredictionHead_forward rational_runtime (unit_head true [1%Q])
    (H3 [[[1%Q]]]) (Some [0]) = Ok (H2 [[1%Q]]) /\
  RobertaLMPredictionHead_forward rational_runtime (unit_head false [1%Q])
    (H3 [[[1%Q]]]) (Some [0]) = Ok (H2 [[2%Q]]) /\
  RobertaLMPredictionHead_forward rational_runtime (unit_head true [1%Q])
    (H3 [[[1%Q]]]) (Some [0]) <>
  RobertaLMPredictionHead_forward rational_runtime (unit_head false [1%Q])
    (H3 [[[1%Q]]]) (Some [0]).
Proof. vm_compute. repeat split. discriminate. Qed.


(** ** Masked-token indexes and the masked-LM loss *)

Lemma int64_wrap_succ_zero (x : Z) :
  in_int64 x -> (int64_wrap (x + 1) = 0 <-> x = -1)%Z.
Proof.
  unfold in_int64, int64_wrap. intros Hx.
  destruct (Z.eq_dec x (2 ^ 63 - 1)%Z) as [->|Hmax].
  - vm_compute. split; discriminate.
  - rewrite Z.mod_small by lia. lia.
Qed.

Lemma elem_of_nonzero_from (v : list Z) (i j : nat) :
  j ∈ nonzero_from i v <->
  exists k x, j = i + k /\ v !! k = Some x /\ x <> 0%Z.
Proof.
  revert i. induction v as [|y v IH]; intros i; simpl.
  - split; [intros H; inversion H | intros (k & x & _ & H & _); discriminate].
  - assert (Hrest : (exists k x, j = S i + k /\ v !! k = Some x /\ x <> 0%Z) <->
                    (exists k x, j = i + S k /\ v !! k = Some x /\ x <> 0%Z)).
    { split; intros (k & x & -> & H); exists k, x; (split; [lia|exact H]). }
    destruct (Z.eqb_spec y 0) as [->|Hy].
    + rewrite IH, Hrest. split.
      * intros (k & x & -> & H). exists (S k), x. split; [reflexivity|exact H].
      * intros (k & x & -> & H & Hx). destruct k as [|k]; simpl in H.
        -- congruence.
        -- exists k, x. auto.
    + rewrite elem_of_cons, IH, Hrest. split.
      * intros [->|(k & x & -> & H)].
        -- exists 0, y. split; [lia|]. split; [reflexivity|exact Hy].
        -- exists (S k), x. split; [reflexivity|exact H].
      * intros (k & x & -> & H & Hx). destruct k as [|k]; simpl in H.
        -- left. lia.
        -- right. exists k, x. auto.
Qed.

Lemma nonzero_from_sorted (v : list Z) (i : nat) :
  StronglySorted lt (nonzero_from i v).
Proof.
  revert i. induction v as [|y v IH]; intros i; simpl; [constructor|].
  destruct (y =? 0)%Z; [apply IH|].
  constructor; [apply IH|]. apply Forall_forall. intros j Hj.
  apply elem_of_nonzero_from in Hj as (k & x & -> & _). lia.
Qed.

Lemma elem_of_masked_token_indexes (labels : list (list Z)) (i : nat) :
  Forall (Forall in_int64) labels ->
  i ∈ masked_token_indexes_of labels <->
  exists v, concat labels !! i = Some v /\ v <> (-1)%Z.
Proof.
  intros Hr. assert (Hflat : Forall in_int64 (concat labels)).
  { induction Hr; simpl; [constructor | apply Forall_app; split; assumption]. }
  unfold masked_token_indexes_of, torch_nonzero.
  rewrite elem_of_nonzero_from. split.
  - intros (k & x & -> & Hk & Hx). change (0 + k) with k.
    rewrite (lookup_map (fun x => int64_wrap (x + 1)) (concat labels) k) in Hk.
    destruct (concat labels !! k) as [v|] eqn:Hv; simpl in Hk; [|discriminate].
    exists v. split; [reflexivity|]. intros ->. apply Hx.
    injection Hk as <-. reflexivity.
  - intros (v & Hv & Hne). exists i, (int64_wrap (v + 1)). split; [reflexivity|].
    rewrite (lookup_map (fun x => int64_wrap (x + 1)) (concat labels) i), Hv.
    split; [reflexivity|]. intros H0. apply Hne.
    apply int64_wrap_succ_zero; [|exact H0].
    rewrite Forall_forall in Hflat. apply Hflat. eapply list_elem_of_lookup_2, Hv.
Qed.

Lemma mapR_fmap {A B C} (f : A -> result B) (g : B -> C) (l : list A) :
  mapR (fun x => g <$> f x) l = map g <$> mapR f l.
Proof.
  induction l as [|x l IH]; simpl; [reflexivity|].
  unfold mbind, result_bind, fmap, result_fmap in *.
  destruct (f x); simpl; try reflexivity. rewrite IH.
  destruct (mapR f l); reflexivity.
Qed.

Lemma index_select_Forall2 {A} (rows : list A) idx sel :
  index_select rows idx = Ok sel -> Forall2 (fun i r => rows !! i = Some r) idx sel.
Proof.
  intros H. apply mapR_ok_Forall2 in H. eapply Forall2_impl; [exact H|].
  intros i r. simpl. destruct (rows !! i); congruence.
Qed.

(** Whatever the mode, the head returns the logit rows of the selected
    hidden rows, when the transform is defined on the hidden states. *)
Lemma RobertaLMPredictionHead_forward_rows (rt : Runtime) (cls : RobertaLMPredictionHead)
    (t : Tensor3) (idx : list nat) :
  Forall (fun r => is_ok (RobertaPredictionHeadTransform_row rt (transform cls) r))
    (concat t) ->
  RobertaLMPredictionHead_forward rt cls (H3 t) (Some idx) =
  sel ← index_select (concat t) idx;
  logits ← mapR (logit_row rt cls) sel;
  Ok (H2 logits).
Proof.
  intros Htot. unfold logit_row.
  assert (Hmap : forall sel,
    mapR (fun r => nn_Linear_forward (decoder cls)
                     <$> RobertaPredictionHeadTransform_row rt (transform cls) r) sel
    = map (nn_Linear_forward (decoder cls))
        <$> mapR (RobertaPredictionHeadTransform_row rt (transform cls)) sel).
  { intros sel. apply mapR_fmap. }
  unfold RobertaLMPredictionHead_forward.
  destruct (sparse_predict cls); simpl.
  - unfold mbind, result_bind, fmap, result_fmap in *.
    destruct (index_select (concat t) idx) as [sel| |]; simpl; try reflexivity.
    rewrite Hmap. destruct (mapR _ sel); reflexivity.
  - destruct (mapR_nested_total _ _ Htot) as [t' Ht'].
    pose proof (mapR_concat _ _ _ Ht') as Hc.
    unfold fmap at 2, result_fmap. rewrite Ht'. simpl.
    rewrite concat_map_map, index_select_map, (index_select_mapR _ _ _ idx Hc).
    unfold mbind, result_bind, fmap, result_fmap in *.
    destruct (index_select (concat t) idx) as [sel| |]; simpl; try reflexivity.
    rewrite Hmap. destruct (mapR _ sel); reflexivity.
Qed.

(** ** Embedding composer *)

Lemma RobertaEmbeddings_forward_no_flag (rt : Runtime) (m : RobertaEmbeddings)
    (input_ids : list (list Z)) (token_type_ids : option (list (list Z))) (rng : RNG rt) :
  layernorm_embedding m = false ->
  RobertaEmbeddings_forward rt m input_ids token_type_ids rng
  = embeddings_without_norm rt m input_ids token_type_ids rng.
Proof.
  intros Hflag. unfold RobertaEmbeddings_forward, embeddings_without_norm.
  rewrite Hflag. unfold mbind, M_bind, result_bind, liftR, liftS, mret, M_ret.
  unfold expand_as, torch_arange, zeros_like.
  destruct (nn_Embedding_forward (word_embeddings m) input_ids); try reflexivity.
  destruct (nn_Embedding_forward (position_embeddings m) _); try reflexivity.
  destruct (nn_Embedding_forward (token_type_embeddings m) _); reflexivity.
Qed.

(** [__init__] reads the flag only from an attribute named
    ["config.layernorm_embedding"]. *)
Lemma RobertaEmbeddings_init_no_dotted_attr (rt : Runtime) (config : RobertaConfig)
    (word position token_type : Matrix) :
  dyn_attrs config !! "config.layernorm_embedding" = None ->
  RobertaEmbeddings_init config word position token_type
  = Ok {| word_embeddings := word; position_embeddings := position;
          token_type_embeddings := token_type; layernorm_embedding := false;
          emb_LayerNorm := None; emb_dropout := hidden_dropout_prob config |}.
Proof.
  intros H. unfold RobertaEmbeddings_init, hasattr. rewrite H.
  rewrite bool_decide_eq_false_2; [reflexivity|]. intros [? ?]. discriminate.
Qed.

(** C8 at a configuration whose [layernorm_embedding] flag is set: the
    module is built with the flag off and without a LayerNorm, and its
    output is the dropout of the sum of the token, position and segment
    lookups, not normalized. *)
Theorem RobertaEmbeddings_flag_ignored (rt : Runtime) (word position token_type : Matrix) :
  dyn_attrs flagged_config !! "layernorm_embedding" = Some true /\
  exists m,
    RobertaEmbeddings_init flagged_config word position token_type = Ok m /\
    layernorm_embedding m = false /\
    emb_LayerNorm m = None /\
    forall input_ids token_type_ids rng,
      RobertaEmbeddings_forward rt m input_ids token_type_ids rng
      = embeddings_without_norm rt m input_ids token_type_ids rng.
Proof.
  split; [reflexivity|]. eexists. split; [reflexivity|]. split; [reflexivity|].
  split; [reflexivity|]. intros. apply RobertaEmbeddings_forward_no_flag. reflexivity.
Qed.

(** One token of embedding [2, 2, 2, 2] at that configuration: the output is
    [2, 2, 2, 2], where the RMSNorm the configuration asks for would give
    2 / (2 + 1e-12) in every entry. *)
Example RobertaEmbeddings_forward_flagged :
  (m ← RobertaEmbeddings_init flagged_config
         [[2; 2; 2; 2]]%Q [repeat 0%Q 4] [repeat 0%Q 4];
   fst <$> RobertaEmbeddings_forward rational_runtime m [[0%Z]] None tt)
  = Ok [[[2; 2; 2; 2]]]%Q /\
  (ln ← get_layer_norm_type flagged_config 4 1e-12;
   map (map (map Qred)) <$> LayerNorm_forward rational_runtime ln [[[2; 2; 2; 2]]]%Q)
  = Ok [[repeat (2000000000000 # 2000000000001) 4]].
Proof. vm_compute. split; reflexivity. Qed.


(** ** Transformer layer *)

(** Case analysis on the innermost result that the goal matches on. *)
Ltac case_result :=
  match goal with
  | |- context [match ?x with _ => _ end] =>
      lazymatch x with
      | context [match _ with _ => _ end] => fail
      | _ => lazymatch type of x with
             | result _ => destruct x as [?| |]
             | prod _ _ => destruct x as [? ?]
             end
      end
  end.

(** C4: with [action = 0] the layer returns its input hidden state as the
    first output, records no attention probabilities and draws nothing from
    the random generator, whatever the attention bias and [keep_prob]. *)
Theorem RobertaLayer_forward_action_0 (rt : Runtime) (m : RobertaLayer)
    (hidden_states : Tensor3) (attention_mask : Tensor4) (keep_prob : Q) (rng : RNG rt) :
  RobertaLayer_forward rt m hidden_states attention_mask 0 keep_prob rng
  = Ok ((hidden_states, None), rng).
Proof. reflexivity. Qed.

Example RobertaLayer_forward_action_0_demo :
  RobertaLayer_forward rational_runtime demo_layer demo_hidden
    (extended_attention_mask [[0%Z]] (Some [[0%Z]])) 0 0 tt
  = Ok ((demo_hidden, None), tt).
Proof. reflexivity. Qed.

(** The layer with the attention block unfolded: the self-output stage is
    handed the (possibly normalized) layer input as second argument, and the
    residual addition to the layer input is made by the layer. *)
Lemma RobertaLayer_forward_residual (rt : Runtime) (m : RobertaLayer)
    (hidden_states : Tensor3) (attention_mask : Tensor4) (action : Z) (keep_prob : Q)
    (rng : RNG rt) :
  action <> 0%Z ->
  RobertaLayer_forward rt m hidden_states attention_mask action keep_prob rng =
  (pre_attn_input ←
     liftR (maybe_layer_norm rt m hidden_states (PreAttentionLayerNorm m) "pre-ln");
   '(context_layer, attention_probs) ←
     RobertaSelfAttention_forward rt (att_self (attention m)) pre_attn_input attention_mask;
   attention_output ←
     RobertaSelfOutput_forward rt (att_output (attention m)) context_layer pre_attn_input;
   intermediate_input ←
     liftR (maybe_layer_norm rt m
              (tensor_add hidden_states (scale_residual attention_output keep_prob))
              (PreAttentionLayerNorm m) "post-ln");
   intermediate_pre_ffn ←
     liftR (maybe_layer_norm rt m intermediate_input (PostAttentionLayerNorm m) "pre-ln");
   intermediate_output ←
     liftR (RobertaIntermediate_forward rt (intermediate m) intermediate_pre_ffn);
   layer_output ← RobertaOutput_forward rt (output m) intermediate_output;
   layer_output ←
     liftR (maybe_layer_norm rt m
              (tensor_add (scale_residual layer_output keep_prob) intermediate_input)
              (PostAttentionLayerNorm m) "post-ln");
   mret (layer_output, Some attention_probs)) rng.
Proof.
  intros Ha. unfold RobertaLayer_forward, RobertaAttention_forward.
  apply Z.eqb_neq in Ha. rewrite Ha.
  unfold mbind, M_bind, liftR, liftS, mret, M_ret.
  repeat (try reflexivity; case_result).
Qed.

(** C10: the self-output stage does not depend on its second argument: it
    is the dropout of the dense projection of the context, for every
    [input_tensor]; the residual addition is made by the enclosing layer. *)
Theorem RobertaSelfOutput_forward_ignores_input_tensor (rt : Runtime)
    (m : RobertaSelfOutput) (context_layer : Tensor3) :
  (forall input_tensor input_tensor',
     RobertaSelfOutput_forward rt m context_layer input_tensor
     = RobertaSelfOutput_forward rt m context_layer input_tensor') /\
  (forall input_tensor rng,
     RobertaSelfOutput_forward rt m context_layer input_tensor rng
     = Ok (F_dropout rt (so_dropout m) (linear3 (so_dense m) context_layer) rng)) /\
  (forall (l : RobertaLayer) hidden_states attention_mask keep_prob input_tensor rng
          pre ctx probs rng1,
     att_output (attention l) = m ->
     maybe_layer_norm rt l hidden_states (PreAttentionLayerNorm l) "pre-ln" = Ok pre ->
     RobertaSelfAttention_forward rt (att_self (attention l)) pre attention_mask rng
       = Ok ((ctx, probs), rng1) ->
     RobertaLayer_forward rt l hidden_states attention_mask 1 keep_prob rng =
     (attention_output ← RobertaSelfOutput_forward rt m ctx input_tensor;
      intermediate_input ←
        liftR (maybe_layer_norm rt l
                 (tensor_add hidden_states (scale_residual attention_output keep_prob))
                 (PreAttentionLayerNorm l) "post-ln");
      intermediate_pre_ffn ←
        liftR (maybe_layer_norm rt l intermediate_input (PostAttentionLayerNorm l) "pre-ln");
      intermediate_output ←
        liftR (RobertaIntermediate_forward rt (intermediate l) intermediate_pre_ffn);
      layer_output ← RobertaOutput_forward rt (output l) intermediate_output;
      layer_output ←
        liftR (maybe_layer_norm rt l
                 (tensor_add (scale_residual layer_output keep_prob) intermediate_input)
                 (PostAttentionLayerNorm l) "post-ln");
      mret (layer_output, Some probs)) rng1).
Proof.
  split; [reflexivity|]. split; [reflexivity|].
  intros l h mask kp input_tensor rng pre ctx probs rng1 <- Hpre Hatt.
  rewrite RobertaLayer_forward_residual by discriminate.
  unfold mbind at 1, M_bind at 1, liftR at 1. rewrite Hpre.
  unfold mbind at 1, M_bind at 1. rewrite Hatt. reflexivity.
Qed.

Lemma RobertaSelfOutput_forward_ignores_input_tensor_witness :
  RobertaSelfOutput_forward rational_runtime (att_output (attention demo_layer))
    [[[5]]]%Q [[[7]]]%Q
  = RobertaSelfOutput_forward rational_runtime (att_output (attention demo_layer))
      [[[5]]]%Q demo_hidden /\
  RobertaSelfOutput_forward rational_runtime (att_output (attention demo_layer))
    [[[5]]]%Q [[[7]]]%Q tt
  = Ok ([[[0%Q]]], tt).
Proof.
  pose proof (RobertaSelfOutput_forward_ignores_input_tensor rational_runtime
                (att_output (attention demo_layer)) [[[5]]]%Q) as (Hsame & Hout & _).
  split; [apply Hsame|]. rewrite Hout. vm_compute. reflexivity.
Defined.


(** ** Encoder stack: recording of the per-layer states *)

Section Recording.
Context (rt : Runtime) (m : RobertaEncoder rt) {A : Type}.
Context (run : A -> Tensor3 -> M rt (Tensor3 * option (T4 rt))).
Context (Ngram_position_matrix : option Tensor3) (Ngram_attention_mask : option Tensor4).
Context (output_attentions : bool).

Local Abbreviation step :=
  (recording_step rt m run Ngram_position_matrix Ngram_attention_mask output_attentions).
Local Abbreviation same_core := (same_core rt).

Lemma encoder_step_recording (l : A) (i : nat) (st st' : LoopState rt) (rng : RNG rt) :
  same_core st st' ->
  match step true l i st rng with
  | Ok (s1, r1) =>
      exists s2, step false l i st' rng = Ok (s2, r1) /\ same_core s1 s2 /\
        ls_all_encoder_layers rt s2 = ls_all_encoder_layers rt st' /\
        ls_all_encoder_layers rt s1
        = (ls_all_encoder_layers rt st ++ [VTensor rt (ls_hidden_states rt s1)])%list
  | Raise e => step false l i st' rng = Raise e
  | Diverge => step false l i st' rng = Diverge
  end.
Proof.
  intros (Hh & Hn & Ha). unfold recording_step, encoder_step.
  rewrite <- Hh, <- Hn, <- Ha.
  unfold mbind, M_bind, mret, M_ret.
  destruct (run l (ls_hidden_states rt st) rng) as [[[h p] r1]| |]; try reflexivity.
  destruct (Ngram_step rt m i h _ _ _ r1) as [[[h' n'] r2]| |]; try reflexivity.
  eexists. split; [reflexivity|]. repeat split.
Qed.

Lemma encoder_loop_recording (ls : list A) (i : nat) (st st' : LoopState rt) (rng : RNG rt) :
  same_core st st' ->
  match encoder_loop rt (step true) ls i st rng with
  | Ok (s1, r1) =>
      exists s2 snaps,
        encoder_loop rt (step false) ls i st' rng = Ok (s2, r1) /\ same_core s1 s2 /\
        ls_all_encoder_layers rt s2 = ls_all_encoder_layers rt st' /\
        ls_all_encoder_layers rt s1 = (ls_all_encoder_layers rt st ++ snaps)%list /\
        length snaps = length ls /\
        (ls <> [] -> last snaps = Some (VTensor rt (ls_hidden_states rt s1)))
  | Raise e => encoder_loop rt (step false) ls i st' rng = Raise e
  | Diverge => encoder_loop rt (step false) ls i st' rng = Diverge
  end.
Proof.
  revert i st st' rng. induction ls as [|l ls IH]; intros i st st' rng Hc; simpl.
  - exists st', []. rewrite app_nil_r. repeat split; try assumption; try apply Hc.
    intros H. contradiction.
  - unfold mbind, M_bind.
    pose proof (encoder_step_recording l i st st' rng Hc) as Hs.
    destruct (step true l i st rng) as [[s1 r1]| |].
    + destruct Hs as (s2 & -> & Hc' & Hl2 & Hl1).
      specialize (IH (S i) s1 s2 r1 Hc').
      destruct (encoder_loop rt (step true) ls (S i) s1 r1) as [[t1 q1]| |] eqn:E;
        try exact IH.
      destruct IH as (t2 & snaps & -> & Hct & Ht2 & Ht1 & Hlen & Hlast).
      exists t2, (VTensor rt (ls_hidden_states rt s1) :: snaps).
      repeat split; try apply Hct.
      * congruence.
      * rewrite Ht1, Hl1, <- app_assoc. reflexivity.
      * simpl. congruence.
      * intros _. destruct ls as [|l' ls'].
        -- destruct snaps; [|discriminate]. simpl in E.
           unfold mret, M_ret in E. injection E as <- _. reflexivity.
        -- rewrite last_cons, Hlast by discriminate. reflexivity.
    + rewrite Hs. reflexivity.
    + rewrite Hs. reflexivity.
Qed.

End Recording.


(** The three outcomes of the recording run, given the loop lemma [H]. *)
Ltac recording_cases H Hlen :=
  match type of H with
  | match ?loop with _ => _ end =>
      destruct loop as [[s1 r1]| |];
      [ destruct H as (s2 & snaps & -> & (Hh & _ & Ha) & Hl2 & Hl1 & Hn & Hlast);
        simpl in Hl1, Hl2;
        exists (ls_hidden_states _ s1); rewrite Hl1, Hl2, <- Hh, <- Ha;
        split; [apply Hlast; intros ->; simpl in Hlen; lia|];
        split; [exact Hn|];
        match goal with
        | |- context [useLN ?c && ?x] => destruct (useLN c && x)
        end; [|reflexivity];
        simpl; unfold fmap, result_fmap, mbind, result_bind;
        match goal with
        | |- context [LayerNorm_forward ?a ?b ?c] => destruct (LayerNorm_forward a b c)
        end; reflexivity
      | rewrite H; reflexivity
      | rewrite H; reflexivity ]
  end.

(** C2, as the code has it: without checkpointing, a run that records every
    layer returns one state per layer, the last of them the state after the
    last layer as it is, while the run that does not record returns that
    same state passed through [FinalLayerNorm] when normalization is on and
    the mode is pre-norm, and unchanged otherwise; the attention lists, the
    random generator and the raised errors are the same. *)
Theorem encoder_final_state_recording (rt : Runtime) (m : RobertaEncoder rt)
    (hidden_states : Tensor3) (attention_mask : Tensor4)
    (Ngram_hidden_states Ngram_position_matrix : option Tensor3)
    (Ngram_attention_mask : option Tensor4) (output_attentions : bool) (rng : RNG rt) :
  0 < len_layer rt (layer rt m) ->
  let forward record :=
    RobertaEncoder_forward rt m hidden_states attention_mask Ngram_hidden_states
      Ngram_position_matrix Ngram_attention_mask record false output_attentions rng in
  match forward true with
  | Ok ((encoded_layers, all_attentions), rng') =>
      exists final,
        last encoded_layers = Some (VTensor rt final) /\
        length encoded_layers = len_layer rt (layer rt m) /\
        forward false =
        if useLN (enc_config rt m) && str_in (encoder_ln_mode (enc_config rt m)) "pre-ln"
        then normed ← LayerNorm_forward rt (FinalLayerNorm rt m) final;
             Ok (([VTensor rt normed], all_attentions), rng')
        else Ok (([VTensor rt final], all_attentions), rng')
  | Raise e => forward false = Raise e
  | Diverge => forward false = Diverge
  end.
Proof.
  intros Hlen forward. subst forward. cbv beta.
  unfold RobertaEncoder_forward. cbv zeta.
  set (st0 := {| ls_hidden_states := hidden_states;
                 ls_Ngram_hidden_states := Ngram_hidden_states;
                 ls_all_encoder_layers := [];
                 ls_all_attentions := [] |}).
  assert (Hcore : same_core rt st0 st0) by (repeat split).
  unfold len_layer in *.
  unfold mbind, M_bind, mret, M_ret, liftR. simpl negb. simpl orb. cbv iota.
  destruct (layer rt m) as [ls|ls].
  - pose proof (encoder_loop_recording rt m
                  (fun f => run_kernel rt f attention_mask)
                  Ngram_position_matrix Ngram_attention_mask output_attentions
                  ls 0 st0 st0 rng Hcore) as H.
    unfold recording_step in H. cbv beta in H. recording_cases H Hlen.
  - pose proof (encoder_loop_recording rt m
                  (fun l => run_layer rt l attention_mask)
                  Ngram_position_matrix Ngram_attention_mask output_attentions
                  ls 0 st0 st0 rng Hcore) as H.
    unfold recording_step in H. cbv beta in H. recording_cases H Hlen.
Qed.


Lemma encoder_final_state_recording_witness :
  match RobertaEncoder_forward rational_runtime (demo_encoder 1) demo_hidden demo_mask
          None None None true false false tt with
  | Ok ((encoded_layers, all_attentions), rng') =>
      exists final,
        last encoded_layers = Some (VTensor rational_runtime final) /\
        length encoded_layers = 1 /\
        RobertaEncoder_forward rational_runtime (demo_encoder 1) demo_hidden demo_mask
          None None None false false false tt =
        (normed ← LayerNorm_forward rational_runtime demo_norm final;
         Ok (([VTensor rational_runtime normed], all_attentions), rng'))
  | Raise e =>
      RobertaEncoder_forward rational_runtime (demo_encoder 1) demo_hidden demo_mask
        None None None false false false tt = Raise e
  | Diverge =>
      RobertaEncoder_forward rational_runtime (demo_encoder 1) demo_hidden demo_mask
        None None None false false false tt = Diverge
  end.
Proof.
  apply (encoder_final_state_recording rational_runtime (demo_encoder 1) demo_hidden
           demo_mask None None None false tt).
  simpl. lia.
Defined.

(** C2, as stated, fails in pre-norm mode with normalization on: for one
    layer that returns its input [2], the final hidden state of the
    recording run is [2] and that of the other run is its RMSNorm,
    [2 / (2 + 1e-12)]. *)
Lemma encoder_final_state_differs :
  let forward record :=
    RobertaEncoder_forward rational_runtime (demo_encoder 1) demo_hidden demo_mask
      None None None record false false tt in
  useLN (enc_config _ (demo_encoder 1)) = true /\
  str_in (encoder_ln_mode (enc_config _ (demo_encoder 1))) "pre-ln" = true /\
  Qred <$> first_entry (forward true) = Some 2%Q /\
  Qred <$> first_entry (forward false) = Some (2000000000000 # 2000000000001)%Q /\
  first_entry (forward true) <> first_entry (forward false).
Proof.
  intros forward.
  assert (H1 : Qred <$> first_entry (forward true) = Some 2%Q)
    by (vm_compute; reflexivity).
  assert (H2 : Qred <$> first_entry (forward false) = Some (2000000000000 # 2000000000001)%Q)
    by (vm_compute; reflexivity).
  split; [reflexivity|]. split; [reflexivity|]. split; [exact H1|]. split; [exact H2|].
  intros Heq. rewrite Heq, H2 in H1. discriminate H1.
Qed.


(** ** Encoder stack: checkpointed chunks *)

(** [chunk_length n] is the ceiling of the square root of [n]. *)
Lemma chunk_length_ceil_sqrt (n : nat) :
  n <= chunk_length n * chunk_length n /\
  (0 < n -> (chunk_length n - 1) * (chunk_length n - 1) < n).
Proof.
  unfold chunk_length. destruct n as [|n].
  - split; [reflexivity | lia].
  - pose proof (Nat.sqrt_up_spec (S n) ltac:(lia)) as [H1 H2].
    rewrite <- Nat.sub_1_r in H1. split; [exact H2 | intros _; exact H1].
Qed.

Lemma chunk_length_pos (n : nat) : 0 < n -> 0 < chunk_length n.
Proof.
  intros Hn. pose proof (chunk_length_ceil_sqrt n) as [H _].
  destruct (chunk_length n); [simpl in H; lia | lia].
Qed.

(** The checkpointing loop visits the bounds [l + k c, l + (k + 1) c] for
    [k] below the number [q] of chunks, and ends once they cover [n]. *)
Lemma checkpoint_loop_bounds (rt : Runtime) (fuel l n c : nat)
    (acc : list (nat * nat)) (rng : RNG rt) :
  0 < c -> n - l <= fuel ->
  exists q,
    checkpoint_loop rt fuel l n c
      (fun start end_ acc => mret (acc ++ [(start, end_)])%list) acc rng
    = Ok ((acc ++ map (fun k => (l + k * c, l + k * c + c)) (seq 0 q))%list, rng) /\
    (l < n -> 0 < q /\ l + (q - 1) * c < n <= l + q * c) /\
    (n <= l -> q = 0).
Proof.
  intros Hc. revert l acc. induction fuel as [|fuel IH]; intros l acc Hf.
  - exists 0. simpl. destruct (Nat.ltb_spec l n) as [Hl|Hl]; [lia|].
    rewrite app_nil_r. repeat split; lia.
  - simpl. destruct (Nat.ltb_spec l n) as [Hl|Hl].
    + destruct (IH (l + c) (acc ++ [(l, l + c)])%list ltac:(lia)) as (q & Hq & Hlt & Hge).
      exists (S q). unfold mbind, M_bind, mret, M_ret in *. rewrite Hq.
      split.
      * rewrite <- app_assoc. simpl. rewrite Nat.add_0_r.
        do 4 f_equal. rewrite <- seq_shift, map_map.
        apply map_ext. intros k. f_equal; lia.
      * split; [|lia]. intros _. split; [lia|].
        destruct (Nat.lt_ge_cases (l + c) n) as [H|H].
        -- destruct (Hlt H) as [Hq0 Hb]. replace (S q - 1) with (S (q - 1)) by lia. lia.
        -- rewrite (Hge H). simpl. lia.
    + exists 0. simpl. rewrite app_nil_r. repeat split; lia.
Qed.

(** Consecutive slices of width [c] concatenate to a prefix. *)
Lemma concat_slices {A} (ls : list A) (c q l : nat) :
  concat (map (fun k => slice ls (l + k * c) (l + k * c + c)) (seq 0 q))
  = take (q * c) (drop l ls).
Proof.
  revert l. induction q as [|q IH]; intros l; simpl; [reflexivity|].
  rewrite <- seq_shift, map_map.
  rewrite (map_ext _ (fun k => slice ls ((l + c) + k * c) ((l + c) + k * c + c)))
    by (intros k; f_equal; lia).
  rewrite IH. unfold slice. rewrite Nat.add_0_r.
  replace (l + c - l) with c by lia.
  rewrite <- (drop_drop ls c l), <- take_take_drop. reflexivity.
Qed.

Lemma length_slice {A} (ls : list A) (a b : nat) :
  length (slice ls a b) = Nat.min (b - a) (length ls - a).
Proof. unfold slice. rewrite length_take, length_drop. reflexivity. Qed.


(** *** No computation of a layer runs out of fuel *)

Lemma result_bind_total {A B} (c : result A) (k : A -> result B) :
  c <> Diverge -> (forall a, k a <> Diverge) -> (c ≫= k) <> Diverge.
Proof. intros Hc Hk. destruct c; simpl; [apply Hk | discriminate | contradiction]. Qed.

Lemma M_bind_total {rt A B} (c : M rt A) (k : A -> M rt B) (rng : RNG rt) :
  (forall r, c r <> Diverge) -> (forall a r, k a r <> Diverge) -> (c ≫= k) rng <> Diverge.
Proof.
  intros Hc Hk. unfold mbind, M_bind. specialize (Hc rng).
  destruct (c rng) as [[a r]| |]; [apply Hk | discriminate | contradiction].
Qed.

Lemma liftR_total {rt A} (r : result A) (rng : RNG rt) :
  r <> Diverge -> liftR r rng <> Diverge.
Proof. intros H. destruct r; [discriminate | discriminate | contradiction]. Qed.

Lemma mapR_total_fuel {A B} (f : A -> result B) (l : list A) :
  (forall x, f x <> Diverge) -> mapR f l <> Diverge.
Proof.
  intros Hf. induction l as [|x l IH]; simpl; [discriminate|].
  apply result_bind_total; [apply Hf|]. intros y.
  apply result_bind_total; [exact IH|]. discriminate.
Qed.

Lemma broadcast2_total (f : Q -> Q -> Q) (a b : Vec) : broadcast2 f a b <> Diverge.
Proof.
  unfold broadcast2. destruct (length a =? length b)%nat; [discriminate|].
  destruct a as [|x [|? ?]]; destruct b as [|y [|? ?]]; discriminate.
Qed.

Lemma RMSNorm_forward_total (rt : Runtime) (m : RMSNorm) (x : Vec) :
  RMSNorm_forward rt m x <> Diverge.
Proof.
  unfold RMSNorm_forward. apply result_bind_total.
  - destruct (negb _ || negb _); [discriminate|].
    apply result_bind_total; [|intros [? ?]; discriminate].
    unfold torch_split2. destruct (_ || _ || _); discriminate.
  - intros [norm_x d_x]. apply result_bind_total.
    + destruct (d_x =? 0)%Z; discriminate.
    + intros pw. cbv zeta. apply result_bind_total; [apply broadcast2_total|].
      intros y. destruct (rms_bias m); [apply broadcast2_total | discriminate].
Qed.

Lemma LayerNorm_forward_total (rt : Runtime) (ln : LayerNormModule) (t : Tensor3) :
  LayerNorm_forward rt ln t <> Diverge.
Proof.
  unfold LayerNorm_forward. apply mapR_total_fuel. intros row.
  apply mapR_total_fuel. intros x.
  destruct ln; simpl; [discriminate | apply RMSNorm_forward_total].
Qed.

Lemma maybe_layer_norm_total (rt : Runtime) (m : RobertaLayer) (t : Tensor3)
    (ln : LayerNormModule) (mode : string) :
  maybe_layer_norm rt m t ln mode <> Diverge.
Proof.
  unfold maybe_layer_norm. destruct (_ && _); [apply LayerNorm_forward_total | discriminate].
Qed.

Lemma RobertaIntermediate_forward_total (rt : Runtime) (m : RobertaIntermediate)
    (t : Tensor3) :
  RobertaIntermediate_forward rt m t <> Diverge.
Proof.
  unfold RobertaIntermediate_forward. apply mapR_total_fuel. intros row.
  apply mapR_total_fuel. intros x.
  destruct (int_dense m) as [la|ra]; simpl; [|discriminate].
  unfold LinearActivation_forward.
  destruct (la_fused_gelu la), (la_fused_tanh la), (la_fused_relu la), (la_act_fn la);
    discriminate.
Qed.

Lemma RobertaLayer_forward_total (rt : Runtime) (m : RobertaLayer) (h : Tensor3)
    (mask : Tensor4) (action : Z) (keep_prob : Q) (rng : RNG rt) :
  RobertaLayer_forward rt m h mask action keep_prob rng <> Diverge.
Proof.
  unfold RobertaLayer_forward. apply M_bind_total.
  - intros r. destruct (action =? 0)%Z; [discriminate|].
    apply M_bind_total; [intros r'; apply liftR_total, maybe_layer_norm_total|].
    intros pre r'. apply M_bind_total.
    + intros r''. unfold RobertaAttention_forward. apply M_bind_total.
      * intros r3. unfold RobertaSelfAttention_forward. cbv zeta.
        apply M_bind_total; [discriminate|]. intros; discriminate.
      * intros [ctx p] r3. apply M_bind_total; [discriminate|]. intros; discriminate.
    + intros [a p] r''. cbv zeta.
      apply M_bind_total; [intros r3; apply liftR_total, maybe_layer_norm_total|].
      intros; discriminate.
  - intros [inter probs] r. apply M_bind_total; [|intros; discriminate].
    intros r'. destruct (action =? 0)%Z; [discriminate|].
    apply M_bind_total; [intros r3; apply liftR_total, maybe_layer_norm_total|].
    intros pre r3.
    apply M_bind_total; [intros r4; apply liftR_total, RobertaIntermediate_forward_total|].
    intros io r4. apply M_bind_total; [discriminate|].
    intros lo r5. cbv zeta. apply liftR_total, maybe_layer_norm_total.
Qed.


Lemma encoder_loop_total (rt : Runtime) (m : RobertaEncoder rt) {A}
    (run : A -> Tensor3 -> M rt (Tensor3 * option (T4 rt)))
    (Ngram_position_matrix : option Tensor3) (Ngram_attention_mask : option Tensor4)
    (record output_attentions : bool) (ls : list A) (i : nat) (st : LoopState rt)
    (rng : RNG rt) :
  (forall l h r, run l h r <> Diverge) ->
  encoder_loop rt
    (fun l => encoder_step rt m (run l) Ngram_position_matrix Ngram_attention_mask
                record output_attentions) ls i st rng <> Diverge.
Proof.
  intros Hrun. revert i st rng. induction ls as [|l ls IH]; intros i st rng; simpl;
    [discriminate|].
  apply M_bind_total; [|intros st' r; apply IH].
  intros r. unfold encoder_step. apply M_bind_total; [intros r'; apply Hrun|].
  intros [h p] r'. cbv zeta. apply M_bind_total; [|intros [? ?] ?; discriminate].
  intros r''. unfold Ngram_step.
  destruct (is_Ngram rt m && (i <? num_hidden_Ngram_layers rt m)%nat); [|discriminate].
  destruct (Ngram_layer rt m !! i) as [l'|]; [|discriminate].
  destruct (ls_Ngram_hidden_states rt st) as [nh|]; [|discriminate].
  destruct Ngram_attention_mask as [nm|].
  - apply M_bind_total; [intros r3; apply RobertaLayer_forward_total|].
    intros [? ?] ?. destruct Ngram_position_matrix; discriminate.
  - apply M_bind_total; [intros r3; apply liftR_total, maybe_layer_norm_total|].
    intros; discriminate.
Qed.

(** *** Chunks of layers run as one unit *)

Lemma run_modules_app (rt : Runtime) {A}
    (call : A -> PyVal rt -> Tensor4 -> M rt (PyVal rt)) (a b : list A)
    (x : PyVal rt) (mask : Tensor4) (rng : RNG rt) :
  run_modules rt call (a ++ b) x mask rng =
  match run_modules rt call a x mask rng with
  | Ok (x', rng') => run_modules rt call b x' mask rng'
  | Raise e => Raise e
  | Diverge => Diverge
  end.
Proof.
  revert x rng. induction a as [|l a IH]; intros x rng; simpl; [reflexivity|].
  unfold mbind, M_bind. destruct (call l x mask rng) as [[x' r]| |]; [apply IH|..];
    reflexivity.
Qed.

(** The loop over chunks of [ls] runs the layers of [ls] from [l] on, in
    order, each once. *)
Lemma checkpoint_loop_run_modules (rt : Runtime) {A}
    (call : A -> PyVal rt -> Tensor4 -> M rt (PyVal rt)) (ls : list A)
    (fuel l c : nat) (x : PyVal rt) (mask : Tensor4) (rng : RNG rt) :
  0 < c -> length ls - l <= fuel ->
  checkpoint_loop rt fuel l (length ls) c
    (fun start end_ x_ =>
       checkpoint_checkpoint (run_modules rt call (slice ls start end_)) x_ mask) x rng
  = run_modules rt call (drop l ls) x mask rng.
Proof.
  intros Hc. revert l x rng. induction fuel as [|fuel IH]; intros l x rng Hf; simpl.
  - destruct (Nat.ltb_spec l (length ls)) as [Hl|Hl]; [lia|].
    rewrite drop_ge by lia. reflexivity.
  - destruct (Nat.ltb_spec l (length ls)) as [Hl|Hl].
    + rewrite <- (take_drop c (drop l ls)), drop_drop, run_modules_app.
      unfold mbind, M_bind, checkpoint_checkpoint, slice.
      replace (l + c - l) with c by lia.
      destruct (run_modules rt call (take c (drop l ls)) x mask rng) as [[x' r]| |];
        [|reflexivity..].
      rewrite IH by lia. reflexivity.
    + rewrite drop_ge by lia. reflexivity.
Qed.

(** The DeepSpeed kernel layers return tensors and never raise. *)
Lemma run_modules_kernel (rt : Runtime)
    (ls : list (Tensor3 -> Tensor4 -> RNG rt -> Tensor3 * RNG rt))
    (h : Tensor3) (mask : Tensor4) (rng : RNG rt) :
  exists h' rng', run_modules rt (call_kernel rt) ls (VTensor rt h) mask rng
                  = Ok (VTensor rt h', rng').
Proof.
  revert h rng. induction ls as [|f ls IH]; intros h rng; simpl.
  - exists h, rng. reflexivity.
  - unfold mbind, M_bind, liftS, mret, M_ret.
    destruct (f h mask rng) as [h1 r1]. apply IH.
Qed.

(** A [RobertaLayer] returns a pair, which the next layer cannot take. *)
Lemma run_modules_layers_tuple (rt : Runtime) (l : RobertaLayer) (ls : list RobertaLayer)
    (t : Tensor3) (p : option (T4 rt)) (mask : Tensor4) (rng : RNG rt) :
  run_modules rt (call_layer rt) (l :: ls) (VTuple rt t p) mask rng
  = Raise (RobertaLayer_non_tensor_error l).
Proof. reflexivity. Qed.

Lemma run_modules_two_layers (rt : Runtime) (l1 l2 : RobertaLayer)
    (ls : list RobertaLayer) (h : Tensor3) (mask : Tensor4) (rng : RNG rt) :
  run_modules rt (call_layer rt) (l1 :: l2 :: ls) (VTensor rt h) mask rng =
  match RobertaLayer_forward rt l1 h mask 1 1 rng with
  | Ok _ => Raise (RobertaLayer_non_tensor_error l2)
  | Raise e => Raise e
  | Diverge => Diverge
  end.
Proof.
  simpl. unfold mbind, M_bind, mret, M_ret.
  destruct (RobertaLayer_forward rt l1 h mask 1 1 rng) as [[[o p] r]| |]; reflexivity.
Qed.


(** X8: With DeepSpeed kernel layers the checkpointed encoder does what C7
    says: the chunk length is the ceiling of the square root of the number
    of layers, the chunks are consecutive slices of that length (the last
    one possibly shorter) that together are the layer list, and the output
    list holds one state, the state after the last chunk (normalized in
    pre-norm mode). *)
Theorem checkpointed_kernel_chunks (rt : Runtime) (m : RobertaEncoder rt)
    (ls : list (Tensor3 -> Tensor4 -> RNG rt -> Tensor3 * RNG rt))
    (hidden_states : Tensor3) (attention_mask : Tensor4)
    (Ngram_hidden_states Ngram_position_matrix : option Tensor3)
    (Ngram_attention_mask : option Tensor4) (record output_attentions : bool)
    (rng : RNG rt) :
  layer rt m = KernelLayers rt ls ->
  let n := length ls in
  let c := chunk_length n in
  (n <= c * c /\ (0 < n -> (c - 1) * (c - 1) < n)) /\
  (exists q,
     chunk_bounds rt n rng = Ok (map (fun k => (k * c, k * c + c)) (seq 0 q), rng) /\
     concat (chunks_of ls (map (fun k => (k * c, k * c + c)) (seq 0 q))) = ls /\
     (forall k, S k < q -> length (slice ls (k * c) (k * c + c)) = c) /\
     (0 < q -> 0 < length (slice ls ((q - 1) * c) ((q - 1) * c + c)) <= c)) /\
  (exists final rng',
     run_modules rt (call_kernel rt) ls (VTensor rt hidden_states)
       (tensor4_map (fun x => (x * 1)%Q) attention_mask) rng
     = Ok (VTensor rt final, rng') /\
     RobertaEncoder_forward rt m hidden_states attention_mask Ngram_hidden_states
       Ngram_position_matrix Ngram_attention_mask record true output_attentions rng =
     let all_attentions := if output_attentions then Some [] else None in
     if useLN (enc_config rt m) && str_in (encoder_ln_mode (enc_config rt m)) "pre-ln"
     then normed ← LayerNorm_forward rt (FinalLayerNorm rt m) final;
          Ok (([VTensor rt normed], all_attentions), rng')
     else Ok (([VTensor rt final], all_attentions), rng')).
Proof.
  intros Hlayer n c.
  pose proof (chunk_length_ceil_sqrt n) as Hsqrt. fold c in Hsqrt.
  split; [exact Hsqrt|]. split.
  - destruct (Nat.eq_dec n 0) as [Hn|Hn].
    + exists 0. unfold chunk_bounds. rewrite Hn. simpl.
      assert (ls = []) as -> by (apply length_zero_iff_nil, Hn).
      repeat split; try reflexivity; intros; lia.
    + assert (Hc : 0 < c) by (apply chunk_length_pos; lia).
      destruct (checkpoint_loop_bounds rt n 0 n c [] rng Hc ltac:(lia))
        as (q & Hq & Hlt & _).
      destruct (Hlt ltac:(lia)) as [Hq0 Hb]. simpl in Hq, Hb.
      exists q. split; [exact Hq|]. split; [|split].
      * unfold chunks_of. rewrite map_map. cbn [fst snd].
        pose proof (concat_slices ls c q 0) as Hcs. cbn [Nat.add] in Hcs.
        rewrite Hcs, drop_0. apply take_ge. fold n. lia.
      * intros k Hk. rewrite length_slice. fold n.
        assert (S k * c <= (q - 1) * c) by (apply Nat.mul_le_mono_r; lia). simpl in *. lia.
      * intros _. rewrite length_slice. fold n. lia.
  - destruct (run_modules_kernel rt ls hidden_states
                (tensor4_map (fun x => (x * 1)%Q) attention_mask) rng)
      as (final & rng' & Hrun).
    exists final, rng'. split; [exact Hrun|].
    unfold RobertaEncoder_forward. rewrite Hlayer. unfold len_layer, custom. fold n c.
    unfold mbind at 1, M_bind at 1. unfold mbind at 1, M_bind at 1.
    destruct (Nat.eq_dec n 0) as [Hn|Hn].
    + assert (ls = []) as -> by (apply length_zero_iff_nil, Hn).
      simpl in Hrun. injection Hrun as <- <-. simpl.
      rewrite orb_true_r. unfold mbind, M_bind, mret, M_ret, liftR. simpl.
      destruct (useLN _ && _); [|reflexivity].
      unfold fmap, result_fmap, mbind, result_bind.
      destruct (LayerNorm_forward _ _ _); reflexivity.
    + assert (Hc : 0 < c) by (apply chunk_length_pos; lia).
      unfold n at 1 2.
      rewrite (checkpoint_loop_run_modules rt (call_kernel rt) ls (length ls) 0 c
                 (VTensor rt hidden_states) _ rng Hc ltac:(lia)).
      rewrite drop_0, Hrun. rewrite orb_true_r.
      unfold mbind, M_bind, mret, M_ret, liftR. simpl.
      destruct (useLN _ && _); [|reflexivity].
      unfold fmap, result_fmap, mbind, result_bind.
      destruct (LayerNorm_forward _ _ _); reflexivity.
Qed.

Lemma checkpointed_kernel_chunks_witness :
  let kernel : Tensor3 -> Tensor4 -> unit -> Tensor3 * unit := fun h _ s => (h, s) in
  let m : RobertaEncoder rational_runtime :=
    {| enc_config := demo_config; FinalLayerNorm := demo_norm;
       layer := KernelLayers rational_runtime (repeat kernel 10);
       is_Ngram := false; num_hidden_Ngram_layers := 0; Ngram_layer := [] |} in
  exists q,
    chunk_bounds rational_runtime 10 tt
    = Ok (map (fun k => (k * 4, k * 4 + 4)) (seq 0 q), tt) /\
    concat (chunks_of (repeat kernel 10) (map (fun k => (k * 4, k * 4 + 4)) (seq 0 q)))
    = repeat kernel 10.
Proof.
  intros kernel m.
  destruct (checkpointed_kernel_chunks rational_runtime m (repeat kernel 10) demo_hidden
              demo_mask None None None false false tt eq_refl)
    as (_ & (q & Hq & Hcat & _) & _).
  exists q. split; [exact Hq | exact Hcat].
Defined.

(** X9: With [RobertaLayer]s, two layers or more, the checkpointed encoder
    never returns: the first chunk feeds the pair returned by its first layer
    to its second layer, which raises where it first uses its input: in the
    first normalization when that applies ([AttributeError] from [RMSNorm],
    [TypeError] from [torch.nn.LayerNorm]), in the query projection
    otherwise ([TypeError]). *)
Theorem checkpointed_layers_raise (rt : Runtime) (m : RobertaEncoder rt)
    (l1 l2 : RobertaLayer) (ls : list RobertaLayer)
    (hidden_states : Tensor3) (attention_mask : Tensor4)
    (Ngram_hidden_states Ngram_position_matrix : option Tensor3)
    (Ngram_attention_mask : option Tensor4) (record output_attentions : bool)
    (rng : RNG rt) :
  layer rt m = PyLayers rt (l1 :: l2 :: ls) ->
  let forward :=
    RobertaEncoder_forward rt m hidden_states attention_mask Ngram_hidden_states
      Ngram_position_matrix Ngram_attention_mask record true output_attentions rng in
  raises forward /\
  (is_ok (RobertaLayer_forward rt l1 hidden_states
            (tensor4_map (fun x => (x * 1)%Q) attention_mask) 1 1 rng) ->
   forward = Raise (RobertaLayer_non_tensor_error l2)) /\
  RobertaLayer_non_tensor_error l2
  = (if useLN (layer_config l2) && str_in (encoder_ln_mode (layer_config l2)) "pre-ln"
     then match PreAttentionLayerNorm l2 with
          | RMSNormModule _ => AttributeError
          | TorchLayerNorm _ _ _ => TypeError
          end
     else TypeError).
Proof.
  intros Hlayer forward. subst forward.
  set (mask := tensor4_map (fun x => (x * 1)%Q) attention_mask).
  assert (Hfw : RobertaEncoder_forward rt m hidden_states attention_mask Ngram_hidden_states
            Ngram_position_matrix Ngram_attention_mask record true output_attentions rng =
          match RobertaLayer_forward rt l1 hidden_states mask 1 1 rng with
          | Ok _ => Raise (RobertaLayer_non_tensor_error l2)
          | Raise e => Raise e
          | Diverge => Diverge
          end).
  { unfold RobertaEncoder_forward. rewrite Hlayer. unfold len_layer, custom.
    set (n := length (l1 :: l2 :: ls)).
    assert (Hc : 2 <= chunk_length n).
    { pose proof (chunk_length_ceil_sqrt n) as [H _].
      assert (Hn : 2 <= n) by (unfold n; simpl; lia).
      destruct (chunk_length n) as [|[|c]]; simpl in H; lia. }
    unfold mbind at 1, M_bind at 1. unfold mbind at 1, M_bind at 1.
    unfold n at 1 2.
    assert (Hc0 : 0 < chunk_length n) by lia.
    assert (Hfuel : length (l1 :: l2 :: ls) - 0 <= length (l1 :: l2 :: ls)) by lia.
    rewrite (checkpoint_loop_run_modules rt (call_layer rt) (l1 :: l2 :: ls)
               (length (l1 :: l2 :: ls)) 0 (chunk_length n) (VTensor rt hidden_states)
               _ rng Hc0 Hfuel).
    fold mask.
    rewrite drop_0, run_modules_two_layers.
    destruct (RobertaLayer_forward rt l1 hidden_states mask 1 1 rng); reflexivity. }
  rewrite Hfw. split; [|split].
  - pose proof (RobertaLayer_forward_total rt l1 hidden_states mask 1 1 rng) as Htot.
    destruct (RobertaLayer_forward rt l1 hidden_states mask 1 1 rng) as [?|e|];
      [eexists | exists e | contradiction]; reflexivity.
  - intros [a ->]. reflexivity.
  - unfold RobertaLayer_non_tensor_error, layer_norm_non_tensor_error.
    destruct (PreAttentionLayerNorm l2); reflexivity.
Qed.

Lemma checkpointed_layers_raise_witness :
  raises (RobertaEncoder_forward rational_runtime (demo_encoder 2) demo_hidden demo_mask
            None None None false true false tt) /\
  RobertaLayer_non_tensor_error demo_layer = AttributeError.
Proof.
  destruct (checkpointed_layers_raise rational_runtime (demo_encoder 2) demo_layer
              demo_layer [] demo_hidden demo_mask None None None false false tt eq_refl)
    as (H & _ & He).
  split; [exact H | exact He].
Defined.

(** C7 at ten layers: the chunk length is 4 and the chunks are the slices
    [0:4], [4:8] and [8:12], of sizes 4, 4 and 2; with the layers of the
    default path the checkpointed run raises in its first chunk and appends
    nothing, with ten layers as with two.  The layers here normalize first,
    with [RMSNorm]: the second layer raises [AttributeError] when its
    normalization reads [norm] of the pair it was given. *)
Theorem checkpointed_ten_layers :
  chunk_length 10 = 4 /\
  fst <$> chunk_bounds rational_runtime 10 tt = Ok [(0, 4); (4, 8); (8, 12)] /\
  map length (chunks_of (repeat demo_layer 10) [(0, 4); (4, 8); (8, 12)]) = [4; 4; 2] /\
  RobertaEncoder_forward rational_runtime (demo_encoder 10) demo_hidden demo_mask
    None None None false true false tt = Raise AttributeError /\
  RobertaEncoder_forward rational_runtime (demo_encoder 2) demo_hidden demo_mask
    None None None false true false tt = Raise AttributeError.
Proof.
  split; [reflexivity|]. split; [reflexivity|]. split; [vm_compute; reflexivity|].
  split; vm_compute; reflexivity.
Qed.


(** * Further properties of the code *)

(** ** Linear layers with activation *)

Lemma Qplus_comm_eq (a b : Q) : (a + b)%Q = (b + a)%Q.
Proof.
  destruct a as [n d], b as [n' d']. unfold Qplus. simpl.
  rewrite Z.add_comm, Pos.mul_comm. reflexivity.
Qed.

Lemma vec_add_comm (a b : Vec) : vec_add a b = vec_add b a.
Proof.
  unfold vec_add. revert b. induction a as [|x a IH]; intros [|y b]; simpl;
    try reflexivity.
  rewrite Qplus_comm_eq, IH. reflexivity.
Qed.

(** The names [ACT2FN] knows. *)
Lemma ACT2FN_ok (rt : Runtime) (act : string) :
  is_ok (ACT2FN rt act) <->
  act = "gelu" \/ act = "relu" \/ act = "swish" \/ act = "tanh".
Proof.
  unfold ACT2FN, is_ok.
  destruct (String.eqb_spec act "gelu") as [->|H1]; [split; [auto | eauto]|].
  destruct (String.eqb_spec act "relu") as [->|H2]; [split; [auto | eauto]|].
  destruct (String.eqb_spec act "swish") as [->|H3]; [split; [auto | eauto]|].
  destruct (String.eqb_spec act "tanh") as [->|H4]; [split; [auto | eauto]|].
  split; [intros [f Hf]; discriminate | intros [?|[?|[?|?]]]; contradiction].
Qed.

(** X1: The fused and the regular linear layer are interchangeable: built from
    the same activation name, weight and bias, both constructions succeed
    for the four names of [ACT2FN] and raise [KeyError] for every other
    name, and the two modules return the same row on every input. *)
Theorem linear_layers_agree (rt : Runtime) (act : string) (w : Matrix) (b : Vec)
    (i o : Z) :
  let dense := {| in_features := i; out_features := o; weight := w; bias := Some b |} in
  let known := act = "gelu" \/ act = "relu" \/ act = "swish" \/ act = "tanh" in
  (known ->
   exists f r,
     LinearActivation_init rt act w b = Ok f /\
     RegularLinearActivation_init rt act dense = Ok r /\
     forall x, LinearActivation_forward rt f x = Ok (RegularLinearActivation_forward r x)) /\
  (~ known ->
   LinearActivation_init rt act w b = Raise KeyError /\
   RegularLinearActivation_init rt act dense = Raise KeyError).
Proof.
  intros dense known. subst known. split.
  - intros [ -> | [ -> | [ -> | -> ] ] ]; eexists _, _; (split; [reflexivity|]);
      (split; [reflexivity|]); intros x;
      unfold LinearActivation_forward, RegularLinearActivation_forward,
        nn_Linear_forward, F_linear, bias_gelu, bias_relu, bias_tanh; simpl;
      try rewrite (vec_add_comm b); reflexivity.
  - intros Hn. unfold LinearActivation_init, RegularLinearActivation_init.
    assert (Hact : ACT2FN rt act = Raise KeyError).
    { unfold ACT2FN.
      destruct (String.eqb_spec act "gelu"); [exfalso; auto|].
      destruct (String.eqb_spec act "relu"); [exfalso; auto|].
      destruct (String.eqb_spec act "swish"); [exfalso; auto|].
      destruct (String.eqb_spec act "tanh"); [exfalso; auto|]. reflexivity. }
    rewrite Hact.
    destruct (String.eqb_spec act "gelu"); [exfalso; auto|].
    destruct (String.eqb_spec act "tanh"); [exfalso; auto|].
    destruct (String.eqb_spec act "relu"); [exfalso; auto|].
    split; reflexivity.
Qed.

Lemma linear_layers_agree_witness :
  exists f r,
    LinearActivation_init rational_runtime "relu" [[1; -2]; [3; 4]]%Q [5; 6]%Q = Ok f /\
    RegularLinearActivation_init rational_runtime "relu"
      {| in_features := 2; out_features := 2; weight := [[1; -2]; [3; 4]]%Q;
         bias := Some [5; 6]%Q |} = Ok r /\
    forall x, LinearActivation_forward rational_runtime f x
              = Ok (RegularLinearActivation_forward r x).
Proof.
  apply (linear_layers_agree rational_runtime "relu" [[1; -2]; [3; 4]]%Q [5; 6]%Q 2 2).
  right. left. reflexivity.
Defined.

Example linear_layers_relu :
  (f ← LinearActivation_init rational_runtime "relu" [[1; -2]; [3; 4]]%Q [5; 6]%Q;
   LinearActivation_forward rational_runtime f [1; 4]%Q) = Ok [0; 25]%Q /\
  LinearActivation_init rational_runtime "sigmoid" [[1%Q]] [0%Q] = Raise KeyError.
Proof. split; reflexivity. Qed.


(** ** RMSNorm with a partial fraction inside [0, 1] *)

Lemma py_int_fraction_bounds (d : nat) (p : Q) :
  (0 <= p)%Q -> (p <= 1)%Q ->
  (0 <= py_int (inject_Z (Z.of_nat d) * p) <= Z.of_nat d)%Z.
Proof.
  destruct p as [n den]. unfold Qle, py_int, Qmult, inject_Z. simpl.
  rewrite !Z.mul_1_r. intros Hn H1.
  assert (Hd : (0 <= Z.of_nat d)%Z) by lia.
  split.
  - apply Z.quot_pos; [nia | lia].
  - apply Z.quot_le_upper_bound; [lia | nia].
Qed.

Lemma broadcast2_same_length (f : Q -> Q -> Q) (a b : Vec) :
  length a = length b ->
  broadcast2 f a b = Ok (zip_with f a b) /\ length (zip_with f a b) = length a.
Proof.
  intros H. unfold broadcast2. rewrite H, Nat.eqb_refl. split; [reflexivity|].
  rewrite length_zip_with. lia.
Qed.

Lemma py_int_below_one (q : Q) : (0 <= q)%Q -> (q < 1)%Q -> py_int q = 0%Z.
Proof.
  destruct q as [n den]. unfold Qle, Qlt, py_int. simpl.
  rewrite !Z.mul_1_r. intros Hn H1. apply Z.quot_small. lia.
Qed.

(** X2: With the fraction in [0, 1] and a width [d] up to [2 ^ 53] the row is
    split at [int(d * p)]: a row of another width than [d] cannot be split,
    and a split at 0 leaves an empty slice whose size 0 cannot be raised to
    the power -1/2.  The split is at 0 when the product [d * p] is below 1 in
    double arithmetic, that is when the exact product is at most the largest
    double below 1, as for [p = 0]. *)
Theorem RMSNorm_forward_partial_errors (rt : Runtime) (m : RMSNorm) (x : Vec) :
  (0 <= rms_p m)%Q -> (rms_p m <= 1)%Q -> (Z.of_nat (rms_d m) <= 2 ^ 53)%Z ->
  (length x <> rms_d m -> RMSNorm_forward rt m x = Raise RuntimeError) /\
  (length x = rms_d m ->
   (inject_Z (Z.of_nat (rms_d m)) * rms_p m <= largest_double_below_1)%Q ->
   RMSNorm_forward rt m x = Raise ZeroDivisionError).
Proof.
  intros H0 H1 _.
  assert (Hin : negb (Qle_bool 0 (rms_p m)) || negb (Qle_bool (rms_p m) 1) = false).
  { rewrite (proj2 (Qle_bool_iff _ _) H0), (proj2 (Qle_bool_iff _ _) H1). reflexivity. }
  pose proof (py_int_fraction_bounds (rms_d m) (rms_p m) H0 H1) as Hb.
  unfold RMSNorm_forward. rewrite Hin. split.
  - intros Hlen. unfold torch_split2.
    replace (Z.of_nat (length x) =? _)%Z with false; [|symmetry; apply Z.eqb_neq; lia].
    rewrite !orb_true_r. reflexivity.
  - intros Hlen Hle.
    assert (Hps : py_int (inject_Z (Z.of_nat (rms_d m)) * rms_p m) = 0%Z).
    { apply py_int_below_one.
      - apply Qmult_le_0_compat; [|exact H0].
        unfold Qle, inject_Z. simpl. lia.
      - eapply Qle_lt_trans; [exact Hle|]. reflexivity. }
    rewrite Hps. unfold torch_split2.
    rewrite Hlen, Z.sub_0_r, Z.add_0_l, Z.eqb_refl.
    replace (Z.of_nat (rms_d m) <? 0)%Z with false by (symmetry; apply Z.ltb_ge; lia).
    reflexivity.
Qed.

Lemma RMSNorm_forward_partial_errors_witness :
  RMSNorm_forward rational_runtime (RMSNorm_init 4 (1 # 8) 1e-12 false) [2; 2; 2; 2]%Q
  = Raise ZeroDivisionError /\
  RMSNorm_forward rational_runtime (RMSNorm_init 4 (1 # 2) 1e-12 false) [2; 2; 2]%Q
  = Raise RuntimeError.
Proof.
  split.
  - apply (RMSNorm_forward_partial_errors rational_runtime
             (RMSNorm_init 4 (1 # 8) 1e-12 false) [2; 2; 2; 2]%Q);
      try reflexivity; try (unfold Qle; simpl; lia); try (simpl; lia).
  - apply (RMSNorm_forward_partial_errors rational_runtime
             (RMSNorm_init 4 (1 # 2) 1e-12 false) [2; 2; 2]%Q);
      try (unfold Qle; simpl; lia); try (simpl; lia).
Defined.

(** X3: On a row of its width [d >= 1] a module as [__init__] builds it (scale
    and offset of length [d]) returns a row of the same width, for every
    fraction outside [0, 1] and every fraction inside it that keeps at
    least one entry. *)
Theorem RMSNorm_forward_keeps_width (rt : Runtime) (dim : nat) (p eps : Q) (bias : bool)
    (x : Vec) :
  length x = dim -> 0 < dim ->
  ((p < 0)%Q \/ (1 < p)%Q \/
   ((0 <= p)%Q /\ (p <= 1)%Q /\ (1 <= py_int (inject_Z (Z.of_nat dim) * p))%Z)) ->
  exists y, RMSNorm_forward rt (RMSNorm_init dim p eps bias) x = Ok y /\ length y = dim.
Proof.
  intros Hlen Hdim Hp.
  assert (Htail : forall norm_x d_x, d_x <> 0%Z ->
    exists y,
      (pw ← (if (d_x =? 0)%Z then Raise ZeroDivisionError else Ok (pow_neg_half rt d_x));
       let rms_x := (norm_x * pw)%Q in
       let x_normed := map (fun xi => (xi / (rms_x + eps))%Q) x in
       y ← broadcast2 Qmult (repeat 1%Q dim) x_normed;
       if bias then broadcast2 Qplus y (repeat 0%Q dim) else Ok y) = Ok y /\
      length y = dim).
  { intros norm_x d_x Hd. apply Z.eqb_neq in Hd. rewrite Hd. simpl.
    destruct (broadcast2_same_length Qmult (repeat 1%Q dim)
                (map (fun xi => (xi / (norm_x * pow_neg_half rt d_x + eps))%Q) x))
      as [-> Hl1]; [rewrite repeat_length, length_map; lia|].
    simpl. rewrite repeat_length in Hl1. destruct bias.
    - destruct (broadcast2_same_length Qplus
                  (zip_with Qmult (repeat 1%Q dim)
                     (map (fun xi => (xi / (norm_x * pow_neg_half rt d_x + eps))%Q) x))
                  (repeat 0%Q dim)) as [-> Hl2]; [rewrite repeat_length; lia|].
      eexists. split; [reflexivity | lia].
    - eexists. split; [reflexivity | lia]. }
  unfold RMSNorm_forward. simpl rms_p. simpl rms_d. simpl rms_eps. simpl rms_bias.
  simpl rms_scale. simpl rms_offset.
  destruct Hp as [Hp|[Hp|(H0 & H1 & Hps)]].
  - rewrite (Qle_bool_false _ _ Hp). simpl. apply Htail. lia.
  - rewrite (Qle_bool_false _ _ Hp), orb_true_r. simpl. apply Htail. lia.
  - rewrite (proj2 (Qle_bool_iff _ _) H0), (proj2 (Qle_bool_iff _ _) H1). simpl.
    pose proof (py_int_fraction_bounds dim p H0 H1) as Hb.
    unfold torch_split2. rewrite Hlen.
    set (ps := py_int (inject_Z (Z.of_nat dim) * p)) in *. clearbody ps.
    assert (E1 : (ps <? 0)%Z = false) by (apply Z.ltb_ge; lia).
    assert (E2 : (Z.of_nat dim - ps <? 0)%Z = false) by (apply Z.ltb_ge; lia).
    assert (E3 : (Z.of_nat dim =? ps + (Z.of_nat dim - ps))%Z = true)
      by (apply Z.eqb_eq; lia).
    rewrite E1, E2, E3. simpl. apply Htail. lia.
Qed.

Lemma RMSNorm_forward_keeps_width_witness :
  exists y,
    RMSNorm_forward rational_runtime (RMSNorm_init 4 (1 # 2) 1e-12 true) [3; 4; 0; 7]%Q
    = Ok y /\ length y = 4.
Proof.
  apply (RMSNorm_forward_keeps_width rational_runtime 4 (1 # 2) 1e-12 true [3; 4; 0; 7]%Q).
  - reflexivity.
  - lia.
  - right. right. repeat split; [unfold Qle; simpl; lia..|]. vm_compute. discriminate.
Defined.

(** The fraction 1/2 at width 8: the norm of the first four entries
    [2, 2, 2, 2] is 4, over four entries, so every entry of the row is
    divided by 2 + 1e-12, the last four included. *)
Example RMSNorm_forward_half :
  map Qred <$> RMSNorm_forward rational_runtime (RMSNorm_init 8 (1 # 2) 1e-12 false)
                 [2; 2; 2; 2; 7; 7; 7; 7]%Q
  = Ok (repeat (2000000000000 # 2000000000001) 4
        ++ repeat (7000000000000 # 2000000000001) 4)%list.
Proof. vm_compute. reflexivity. Qed.


(** ** Embedding lookups *)

Lemma mapR_raise {A B} (f : A -> result B) (l : list A) (e : PyError) :
  (forall x, f x = Raise e \/ is_ok (f x)) ->
  Exists (fun x => f x = Raise e) l -> mapR f l = Raise e.
Proof.
  intros Hf Hex. induction l as [|x l IH]; [inversion Hex|]. simpl.
  destruct (Hf x) as [Hx|[y Hy]].
  - rewrite Hx. reflexivity.
  - rewrite Hy. simpl. inversion Hex as [? ? H|? ? H]; subst; [congruence|].
    rewrite (IH H). reflexivity.
Qed.

Lemma mapR_raise_or_ok {A B} (f : A -> result B) (l : list A) (e : PyError) :
  (forall x, f x = Raise e \/ is_ok (f x)) -> mapR f l = Raise e \/ is_ok (mapR f l).
Proof.
  intros Hf. induction l as [|x l IH]; simpl; [right; eexists; reflexivity|].
  destruct (Hf x) as [Hx|[y Hy]]; [left; rewrite Hx; reflexivity|].
  rewrite Hy. simpl. destruct IH as [Hl|[ys Hys]].
  - left. rewrite Hl. reflexivity.
  - right. rewrite Hys. eexists. reflexivity.
Qed.

(** A lookup raises nothing but [IndexError]. *)
Lemma nn_Embedding_forward_raise_or_ok (table : Matrix) (ids : list (list Z)) :
  nn_Embedding_forward table ids = Raise IndexError \/
  is_ok (nn_Embedding_forward table ids).
Proof.
  unfold nn_Embedding_forward. apply mapR_raise_or_ok. intros row.
  apply mapR_raise_or_ok. intros i.
  destruct (i <? 0)%Z; [left; reflexivity|].
  destruct (table !! Z.to_nat i); [right; eexists | left]; reflexivity.
Qed.

(** X4: A sequence longer than the position table cannot be embedded: whatever
    the ids are, a batch with at least one row whose sequence length exceeds
    the number of position embeddings raises [IndexError]. *)
Theorem RobertaEmbeddings_forward_too_long (rt : Runtime) (m : RobertaEmbeddings)
    (input_ids : list (list Z)) (token_type_ids : option (list (list Z))) (rng : RNG rt) :
  input_ids <> [] ->
  length (position_embeddings m) < size_1 input_ids ->
  RobertaEmbeddings_forward rt m input_ids token_type_ids rng = Raise IndexError.
Proof.
  intros Hne Hlong. unfold RobertaEmbeddings_forward. cbv zeta.
  assert (Hpos : nn_Embedding_forward (position_embeddings m)
                   (expand_as (torch_arange (size_1 input_ids)) input_ids)
                 = Raise IndexError).
  { destruct input_ids as [|row rest]; [contradiction|].
    unfold nn_Embedding_forward, expand_as. simpl map.
    apply mapR_raise.
    - intros r. apply mapR_raise_or_ok. intros i.
      destruct (i <? 0)%Z; [left; reflexivity|].
      destruct (position_embeddings m !! Z.to_nat i); [right; eexists | left]; reflexivity.
    - apply Exists_cons_hd. apply mapR_raise.
      + intros i. destruct (i <? 0)%Z; [left; reflexivity|].
        destruct (position_embeddings m !! Z.to_nat i); [right; eexists | left];
          reflexivity.
      + apply Exists_exists. exists (Z.of_nat (length (position_embeddings m))). split.
        * unfold torch_arange. apply list_elem_of_In, in_map, in_seq. simpl in Hlong. lia.
        * replace (_ <? 0)%Z with false by (symmetry; apply Z.ltb_ge; lia).
          rewrite Nat2Z.id.
          destruct (position_embeddings m !! length (position_embeddings m)) eqn:E;
            [apply lookup_lt_Some in E; lia | reflexivity]. }
  unfold mbind, M_bind, liftR.
  destruct (nn_Embedding_forward_raise_or_ok (word_embeddings m) input_ids)
    as [->|[w ->]]; [reflexivity|].
  rewrite Hpos. reflexivity.
Qed.

Lemma RobertaEmbeddings_forward_too_long_witness :
  RobertaEmbeddings_forward rational_runtime
    {| word_embeddings := [[1]; [2]]%Q; position_embeddings := [[10]; [20]]%Q;
       token_type_embeddings := [[100]]%Q; layernorm_embedding := false;
       emb_LayerNorm := None; emb_dropout := 0 |}
    [[0; 1; 0]]%Z None tt = Raise IndexError.
Proof.
  apply RobertaEmbeddings_forward_too_long; [discriminate | simpl; lia].
Defined.


Lemma mapR_ok_rel {A B} (f : A -> result B) (P : A -> B -> Prop) (l : list A) :
  Forall (fun x => exists y, f x = Ok y /\ P x y) l ->
  exists l', mapR f l = Ok l' /\ Forall2 P l l'.
Proof.
  induction 1 as [|x l (y & Hy & Hp) _ (l' & Hl & Hf)].
  - exists []. split; [reflexivity | constructor].
  - exists (y :: l'). simpl. rewrite Hy. simpl. rewrite Hl. simpl.
    split; [reflexivity | constructor; assumption].
Qed.

Lemma nn_Embedding_forward_ok (table : Matrix) (ids : list (list Z)) :
  Forall (Forall (fun i => (0 <= i < Z.of_nat (length table))%Z)) ids ->
  exists t,
    nn_Embedding_forward table ids = Ok t /\
    Forall2 (Forall2 (fun i row => table !! Z.to_nat i = Some row)) ids t.
Proof.
  intros Hv. unfold nn_Embedding_forward.
  apply mapR_ok_rel. eapply Forall_impl; [exact Hv|].
  intros r Hr. simpl. apply mapR_ok_rel. eapply Forall_impl; [exact Hr|].
  intros i Hi. cbv beta in Hi. simpl.
  assert (Hlt : Z.to_nat i < length table) by lia.
  destruct (lookup_lt_is_Some_2 table (Z.to_nat i) Hlt) as [row Hrow].
  exists row. split; [|exact Hrow].
  destruct (i <? 0)%Z eqn:E; [apply Z.ltb_lt in E; lia|].
  unfold Matrix, Vec in *. rewrite Hrow. reflexivity.
Qed.

Lemma hidden_at_lookup (table : Matrix) (ids : list (list Z)) (t : Tensor3)
    (b s : nat) (i : Z) :
  Forall2 (Forall2 (fun i row => table !! Z.to_nat i = Some row)) ids t ->
  mask_at ids b s = Some i ->
  exists row, table !! Z.to_nat i = Some row /\ hidden_at t b s = Some row.
Proof.
  intros Hf Hi. unfold mask_at, hidden_at in *.
  destruct (ids !! b) as [r|] eqn:Hb; simpl in Hi; [|discriminate].
  destruct (Forall2_lookup_l _ _ _ _ _ Hf Hb) as (tr & Htb & Hfr).
  destruct (Forall2_lookup_l _ _ _ _ _ Hfr Hi) as (row & Hts & Hrow).
  exists row. split; [exact Hrow|]. unfold Tensor3, Vec in *. rewrite Htb. simpl. exact Hts.
Qed.

Lemma lookup2_zip_with {A} (f : A -> A -> A) (a c : list (list A)) (b s : nat) (va vc : A) :
  (row ← a !! b; row !! s) = Some va -> (row ← c !! b; row !! s) = Some vc ->
  (row ← zip_with (zip_with f) a c !! b; row !! s) = Some (f va vc).
Proof.
  intros Ha Hc. rewrite lookup_zip_with.
  destruct (a !! b) as [ra|]; [|inversion Ha].
  destruct (c !! b) as [rc|]; [|inversion Hc].
  cbn in *. rewrite lookup_zip_with, Ha. cbn. rewrite Hc. reflexivity.
Qed.

Lemma hidden_at_tensor_add (a c : Tensor3) (b s : nat) (va vc : Vec) :
  hidden_at a b s = Some va -> hidden_at c b s = Some vc ->
  hidden_at (tensor_add a c) b s = Some (vec_add va vc).
Proof. exact (lookup2_zip_with vec_add a c b s va vc). Qed.

(** X5: The embedding of valid ids: when every token id has a row in the word
    table, the sequence is no longer than the position table and the
    segment table has a row 0, the module built without normalization
    returns the dropout of a tensor whose entry at batch [b], position [s]
    is the sum of the word row of the id there, of position row [s] and of
    segment row 0: positions restart at 0 in every sequence. *)
Theorem RobertaEmbeddings_forward_entries (rt : Runtime) (m : RobertaEmbeddings)
    (input_ids : list (list Z)) (rng : RNG rt) :
  layernorm_embedding m = false ->
  Forall (fun row => length row = size_1 input_ids) input_ids ->
  Forall (Forall (fun i => (0 <= i < Z.of_nat (length (word_embeddings m)))%Z)) input_ids ->
  size_1 input_ids <= length (position_embeddings m) ->
  0 < length (token_type_embeddings m) ->
  exists e,
    RobertaEmbeddings_forward rt m input_ids None rng
    = Ok (F_dropout rt (emb_dropout m) e rng) /\
    forall b s i,
      mask_at input_ids b s = Some i ->
      exists w p t,
        word_embeddings m !! Z.to_nat i = Some w /\
        position_embeddings m !! s = Some p /\
        token_type_embeddings m !! 0 = Some t /\
        hidden_at e b s = Some (vec_add (vec_add w p) t).
Proof.
  intros Hflag Hrect Hword Hlen Htype.
  assert (Hposv : Forall (Forall (fun i =>
             (0 <= i < Z.of_nat (length (position_embeddings m)))%Z))
            (expand_as (torch_arange (size_1 input_ids)) input_ids)).
  { unfold expand_as, torch_arange. apply Forall_forall. intros r Hr.
    apply list_elem_of_In, in_map_iff in Hr as (_ & <- & _).
    apply Forall_forall. intros i Hi.
    apply list_elem_of_In, in_map_iff in Hi as (k & <- & Hk). apply in_seq in Hk. lia. }
  assert (Htypev : Forall (Forall (fun i =>
             (0 <= i < Z.of_nat (length (token_type_embeddings m)))%Z))
            (zeros_like input_ids)).
  { unfold zeros_like. apply Forall_forall. intros r Hr.
    apply list_elem_of_In, in_map_iff in Hr as (r0 & <- & _).
    apply Forall_forall. intros i Hi.
    apply list_elem_of_In, in_map_iff in Hi as (k & <- & _). lia. }
  destruct (nn_Embedding_forward_ok _ _ Hword) as (w & Hw & Hfw).
  destruct (nn_Embedding_forward_ok _ _ Hposv) as (p & Hp & Hfp).
  destruct (nn_Embedding_forward_ok _ _ Htypev) as (t & Ht & Hft).
  exists (tensor_add (tensor_add w p) t). split.
  - unfold RobertaEmbeddings_forward. cbv zeta.
    unfold mbind, M_bind, liftR, liftS, mret, M_ret.
    rewrite Hw, Hp, Ht, Hflag. reflexivity.
  - intros b s i Hi.
    assert (Hb : exists r, input_ids !! b = Some r /\ r !! s = Some i).
    { unfold mask_at in Hi. destruct (input_ids !! b) as [r|]; [|discriminate].
      exists r. split; [reflexivity | exact Hi]. }
    destruct Hb as (r & Hb & Hs).
    assert (Hsn : s < size_1 input_ids).
    { rewrite Forall_forall in Hrect.
      rewrite <- (Hrect r (list_elem_of_lookup_2 _ _ _ Hb)).
      eapply lookup_lt_Some, Hs. }
    assert (Hpi : mask_at (expand_as (torch_arange (size_1 input_ids)) input_ids) b s
                  = Some (Z.of_nat s)).
    { unfold mask_at, expand_as, torch_arange. rewrite lookup_map, Hb. simpl.
      rewrite lookup_map, lookup_seq_lt by lia. reflexivity. }
    assert (Hti : mask_at (zeros_like input_ids) b s = Some 0%Z).
    { unfold mask_at, zeros_like. rewrite lookup_map, Hb. simpl.
      rewrite lookup_map, Hs. reflexivity. }
    destruct (hidden_at_lookup _ _ _ _ _ _ Hfw Hi) as (vw & Hvw & Hew).
    destruct (hidden_at_lookup _ _ _ _ _ _ Hfp Hpi) as (vp & Hvp & Hep).
    destruct (hidden_at_lookup _ _ _ _ _ _ Hft Hti) as (vt & Hvt & Het).
    rewrite Nat2Z.id in Hvp. simpl in Hvt.
    exists vw, vp, vt. repeat split; try assumption.
    apply hidden_at_tensor_add; [apply hidden_at_tensor_add|]; assumption.
Qed.

Lemma RobertaEmbeddings_forward_entries_witness :
  exists e,
    RobertaEmbeddings_forward rational_runtime
      {| word_embeddings := [[1]; [2]]%Q; position_embeddings := [[10]; [20]; [30]]%Q;
         token_type_embeddings := [[100]]%Q; layernorm_embedding := false;
         emb_LayerNorm := None; emb_dropout := 0 |}
      [[0; 1; 0]; [1; 1; 0]]%Z None tt = Ok (e, tt) /\
    forall b s i,
      mask_at [[0; 1; 0]; [1; 1; 0]]%Z b s = Some i ->
      exists w p t,
        [[1]; [2]]%Q !! Z.to_nat i = Some w /\
        [[10]; [20]; [30]]%Q !! s = Some p /\
        [[100]]%Q !! 0 = Some t /\
        hidden_at e b s = Some (vec_add (vec_add w p) t).
Proof.
  apply (RobertaEmbeddings_forward_entries rational_runtime
           {| word_embeddings := [[1]; [2]]%Q; position_embeddings := [[10]; [20]; [30]]%Q;
              token_type_embeddings := [[100]]%Q; layernorm_embedding := false;
              emb_LayerNorm := None; emb_dropout := 0 |}
           [[0; 1; 0]; [1; 1; 0]]%Z tt).
  - reflexivity.
  - repeat constructor.
  - repeat constructor; simpl; lia.
  - simpl. lia.
  - simpl. lia.
Defined.

Example RobertaEmbeddings_forward_values :
  fst <$> RobertaEmbeddings_forward rational_runtime
            {| word_embeddings := [[1]; [2]]%Q; position_embeddings := [[10]; [20]; [30]]%Q;
               token_type_embeddings := [[100]]%Q; layernorm_embedding := false;
               emb_LayerNorm := None; emb_dropout := 0 |}
            [[0; 1; 0]; [1; 1; 0]]%Z None tt
  = Ok [[[111]; [122]; [131]]; [[112]; [122]; [131]]]%Q.
Proof. reflexivity. Qed.


(** ** Normalization sites of a layer *)

Lemma prefix_append (s t : string) :
  String.prefix s t = true <-> exists post, t = s ++ post.
Proof.
  revert t. induction s as [|a s IH]; intros [|b t]; simpl.
  - split; [intros _; exists EmptyString; reflexivity | reflexivity].
  - split; [intros _; exists (String b t); reflexivity | reflexivity].
  - split; [discriminate | intros [post H]; discriminate].
  - destruct (Ascii.ascii_dec a b) as [->|Hab].
    + rewrite IH. split; intros [post H]; exists post; [rewrite H | injection H]; auto.
    + split; [discriminate | intros [post H]; injection H; congruence].
Qed.

Lemma str_in_nil (s : string) : str_in s EmptyString = String.prefix s EmptyString.
Proof. unfold str_in. apply orb_false_r. Qed.

Lemma str_in_cons (s : string) (b : Ascii.ascii) (t : string) :
  str_in s (String b t) = String.prefix s (String b t) || str_in s t.
Proof. reflexivity. Qed.

Lemma str_in_substring_of (s t : string) :
  str_in s t = true <-> substring_of s t.
Proof.
  unfold substring_of. induction t as [|b t IH].
  - rewrite str_in_nil, prefix_append. split.
    + intros [post H]. exists EmptyString, post. exact H.
    + intros (pre & post & H). destruct pre; [exists post; exact H | discriminate].
  - rewrite str_in_cons, orb_true_iff, prefix_append, IH. split.
    + intros [[post H] | (pre & post & H)].
      * exists EmptyString, post. exact H.
      * exists (String b pre), post. simpl. rewrite H. reflexivity.
    + intros (pre & post & H). destruct pre as [|c pre].
      * left. exists post. exact H.
      * right. exists pre, post. simpl in H. injection H. auto.
Qed.

Lemma append_assoc (a b c : string) : (a ++ b) ++ c = a ++ (b ++ c).
Proof.
  induction a as [|x a IH]; [reflexivity|].
  change (String x ((a ++ b) ++ c) = String x (a ++ b ++ c)). rewrite IH. reflexivity.
Qed.

Lemma substring_of_trans (s t u : string) :
  substring_of s t -> substring_of t u -> substring_of s u.
Proof.
  intros (p1 & q1 & ->) (p2 & q2 & ->). exists (p2 ++ p1), (q1 ++ q2).
  rewrite !append_assoc. reflexivity.
Qed.

(** X6: The mode is tested as a substring of the site name, not for equality
    with it: a layer that uses normalization and whose [encoder_ln_mode]
    occurs in ["ln"] (["ln"], ["n"], the empty string, ...) normalizes at
    the pre sites and at the post sites alike. *)
Theorem maybe_layer_norm_short_mode (rt : Runtime) (m : RobertaLayer)
    (hidden_states : Tensor3) (layer_norm : LayerNormModule) :
  useLN (layer_config m) = true ->
  substring_of (encoder_ln_mode (layer_config m)) "ln" ->
  maybe_layer_norm rt m hidden_states layer_norm "pre-ln"
  = LayerNorm_forward rt layer_norm hidden_states /\
  maybe_layer_norm rt m hidden_states layer_norm "post-ln"
  = LayerNorm_forward rt layer_norm hidden_states.
Proof.
  intros Hu Hs. unfold maybe_layer_norm. rewrite Hu.
  assert (Hpre : str_in (encoder_ln_mode (layer_config m)) "pre-ln" = true).
  { apply str_in_substring_of. eapply substring_of_trans; [exact Hs|].
    exists "pre-", EmptyString. reflexivity. }
  assert (Hpost : str_in (encoder_ln_mode (layer_config m)) "post-ln" = true).
  { apply str_in_substring_of. eapply substring_of_trans; [exact Hs|].
    exists "post-", EmptyString. reflexivity. }
  rewrite Hpre, Hpost. split; reflexivity.
Qed.

Lemma maybe_layer_norm_short_mode_witness :
  maybe_layer_norm rational_runtime
    (set_layer_config (set_encoder_ln_mode "ln" demo_config) demo_layer)
    demo_hidden demo_norm "pre-ln"
  = LayerNorm_forward rational_runtime demo_norm demo_hidden /\
  maybe_layer_norm rational_runtime
    (set_layer_config (set_encoder_ln_mode "ln" demo_config) demo_layer)
    demo_hidden demo_norm "post-ln"
  = LayerNorm_forward rational_runtime demo_norm demo_hidden.
Proof.
  apply (maybe_layer_norm_short_mode rational_runtime
           (set_layer_config (set_encoder_ln_mode "ln" demo_config) demo_layer)
           demo_hidden demo_norm).
  - reflexivity.
  - exists EmptyString, EmptyString. reflexivity.
Defined.

(** X7: When normalization is off, by [useLN] or because the mode occurs in
    neither site name, a layer never calls its normalization modules: its
    result is the same whatever modules it holds. *)
Theorem RobertaLayer_forward_without_norms (rt : Runtime) (m : RobertaLayer)
    (pre post : LayerNormModule) (hidden_states : Tensor3) (attention_mask : Tensor4)
    (action : Z) (keep_prob : Q) :
  useLN (layer_config m) = false \/
  (~ substring_of (encoder_ln_mode (layer_config m)) "pre-ln" /\
   ~ substring_of (encoder_ln_mode (layer_config m)) "post-ln") ->
  RobertaLayer_forward rt (set_layer_norms pre post m) hidden_states attention_mask
    action keep_prob
  = RobertaLayer_forward rt m hidden_states attention_mask action keep_prob.
Proof.
  intros H.
  assert (Hpre : useLN (layer_config m)
                 && str_in (encoder_ln_mode (layer_config m)) "pre-ln" = false).
  { destruct H as [-> | [H _]]; [reflexivity|].
    apply andb_false_iff. right. apply not_true_iff_false.
    rewrite str_in_substring_of. exact H. }
  assert (Hpost : useLN (layer_config m)
                  && str_in (encoder_ln_mode (layer_config m)) "post-ln" = false).
  { destruct H as [-> | [_ H]]; [reflexivity|].
    apply andb_false_iff. right. apply not_true_iff_false.
    rewrite str_in_substring_of. exact H. }
  unfold RobertaLayer_forward, maybe_layer_norm.
  cbn [set_layer_norms attention layer_config intermediate output
       PreAttentionLayerNorm PostAttentionLayerNorm].
  rewrite Hpre, Hpost. reflexivity.
Qed.

Lemma RobertaLayer_forward_without_norms_witness :
  RobertaLayer_forward rational_runtime
    (set_layer_norms (TorchLayerNorm [7%Q] [7%Q] 1) (RMSNormModule (RMSNorm_init 3 (1 # 2) 1 true))
       (set_layer_config (set_encoder_ln_mode "none" demo_config) demo_layer))
    demo_hidden demo_mask 1 1
  = RobertaLayer_forward rational_runtime
      (set_layer_config (set_encoder_ln_mode "none" demo_config) demo_layer)
      demo_hidden demo_mask 1 1.
Proof.
  apply (RobertaLayer_forward_without_norms rational_runtime
           (set_layer_config (set_encoder_ln_mode "none" demo_config) demo_layer)).
  right. split; intros H; apply str_in_substring_of in H; vm_compute in H; discriminate H.
Defined.


(** ** What the encoder returns *)

Lemma RobertaLayer_forward_probs (rt : Runtime) (m : RobertaLayer)
    (hidden_states : Tensor3) (attention_mask : Tensor4) (action : Z) (keep_prob : Q)
    (rng rng' : RNG rt) (o : Tensor3) (p : option (T4 rt)) :
  action <> 0%Z ->
  RobertaLayer_forward rt m hidden_states attention_mask action keep_prob rng
  = Ok ((o, p), rng') ->
  is_Some p.
Proof.
  intros Ha. rewrite (RobertaLayer_forward_residual rt m _ _ _ _ _ Ha).
  unfold mbind, M_bind, liftR, liftS, mret, M_ret.
  repeat (case_result; try discriminate).
  intros [= _ <- _]. eexists. reflexivity.
Qed.

Section EncoderCounts.
Context (rt : Runtime) {A : Type} (m : RobertaEncoder rt).
Context (run : A -> Tensor3 -> M rt (Tensor3 * option (T4 rt))).
Context (Ngram_position_matrix : option Tensor3) (Ngram_attention_mask : option Tensor4).
Context (output_all_encoded_layers output_attentions records : bool).
Hypothesis run_records :
  forall l h rng o p rng', run l h rng = Ok ((o, p), rng') ->
    if records then is_Some p else p = None.

Lemma encoder_loop_counts (ls : list A) (i : nat) (st st' : LoopState rt)
    (rng rng' : RNG rt) :
  encoder_loop rt
    (fun l => encoder_step rt m (run l) Ngram_position_matrix Ngram_attention_mask
                output_all_encoded_layers output_attentions) ls i st rng
  = Ok (st', rng') ->
  length (ls_all_encoder_layers rt st')
  = length (ls_all_encoder_layers rt st)
    + (if output_all_encoded_layers then length ls else 0) /\
  length (ls_all_attentions rt st')
  = length (ls_all_attentions rt st)
    + (if output_attentions && records then length ls else 0) /\
  (Forall is_tensor (ls_all_encoder_layers rt st) ->
   Forall is_tensor (ls_all_encoder_layers rt st')).
Proof.
  revert i st rng. induction ls as [|l ls IH]; intros i st rng; simpl.
  - intros [= <- _]. repeat split; try (destruct output_all_encoded_layers; lia);
      try (destruct (output_attentions && records); lia). auto.
  - unfold mbind, M_bind at 1. unfold encoder_step at 1.
    unfold mbind, M_bind, mret, M_ret.
    destruct (run l (ls_hidden_states rt st) rng) as [[[h p] r1]| |] eqn:Hrun;
      try discriminate.
    destruct (Ngram_step rt m i h _ _ _ r1) as [[[h' n'] r2]| |]; try discriminate.
    intros H. apply IH in H. cbn [ls_all_encoder_layers ls_all_attentions] in H.
    destruct H as (H1 & H2 & H3).
    apply run_records in Hrun.
    split; [|split].
    + rewrite H1. destruct output_all_encoded_layers; [rewrite length_app; simpl|]; lia.
    + rewrite H2. destruct output_attentions; simpl; [|lia].
      destruct records.
      * destruct Hrun as [a ->]. simpl. rewrite length_app. simpl. lia.
      * rewrite Hrun. simpl. lia.
    + intros Hf. apply H3. destruct output_all_encoded_layers; [|exact Hf].
      apply Forall_app. split; [exact Hf|]. constructor; [eexists; reflexivity | constructor].
Qed.

End EncoderCounts.

Lemma run_kernel_records (rt : Runtime) (attention_mask : Tensor4)
    (f : Tensor3 -> Tensor4 -> RNG rt -> Tensor3 * RNG rt) h rng o p rng' :
  run_kernel rt f attention_mask h rng = Ok ((o, p), rng') -> p = None.
Proof.
  unfold run_kernel, mbind, M_bind, liftS, mret, M_ret.
  destruct (f h attention_mask rng). intros [= _ <- _]. reflexivity.
Qed.

Lemma run_layer_records (rt : Runtime) (attention_mask : Tensor4)
    (l : RobertaLayer) h rng o p rng' :
  run_layer rt l attention_mask h rng = Ok ((o, p), rng') -> is_Some p.
Proof. apply RobertaLayer_forward_probs. discriminate. Qed.

Ltac encoder_tail H1 H2 H3 :=
  match goal with
  | |- context [negb ?oall] =>
      destruct oall; simpl negb; cbv iota;
      [ intros [= <- <- _]; split; [exact H1|]; split; [|intros _; exact H3];
        match goal with
        | |- context [if ?oatt then Some _ else None] =>
            destruct oatt; [eexists; split; [reflexivity | exact H2] | reflexivity]
        end
      | match type of H1 with
        | length ?l = _ =>
            let Hnil := fresh "Hnil" in
            assert (Hnil : l = []) by (destruct l; [reflexivity | discriminate H1]);
            rewrite Hnil;
            match goal with
            | |- context [useLN ?c && ?x] => destruct (useLN c && x)
            end;
            [ unfold final_layer_norm, fmap, result_fmap;
              match goal with
              | |- context [LayerNorm_forward ?a ?b ?c] =>
                  destruct (LayerNorm_forward a b c) as [?| |]; try discriminate
              end
            | ];
            (intros [= <- <- _]; split; [reflexivity|];
             split; [|intros _; repeat constructor; eexists; reflexivity];
             match goal with
             | |- context [if ?oatt then Some _ else None] =>
                 destruct oatt; [eexists; split; [reflexivity | exact H2] | reflexivity]
             end)
        end ]
  end.

Lemma RobertaEncoder_forward_sizes (rt : Runtime) (m : RobertaEncoder rt)
    (hidden_states : Tensor3) (attention_mask : Tensor4)
    (Ngram_hidden_states Ngram_position_matrix : option Tensor3)
    (Ngram_attention_mask : option Tensor4)
    (output_all_encoded_layers checkpoint_activations output_attentions : bool)
    (rng rng' : RNG rt) (all_encoder_layers : list (PyVal rt))
    (all_attentions : option (list (T4 rt))) :
  RobertaEncoder_forward rt m hidden_states attention_mask Ngram_hidden_states
    Ngram_position_matrix Ngram_attention_mask output_all_encoded_layers
    checkpoint_activations output_attentions rng
  = Ok ((all_encoder_layers, all_attentions), rng') ->
  length all_encoder_layers
  = (if output_all_encoded_layers && negb checkpoint_activations
     then len_layer rt (layer rt m) else 1) /\
  (if output_attentions
   then exists l, all_attentions = Some l /\
          length l = (if is_transformer_kernel rt m || checkpoint_activations
                      then 0 else len_layer rt (layer rt m))
   else all_attentions = None) /\
  (checkpoint_activations = false -> Forall is_tensor all_encoder_layers).
Proof.
  unfold RobertaEncoder_forward, is_transformer_kernel.
  destruct checkpoint_activations.
  - rewrite orb_true_r, andb_false_r, orb_true_r.
    unfold mbind, M_bind, mret, M_ret, liftR.
    match goal with
    | |- context [checkpoint_loop rt ?a ?b ?c ?d ?e ?f rng] =>
        destruct (checkpoint_loop rt a b c d e f rng) as [[h r]| |]; try discriminate
    end.
    destruct (useLN _ && _).
    + destruct (final_layer_norm rt m h) as [h'| |]; try discriminate.
      intros [= <- <- _]. split; [reflexivity|]. split; [|discriminate].
      destruct output_attentions; [exists []; split; reflexivity | reflexivity].
    + intros [= <- <- _]. split; [reflexivity|]. split; [|discriminate].
      destruct output_attentions; [exists []; split; reflexivity | reflexivity].
  - rewrite !orb_false_r, andb_true_r.
    unfold mbind, M_bind, mret, M_ret, liftR.
    destruct (layer rt m) as [ls|ls].
    + match goal with
      | |- context [encoder_loop rt ?f ls 0 ?st0 rng] =>
          destruct (encoder_loop rt f ls 0 st0 rng) as [[st r]| |] eqn:Hrun;
            try discriminate
      end.
      apply (encoder_loop_counts rt m (fun l => run_kernel rt l attention_mask)
               _ _ _ _ false) in Hrun;
        [|intros; eapply run_kernel_records; eassumption].
      destruct Hrun as (H1 & H2 & H3). simpl in H1, H2. rewrite andb_false_r in H2.
      specialize (H3 ltac:(constructor)). simpl len_layer.
      encoder_tail H1 H2 H3.
    + match goal with
      | |- context [encoder_loop rt ?f ls 0 ?st0 rng] =>
          destruct (encoder_loop rt f ls 0 st0 rng) as [[st r]| |] eqn:Hrun;
            try discriminate
      end.
      apply (encoder_loop_counts rt m (fun l => run_layer rt l attention_mask)
               _ _ _ _ true) in Hrun;
        [|intros; eapply run_layer_records; eassumption].
      destruct Hrun as (H1 & H2 & H3). simpl in H1, H2. rewrite andb_true_r in H2.
      specialize (H3 ltac:(constructor)). simpl len_layer.
      encoder_tail H1 H2 H3.
Qed.

(** X10: The sizes of what the encoder returns.  The list of hidden states has
    one entry per layer when all layers are asked for and no checkpointing
    is done, and one entry otherwise.  The list of attention probabilities
    is returned exactly when asked for; it has one entry per layer with
    [RobertaLayer]s and no checkpointing, and is empty with DeepSpeed kernel
    layers or under checkpointing.  Without checkpointing every returned
    hidden state is a tensor. *)
Theorem RobertaEncoder_forward_counts (rt : Runtime) (m : RobertaEncoder rt)
    (hidden_states : Tensor3) (attention_mask : Tensor4)
    (Ngram_hidden_states Ngram_position_matrix : option Tensor3)
    (Ngram_attention_mask : option Tensor4)
    (output_all_encoded_layers checkpoint_activations output_attentions : bool)
    (rng rng' : RNG rt) (all_encoder_layers : list (PyVal rt))
    (all_attentions : option (list (T4 rt))) :
  RobertaEncoder_forward rt m hidden_states attention_mask Ngram_hidden_states
    Ngram_position_matrix Ngram_attention_mask output_all_encoded_layers
    checkpoint_activations output_attentions rng
  = Ok ((all_encoder_layers, all_attentions), rng') ->
  length all_encoder_layers
  = (if output_all_encoded_layers && negb checkpoint_activations
     then len_layer rt (layer rt m) else 1) /\
  (if output_attentions
   then exists l, all_attentions = Some l /\
          length l = (if is_transformer_kernel rt m || checkpoint_activations
                      then 0 else len_layer rt (layer rt m))
   else all_attentions = None) /\
  (checkpoint_activations = false -> Forall is_tensor all_encoder_layers).
Proof.
  apply RobertaEncoder_forward_sizes.
Qed.

Lemma RobertaEncoder_forward_counts_witness :
  exists all_encoder_layers all_attentions,
    RobertaEncoder_forward rational_runtime (demo_encoder 2) demo_hidden demo_mask
      None None None true false true tt
    = Ok ((all_encoder_layers, all_attentions), tt) /\
    length all_encoder_layers = 2 /\
    exists l, all_attentions = Some l /\ length l = 2.
Proof.
  destruct (RobertaEncoder_forward rational_runtime (demo_encoder 2) demo_hidden demo_mask
              None None None true false true tt)
    as [[[all_encoder_layers all_attentions] []]| |] eqn:E;
    [| vm_compute in E; discriminate E | vm_compute in E; discriminate E].
  exists all_encoder_layers, all_attentions. split; [reflexivity|].
  destruct (RobertaEncoder_forward_counts rational_runtime (demo_encoder 2) demo_hidden
              demo_mask None None None true false true tt tt all_encoder_layers
              all_attentions E) as (H1 & H2 & _).
  split; [exact H1 | exact H2].
Defined.


Section EncoderNgram.
Context (rt : Runtime) {A : Type} (m : RobertaEncoder rt).
Context (run : A -> Tensor3 -> M rt (Tensor3 * option (T4 rt))).
Context (pos pos' : option Tensor3) (mask mask' : option Tensor4).
Context (output_all_encoded_layers output_attentions : bool).
Hypothesis no_Ngram : is_Ngram rt m = false.

Lemma encoder_step_no_Ngram (l : A) (i : nat) (st st' : LoopState rt) (rng : RNG rt) :
  same_but_Ngram st st' ->
  match encoder_step rt m (run l) pos mask output_all_encoded_layers output_attentions
          i st rng with
  | Ok (s1, r1) =>
      exists s2,
        encoder_step rt m (run l) pos' mask' output_all_encoded_layers output_attentions
          i st' rng = Ok (s2, r1) /\ same_but_Ngram s1 s2
  | Raise e =>
      encoder_step rt m (run l) pos' mask' output_all_encoded_layers output_attentions
        i st' rng = Raise e
  | Diverge =>
      encoder_step rt m (run l) pos' mask' output_all_encoded_layers output_attentions
        i st' rng = Diverge
  end.
Proof.
  intros (Hh & Hl & Ha). unfold encoder_step, Ngram_step.
  rewrite no_Ngram, <- Hh, <- Hl, <- Ha. simpl andb. cbv iota.
  unfold mbind, M_bind, mret, M_ret.
  destruct (run l (ls_hidden_states rt st) rng) as [[[h p] r1]| |]; try reflexivity.
  eexists. split; [reflexivity|]. repeat split.
Qed.

Lemma encoder_loop_no_Ngram (ls : list A) (i : nat) (st st' : LoopState rt) (rng : RNG rt) :
  same_but_Ngram st st' ->
  match encoder_loop rt
          (fun l => encoder_step rt m (run l) pos mask
                      output_all_encoded_layers output_attentions) ls i st rng with
  | Ok (s1, r1) =>
      exists s2,
        encoder_loop rt
          (fun l => encoder_step rt m (run l) pos' mask'
                      output_all_encoded_layers output_attentions) ls i st' rng
        = Ok (s2, r1) /\ same_but_Ngram s1 s2
  | Raise e =>
      encoder_loop rt
        (fun l => encoder_step rt m (run l) pos' mask'
                    output_all_encoded_layers output_attentions) ls i st' rng = Raise e
  | Diverge =>
      encoder_loop rt
        (fun l => encoder_step rt m (run l) pos' mask'
                    output_all_encoded_layers output_attentions) ls i st' rng = Diverge
  end.
Proof.
  revert i st st' rng. induction ls as [|l ls IH]; intros i st st' rng Hs; simpl.
  - exists st'. split; [reflexivity | exact Hs].
  - unfold mbind, M_bind.
    pose proof (encoder_step_no_Ngram l i st st' rng Hs) as Hstep.
    destruct (encoder_step rt m (run l) pos mask output_all_encoded_layers
                output_attentions i st rng) as [[s1 r1]| |].
    + destruct Hstep as (s2 & -> & Hs'). apply IH. exact Hs'.
    + rewrite Hstep. reflexivity.
    + rewrite Hstep. reflexivity.
Qed.

End EncoderNgram.

(** X11: The N-gram inputs are read only by the layer loop of an encoder built
    with [is_Ngram]: without that flag, and on every checkpointed run, the
    encoder returns the same with and without them. *)
Theorem RobertaEncoder_forward_ignores_Ngram (rt : Runtime) (m : RobertaEncoder rt)
    (hidden_states : Tensor3) (attention_mask : Tensor4)
    (Ngram_hidden_states Ngram_position_matrix : option Tensor3)
    (Ngram_attention_mask : option Tensor4)
    (output_all_encoded_layers checkpoint_activations output_attentions : bool)
    (rng : RNG rt) :
  is_Ngram rt m = false \/ checkpoint_activations = true ->
  RobertaEncoder_forward rt m hidden_states attention_mask Ngram_hidden_states
    Ngram_position_matrix Ngram_attention_mask output_all_encoded_layers
    checkpoint_activations output_attentions rng
  = RobertaEncoder_forward rt m hidden_states attention_mask None None None
      output_all_encoded_layers checkpoint_activations output_attentions rng.
Proof.
  intros H. destruct checkpoint_activations; [reflexivity|].
  destruct H as [Hn | H]; [|discriminate H].
  unfold RobertaEncoder_forward.
  unfold mbind, M_bind, mret, M_ret, liftR.
  set (st0 := {| ls_hidden_states := hidden_states;
                 ls_Ngram_hidden_states := Ngram_hidden_states;
                 ls_all_encoder_layers := [];
                 ls_all_attentions := [] |}).
  set (st0' := {| ls_hidden_states := hidden_states;
                  ls_Ngram_hidden_states := None;
                  ls_all_encoder_layers := [];
                  ls_all_attentions := [] |}).
  assert (Hs : same_but_Ngram st0 st0') by (repeat split).
  destruct (layer rt m) as [ls|ls].
  - pose proof (encoder_loop_no_Ngram rt m (fun l => run_kernel rt l attention_mask)
                  Ngram_position_matrix None Ngram_attention_mask None
                  output_all_encoded_layers output_attentions Hn ls 0 st0 st0' rng Hs) as Hl.
    cbv beta in Hl.
    match type of Hl with
    | match ?x with _ => _ end => destruct x as [[s1 r1]| |]
    end.
    + destruct Hl as (s2 & -> & Hh & Hl & Ha). rewrite Hh, Hl, Ha. reflexivity.
    + rewrite Hl. reflexivity.
    + rewrite Hl. reflexivity.
  - pose proof (encoder_loop_no_Ngram rt m (fun l => run_layer rt l attention_mask)
                  Ngram_position_matrix None Ngram_attention_mask None
                  output_all_encoded_layers output_attentions Hn ls 0 st0 st0' rng Hs) as Hl.
    cbv beta in Hl.
    match type of Hl with
    | match ?x with _ => _ end => destruct x as [[s1 r1]| |]
    end.
    + destruct Hl as (s2 & -> & Hh & Hl & Ha). rewrite Hh, Hl, Ha. reflexivity.
    + rewrite Hl. reflexivity.
    + rewrite Hl. reflexivity.
Qed.

Lemma RobertaEncoder_forward_ignores_Ngram_witness :
  RobertaEncoder_forward rational_runtime (demo_encoder 2) demo_hidden demo_mask
    (Some [[[1]]]%Q) (Some [[[1]]]%Q) (Some demo_mask) true false false tt
  = RobertaEncoder_forward rational_runtime (demo_encoder 2) demo_hidden demo_mask
      None None None true false false tt.
Proof.
  apply (RobertaEncoder_forward_ignores_Ngram rational_runtime (demo_encoder 2)).
  left. reflexivity.
Defined.


(** ** Indexes of the prediction head *)

Lemma index_select_raise {A} (rows : list A) (idx : list nat) :
  Exists (fun i => length rows <= i) idx -> index_select rows idx = Raise IndexError.
Proof.
  intros H. unfold index_select. apply mapR_raise.
  - intros i. destruct (rows !! i); [right; eexists | left]; reflexivity.
  - eapply Exists_impl; [exact H|]. intros i Hi. simpl.
    rewrite (proj2 (lookup_ge_None rows i) Hi). reflexivity.
Qed.

Lemma index_select_elem_of {A} (rows : list A) (idx : list nat) (sel : list A) :
  index_select rows idx = Ok sel -> Forall (fun r => r ∈ rows) sel.
Proof.
  intros H. apply index_select_Forall2 in H.
  induction H as [|i r idx sel Hr _ IH]; constructor; [|exact IH].
  eapply list_elem_of_lookup_2, Hr.
Qed.

Lemma RobertaLMPredictionHead_forward_None_dense (rt : Runtime)
    (cls : RobertaLMPredictionHead) (hidden_states : Hidden) :
  sparse_predict cls = false ->
  ~ is_ok (RobertaLMPredictionHead_forward rt cls hidden_states None).
Proof.
  intros Hs [out H]. unfold RobertaLMPredictionHead_forward in H.
  rewrite Hs in H. simpl in H. unfold mbind, result_bind in H.
  destruct (RobertaPredictionHeadTransform_forward rt _ _); discriminate H.
Qed.

(** X12: The head returns one row of logits per masked-token index when every
    index is a position of the flattened hidden states, and raises
    [IndexError] otherwise, in the sparse and in the dense mode alike. *)
Theorem RobertaLMPredictionHead_forward_index_range (rt : Runtime)
    (cls : RobertaLMPredictionHead) (t : Tensor3) (idx : list nat) :
  Forall (fun r => is_ok (RobertaPredictionHeadTransform_row rt (transform cls) r))
    (concat t) ->
  if forallb (fun i => (i <? length (concat t))%nat) idx
  then exists logits,
         RobertaLMPredictionHead_forward rt cls (H3 t) (Some idx) = Ok (H2 logits) /\
         length logits = length idx
  else RobertaLMPredictionHead_forward rt cls (H3 t) (Some idx) = Raise IndexError.
Proof.
  intros Htot. rewrite (RobertaLMPredictionHead_forward_rows rt cls t idx Htot).
  destruct (forallb _ idx) eqn:Hall.
  - assert (Hin : Forall (fun i => i < length (concat t)) idx).
    { apply Forall_forall. intros i Hi.
      rewrite forallb_forall in Hall. apply Nat.ltb_lt, Hall, list_elem_of_In, Hi. }
    destruct (index_select_ok _ _ Hin) as [sel Hsel]. rewrite Hsel. simpl.
    assert (Hlog : is_ok (mapR (logit_row rt cls) sel)).
    { apply mapR_total. eapply Forall_impl; [exact (index_select_elem_of _ _ _ Hsel)|].
      intros r Hr. simpl in Hr. rewrite Forall_forall in Htot.
      destruct (Htot r Hr) as [y Hy]. unfold logit_row. rewrite Hy. eexists. reflexivity. }
    destruct Hlog as [logits Hlog]. rewrite Hlog. simpl.
    exists logits. split; [reflexivity|].
    rewrite (mapR_length _ _ _ Hlog). apply (mapR_length _ _ _ Hsel).
  - rewrite index_select_raise; [reflexivity|].
    apply Exists_exists.
    assert (Hex : exists i, In i idx /\ (i <? length (concat t))%nat = false).
    { clear -Hall. induction idx as [|i idx IH]; simpl in Hall; [discriminate|].
      destruct (i <? length (concat t))%nat eqn:Hi.
      - destruct (IH Hall) as (j & Hj & Hlt). exists j. split; [right; exact Hj | exact Hlt].
      - exists i. split; [left; reflexivity | exact Hi]. }
    destruct Hex as (i & Hi & Hlt). exists i.
    split; [apply list_elem_of_In, Hi | apply Nat.ltb_ge, Hlt].
Qed.

Lemma RobertaLMPredictionHead_forward_index_range_witness :
  (exists logits,
     RobertaLMPredictionHead_forward rational_runtime (unit_head false [5%Q])
       (H3 [[[1]; [2]]; [[3]; [4]]]%Q) (Some [3; 0; 3]) = Ok (H2 logits) /\
     length logits = 3) /\
  RobertaLMPredictionHead_forward rational_runtime (unit_head true [5%Q])
    (H3 [[[1]; [2]]; [[3]; [4]]]%Q) (Some [0; 4]) = Raise IndexError.
Proof.
  split.
  - apply (RobertaLMPredictionHead_forward_index_range rational_runtime
             (unit_head false [5%Q]) [[[1]; [2]]; [[3]; [4]]]%Q [3; 0; 3]).
    repeat constructor; eexists; reflexivity.
  - apply (RobertaLMPredictionHead_forward_index_range rational_runtime
             (unit_head true [5%Q]) [[[1]; [2]]; [[3]; [4]]]%Q [0; 4]).
    repeat constructor; eexists; reflexivity.
Defined.

(** X13: Without masked-token indexes, the default of [RobertaOnlyMLMHead] and
    [RobertaPreTrainingHeads], a head in dense mode never returns: its
    final [index_select] has no index tensor. *)
Theorem RobertaOnlyMLMHead_forward_needs_indexes (rt : Runtime)
    (predictions : RobertaLMPredictionHead) (sequence_output : Tensor3) :
  sparse_predict predictions = false ->
  ~ is_ok (RobertaOnlyMLMHead_forward rt predictions sequence_output None) /\
  (Forall (fun r => is_ok (RobertaPredictionHeadTransform_row rt (transform predictions) r))
     (concat sequence_output) ->
   RobertaOnlyMLMHead_forward rt predictions sequence_output None = Raise TypeError).
Proof.
  intros Hs. split.
  - apply RobertaLMPredictionHead_forward_None_dense, Hs.
  - intros Htot. unfold RobertaOnlyMLMHead_forward, RobertaLMPredictionHead_forward.
    rewrite Hs. simpl. unfold RobertaPredictionHeadTransform_forward, hidden_mapR.
    destruct (mapR_nested_total _ _ Htot) as [t' ->]. reflexivity.
Qed.

Lemma RobertaOnlyMLMHead_forward_needs_indexes_witness :
  RobertaOnlyMLMHead_forward rational_runtime (unit_head false [5%Q])
    [[[1]; [2]]; [[3]; [4]]]%Q None = Raise TypeError.
Proof.
  destruct (RobertaOnlyMLMHead_forward_needs_indexes rational_runtime
              (unit_head false [5%Q]) [[[1]; [2]]; [[3]; [4]]]%Q eq_refl) as [_ H].
  apply H. repeat constructor; eexists; reflexivity.
Defined.


(** ** Pooler and N-gram embeddings *)

Lemma mapR_Ok {A B} (f : A -> B) (l : list A) :
  mapR (fun x => Ok (f x)) l = Ok (map f l).
Proof.
  induction l as [|x l IH]; simpl; [reflexivity|]. rewrite IH. reflexivity.
Qed.

Lemma mapR_ext {A B} (f g : A -> result B) (l : list A) :
  (forall x, f x = g x) -> mapR f l = mapR g l.
Proof.
  intros H. induction l as [|x l IH]; simpl; [reflexivity|]. rewrite H, IH. reflexivity.
Qed.

(** X14: The pooled output is [tanh(W h + b)] of the hidden vector [h] of the
    first token of every sequence, with the fused and with the regular
    linear layer; the other tokens are not read, and an empty sequence
    raises [IndexError]. *)
Theorem RobertaPooler_forward_first_token (rt : Runtime) (config : RobertaConfig)
    (w : Matrix) (b : Vec) (m : RobertaPooler) (hidden_states : Tensor3) :
  RobertaPooler_init rt config w b = Ok m ->
  RobertaPooler_forward rt m (VTensor rt hidden_states)
  = (first_token_tensor ← first_token hidden_states;
     Ok (map (fun h => map (F_tanh rt) (F_linear w (Some b) h)) first_token_tensor)) /\
  RobertaPooler_forward rt m (VTensor rt hidden_states)
  = RobertaPooler_forward rt m (VTensor rt (map (take 1) hidden_states)) /\
  (Exists (fun seq => seq = []) hidden_states ->
   RobertaPooler_forward rt m (VTensor rt hidden_states) = Raise IndexError).
Proof.
  intros Hinit.
  assert (Hrow : forall h, DenseAct_forward rt (pooler_dense_act m) h
                           = Ok (map (F_tanh rt) (F_linear w (Some b) h))).
  { unfold RobertaPooler_init in Hinit.
    destruct (getattr config "fused_linear_layer") as [[|]| |]; try discriminate Hinit;
      simpl in Hinit; injection Hinit as <-; intros h; simpl.
    - unfold LinearActivation_forward, bias_tanh, F_linear. simpl.
      rewrite (vec_add_comm b). reflexivity.
    - reflexivity. }
  assert (Hfw : forall t, RobertaPooler_forward rt m (VTensor rt t)
                = (first_token_tensor ← first_token t;
                   Ok (map (fun h => map (F_tanh rt) (F_linear w (Some b) h))
                         first_token_tensor))).
  { intros t. unfold RobertaPooler_forward.
    destruct (first_token t) as [rows| |]; simpl; try reflexivity.
    rewrite (mapR_ext _ _ rows Hrow). apply mapR_Ok. }
  split; [apply Hfw|]. split.
  - rewrite !Hfw. f_equal. unfold first_token.
    induction hidden_states as [|seq t IH]; simpl; [reflexivity|].
    rewrite IH. destruct seq; reflexivity.
  - intros Hex. rewrite Hfw.
    assert (Hft : first_token hidden_states = Raise IndexError).
    { unfold first_token. apply mapR_raise.
      - intros seq. destruct (seq !! 0); [right; eexists | left]; reflexivity.
      - eapply Exists_impl; [exact Hex|]. intros seq ->. reflexivity. }
    rewrite Hft. reflexivity.
Qed.

Lemma RobertaPooler_forward_first_token_witness :
  let m := {| pooler_dense_act :=
                Fused (Build_LinearActivation false true false None [[1%Q]] [0%Q]) |} in
  RobertaPooler_forward rational_runtime m (VTensor rational_runtime [[[2]; [3]]]%Q)
  = RobertaPooler_forward rational_runtime m (VTensor rational_runtime [[[2]]]%Q) /\
  RobertaPooler_forward rational_runtime m (VTensor rational_runtime [[[2]]; []]%Q)
  = Raise IndexError.
Proof.
  intros m. split.
  - destruct (RobertaPooler_forward_first_token rational_runtime fused_config
                [[1%Q]] [0%Q] m [[[2]; [3]]]%Q) as (_ & H & _); [vm_compute; reflexivity|].
    exact H.
  - destruct (RobertaPooler_forward_first_token rational_runtime fused_config
                [[1%Q]] [0%Q] m [[[2]]; []]%Q) as (_ & _ & H); [vm_compute; reflexivity|].
    apply H. right. left. reflexivity.
Defined.

Lemma lookup2_map {A B} (f : A -> B) (t : list (list A)) (b s : nat) :
  (row ← map (map f) t !! b; row !! s) = f <$> (row ← t !! b; row !! s).
Proof.
  rewrite lookup_map. destruct (t !! b) as [row|]; simpl; [apply lookup_map | reflexivity].
Qed.

Lemma hidden_at_map_map (f : Vec -> Vec) (t : Tensor3) (b s : nat) :
  hidden_at (map (map f) t) b s = f <$> hidden_at t b s.
Proof. exact (lookup2_map f t b s). Qed.

(** X15: The embedding of valid N-gram ids: the entry at batch [b], position [s]
    is the [LayerNorm] of the sum of the word row of the id there and of
    segment row 0.  No position enters: the same id gets the same vector
    wherever it stands. *)
Theorem RobertaNgramEmbeddings_forward_entries (rt : Runtime) (m : RobertaNgramEmbeddings)
    (input_ids : list (list Z)) (rng : RNG rt) :
  Forall (Forall (fun i => (0 <= i < Z.of_nat (length (ng_word_embeddings m)))%Z))
    input_ids ->
  0 < length (ng_token_type_embeddings m) ->
  exists e,
    RobertaNgramEmbeddings_forward rt m input_ids None rng
    = Ok (F_dropout rt (ng_dropout m) e rng) /\
    forall b s i,
      mask_at input_ids b s = Some i ->
      exists w t,
        ng_word_embeddings m !! Z.to_nat i = Some w /\
        ng_token_type_embeddings m !! 0 = Some t /\
        hidden_at e b s
        = Some (F_layer_norm rt (ng_LayerNorm_weight m) (ng_LayerNorm_bias m)
                  (ng_layer_norm_eps m) (vec_add w t)).
Proof.
  intros Hword Htype.
  assert (Htypev : Forall (Forall (fun i =>
             (0 <= i < Z.of_nat (length (ng_token_type_embeddings m)))%Z))
            (zeros_like input_ids)).
  { unfold zeros_like. apply Forall_forall. intros r Hr.
    apply list_elem_of_In, in_map_iff in Hr as (r0 & <- & _).
    apply Forall_forall. intros i Hi.
    apply list_elem_of_In, in_map_iff in Hi as (k & <- & _). lia. }
  destruct (nn_Embedding_forward_ok _ _ Hword) as (w & Hw & Hfw).
  destruct (nn_Embedding_forward_ok _ _ Htypev) as (t & Ht & Hft).
  set (ln := F_layer_norm rt (ng_LayerNorm_weight m) (ng_LayerNorm_bias m)
               (ng_layer_norm_eps m)).
  exists (map (map ln) (tensor_add w t)). split.
  - unfold RobertaNgramEmbeddings_forward. cbv zeta.
    unfold mbind, M_bind, liftR, liftS, mret, M_ret.
    rewrite Hw, Ht. unfold LayerNorm_forward, LayerNorm_row.
    rewrite (mapR_ext _ (fun r => Ok (map ln r)) _ (fun r => mapR_Ok ln r)).
    rewrite mapR_Ok. reflexivity.
  - intros b s i Hi.
    assert (Hti : mask_at (zeros_like input_ids) b s = Some 0%Z).
    { unfold mask_at, zeros_like in *. rewrite lookup_map.
      destruct (input_ids !! b) as [r|]; [|discriminate]. simpl in *.
      rewrite lookup_map, Hi. reflexivity. }
    destruct (hidden_at_lookup _ _ _ _ _ _ Hfw Hi) as (vw & Hvw & Hew).
    destruct (hidden_at_lookup _ _ _ _ _ _ Hft Hti) as (vt & Hvt & Het).
    simpl in Hvt. exists vw, vt. repeat split; try assumption.
    rewrite hidden_at_map_map, (hidden_at_tensor_add _ _ _ _ _ _ Hew Het). reflexivity.
Qed.

Lemma RobertaNgramEmbeddings_forward_entries_witness :
  let m := {| ng_word_embeddings := [[1]; [2]]%Q; ng_token_type_embeddings := [[100]]%Q;
              ng_LayerNorm_weight := [1%Q]; ng_LayerNorm_bias := [0%Q];
              ng_layer_norm_eps := 1; ng_dropout := 0 |} in
  exists e,
    RobertaNgramEmbeddings_forward rational_runtime m [[0; 1; 0]]%Z None tt
    = Ok (e, tt) /\
    hidden_at e 0 0 = hidden_at e 0 2.
Proof.
  intros m.
  destruct (RobertaNgramEmbeddings_forward_entries rational_runtime m [[0; 1; 0]]%Z tt)
    as (e & He & Hent).
  - repeat constructor; simpl; lia.
  - simpl. lia.
  - exists e. split; [exact He|].
    destruct (Hent 0 0 0%Z eq_refl) as (w0 & t0 & Hw0 & Ht0 & ->).
    destruct (Hent 0 2 0%Z eq_refl) as (w2 & t2 & Hw2 & Ht2 & ->).
    simpl in Hw0, Ht0, Hw2, Ht2. congruence.
Defined.


(** ** The model *)

Lemma nn_Embedding_forward_total (table : Matrix) (ids : list (list Z)) :
  nn_Embedding_forward table ids <> Diverge.
Proof.
  destruct (nn_Embedding_forward_raise_or_ok table ids) as [-> | [t ->]]; discriminate.
Qed.

Lemma RobertaEmbeddings_forward_total (rt : Runtime) (m : RobertaEmbeddings)
    (input_ids : list (list Z)) (token_type_ids : option (list (list Z))) (rng : RNG rt) :
  RobertaEmbeddings_forward rt m input_ids token_type_ids rng <> Diverge.
Proof.
  unfold RobertaEmbeddings_forward. cbv zeta.
  apply M_bind_total; [intros r; apply liftR_total, nn_Embedding_forward_total|].
  intros w r. apply M_bind_total; [intros r'; apply liftR_total, nn_Embedding_forward_total|].
  intros p r'. apply M_bind_total; [intros r2; apply liftR_total, nn_Embedding_forward_total|].
  intros t r2. apply M_bind_total; [|intros; discriminate].
  intros r3. destruct (layernorm_embedding m); [|discriminate].
  destruct (emb_LayerNorm m); [apply liftR_total, LayerNorm_forward_total | discriminate].
Qed.

Lemma RobertaNgramEmbeddings_forward_total (rt : Runtime) (m : RobertaNgramEmbeddings)
    (input_ids : list (list Z)) (token_type_ids : option (list (list Z))) (rng : RNG rt) :
  RobertaNgramEmbeddings_forward rt m input_ids token_type_ids rng <> Diverge.
Proof.
  unfold RobertaNgramEmbeddings_forward. cbv zeta.
  apply M_bind_total; [intros r; apply liftR_total, nn_Embedding_forward_total|].
  intros w r. apply M_bind_total; [intros r'; apply liftR_total, nn_Embedding_forward_total|].
  intros t r'. apply M_bind_total; [|intros; discriminate].
  intros r2. apply liftR_total, LayerNorm_forward_total.
Qed.

Lemma Ngram_inputs_total (rt : Runtime) (m : RobertaModel rt)
    (input_Ngram_ids Ngram_attention_mask Ngram_token_type_ids : option (list (list Z)))
    (rng : RNG rt) :
  Ngram_inputs rt m input_Ngram_ids Ngram_attention_mask Ngram_token_type_ids rng
  <> Diverge.
Proof.
  unfold Ngram_inputs. destruct (model_is_Ngram rt m); [|discriminate].
  destruct input_Ngram_ids as [ids|].
  - destruct (Ngram_embeddings rt m) as [ng|]; [|discriminate].
    apply M_bind_total; [intros r; apply RobertaNgramEmbeddings_forward_total|].
    intros; discriminate.
  - destruct Ngram_attention_mask, Ngram_token_type_ids, (Ngram_embeddings rt m);
      discriminate.
Qed.

(** A successful run of [RobertaLayer]s from a tensor ends with the pair
    the single layer returned; with two layers or more there is none. *)
Lemma run_modules_layers_result (rt : Runtime) (l : RobertaLayer) (ls : list RobertaLayer)
    (h : Tensor3) (mask : Tensor4) (rng : RNG rt) :
  match run_modules rt (call_layer rt) (l :: ls) (VTensor rt h) mask rng with
  | Ok (y, _) => exists t p, y = VTuple rt t p
  | Raise _ => True
  | Diverge => False
  end.
Proof.
  simpl. unfold mbind, M_bind, mret, M_ret.
  pose proof (RobertaLayer_forward_total rt l h mask 1 1 rng) as Htot.
  destruct (RobertaLayer_forward rt l h mask 1 1 rng) as [[[o p] r]| |];
    [|exact I | contradiction].
  destruct ls as [|l2 ls]; simpl; [eexists _, _; reflexivity | exact I].
Qed.

Lemma RobertaEncoder_forward_checkpoint_layers (rt : Runtime) (m : RobertaEncoder rt)
    (l : RobertaLayer) (ls : list RobertaLayer)
    (hidden_states : Tensor3) (attention_mask : Tensor4)
    (Ngram_hidden_states Ngram_position_matrix : option Tensor3)
    (Ngram_attention_mask : option Tensor4) (record output_attentions : bool)
    (rng : RNG rt) :
  layer rt m = PyLayers rt (l :: ls) ->
  match RobertaEncoder_forward rt m hidden_states attention_mask Ngram_hidden_states
          Ngram_position_matrix Ngram_attention_mask record true output_attentions rng with
  | Ok ((layers, _), _) => exists t p, layers = [VTuple rt t p]
  | Raise _ => True
  | Diverge => False
  end.
Proof.
  intros Hlayer. unfold RobertaEncoder_forward. rewrite Hlayer. unfold len_layer, custom.
  set (n := length (l :: ls)).
  assert (Hc0 : 0 < chunk_length n) by (apply chunk_length_pos; unfold n; simpl; lia).
  assert (Hfuel : length (l :: ls) - 0 <= length (l :: ls)) by lia.
  unfold mbind at 1, M_bind at 1. unfold mbind at 1, M_bind at 1.
  unfold n at 1 2.
  rewrite (checkpoint_loop_run_modules rt (call_layer rt) (l :: ls)
             (length (l :: ls)) 0 (chunk_length n) (VTensor rt hidden_states)
             _ rng Hc0 Hfuel).
  rewrite drop_0.
  pose proof (run_modules_layers_result rt l ls hidden_states
                (tensor4_map (fun x => (x * 1)%Q) attention_mask) rng) as Hrun.
  destruct (run_modules rt (call_layer rt) (l :: ls) (VTensor rt hidden_states) _ rng)
    as [[y r]| |]; [|exact I | contradiction].
  destruct Hrun as (t & p & ->). rewrite orb_true_r.
  unfold mbind, M_bind, mret, M_ret, liftR. simpl.
  destruct (useLN _ && _); simpl; [exact I | eexists _, _; reflexivity].
Qed.

Lemma RobertaModel_forward_checkpoint_error (rt : Runtime) (m : RobertaModel rt)
    (l : RobertaLayer) (ls : list RobertaLayer)
    (input_ids : list (list Z)) (token_type_ids attention_mask : option (list (list Z)))
    (input_Ngram_ids Ngram_attention_mask Ngram_token_type_ids : option (list (list Z)))
    (Ngram_position_matrix : option Tensor3)
    (output_all_encoded_layers output_attentions : bool) (rng : RNG rt) :
  layer rt (encoder rt m) = PyLayers rt (l :: ls) ->
  raises (RobertaModel_forward rt m input_ids token_type_ids attention_mask
            input_Ngram_ids Ngram_attention_mask Ngram_token_type_ids
            Ngram_position_matrix output_all_encoded_layers true output_attentions rng).
Proof.
  intros Hlayer. unfold RobertaModel_forward. cbv zeta.
  unfold mbind at 1, M_bind at 1.
  match goal with
  | |- context [RobertaEmbeddings_forward rt ?a ?b ?c rng] =>
      pose proof (RobertaEmbeddings_forward_total rt a b c rng) as Hemb;
      destruct (RobertaEmbeddings_forward rt a b c rng) as [[e r1]|err|];
        [|exists err; reflexivity | contradiction]
  end.
  unfold mbind at 1, M_bind at 1.
  pose proof (Ngram_inputs_total rt m input_Ngram_ids Ngram_attention_mask
                Ngram_token_type_ids r1) as Hng.
  destruct (Ngram_inputs rt m input_Ngram_ids Ngram_attention_mask Ngram_token_type_ids r1)
    as [[[ne nm] r2]|err|]; [|exists err; reflexivity | contradiction].
  unfold mbind at 1, M_bind at 1.
  pose proof (RobertaEncoder_forward_checkpoint_layers rt (encoder rt m) l ls e
                (extended_attention_mask input_ids attention_mask) ne
                Ngram_position_matrix nm output_all_encoded_layers output_attentions
                r2 Hlayer) as Henc.
  destruct (RobertaEncoder_forward rt (encoder rt m) e _ ne Ngram_position_matrix nm
              output_all_encoded_layers true output_attentions r2)
    as [[[layers atts] r3]|err|]; [|exists err; reflexivity | contradiction].
  destruct Henc as (t & p & ->).
  exists TypeError. reflexivity.
Qed.

(** X16: [checkpoint_activations] cannot be used with the layers of the default
    path: a model whose encoder holds at least one [RobertaLayer] raises on
    every input when it is set.  With two layers or more the encoder
    raises; with one layer the pair that layer returned reaches the final
    normalization or the pooler, which raise. *)
Theorem RobertaModel_forward_checkpoint_raises (rt : Runtime) (m : RobertaModel rt)
    (l : RobertaLayer) (ls : list RobertaLayer)
    (input_ids : list (list Z)) (token_type_ids attention_mask : option (list (list Z)))
    (input_Ngram_ids Ngram_attention_mask Ngram_token_type_ids : option (list (list Z)))
    (Ngram_position_matrix : option Tensor3)
    (output_all_encoded_layers output_attentions : bool) (rng : RNG rt) :
  layer rt (encoder rt m) = PyLayers rt (l :: ls) ->
  raises (RobertaModel_forward rt m input_ids token_type_ids attention_mask
            input_Ngram_ids Ngram_attention_mask Ngram_token_type_ids
            Ngram_position_matrix output_all_encoded_layers true output_attentions rng).
Proof.
  apply RobertaModel_forward_checkpoint_error.
Qed.

Lemma RobertaModel_forward_checkpoint_raises_witness :
  raises (RobertaModel_forward rational_runtime (demo_model 1) [[0%Z]] None None
            None None None None false true false tt).
Proof.
  exact (RobertaModel_forward_checkpoint_raises rational_runtime (demo_model 1)
           demo_layer [] [[0%Z]] None None None None None None false false tt eq_refl).
Defined.

Lemma last_layer_elem_of {A} (l : list A) (x : A) : last_layer l = Ok x -> last l = Some x.
Proof. unfold last_layer. destruct (last l); [intros [= ->]; reflexivity | discriminate]. Qed.

Lemma RobertaModel_forward_result (rt : Runtime) (m : RobertaModel rt)
    (input_ids : list (list Z)) (token_type_ids attention_mask : option (list (list Z)))
    (input_Ngram_ids Ngram_attention_mask Ngram_token_type_ids : option (list (list Z)))
    (Ngram_position_matrix : option Tensor3)
    (output_all_encoded_layers output_attentions : bool) (rng rng' : RNG rt)
    (out : RobertaModelOutput rt) :
  RobertaModel_forward rt m input_ids token_type_ids attention_mask
    input_Ngram_ids Ngram_attention_mask Ngram_token_type_ids
    Ngram_position_matrix output_all_encoded_layers false output_attentions rng
  = Ok (out, rng') ->
  exists sequence_output,
    RobertaPooler_forward rt (pooler rt m) (VTensor rt sequence_output)
    = Ok (pooled_output rt out) /\
    (if output_all_encoded_layers
     then exists l, encoded_layers rt out = AllLayers rt l /\
            length l = len_layer rt (layer rt (encoder rt m)) /\
            last l = Some (VTensor rt sequence_output) /\
            Forall is_tensor l
     else encoded_layers rt out = LastLayer rt (VTensor rt sequence_output)) /\
    (if output_attentions
     then exists a, attentions rt out = Some a /\
            length a = (if is_transformer_kernel rt (encoder rt m)
                        then 0 else len_layer rt (layer rt (encoder rt m)))
     else attentions rt out = None).
Proof.
  unfold RobertaModel_forward. cbv zeta.
  unfold mbind at 1, M_bind at 1.
  match goal with
  | |- context [RobertaEmbeddings_forward rt ?a ?b ?c rng] =>
      destruct (RobertaEmbeddings_forward rt a b c rng) as [[e r1]| |]; try discriminate
  end.
  unfold mbind at 1, M_bind at 1.
  destruct (Ngram_inputs rt m input_Ngram_ids Ngram_attention_mask Ngram_token_type_ids r1)
    as [[[ne nm] r2]| |]; try discriminate.
  unfold mbind at 1, M_bind at 1.
  destruct (RobertaEncoder_forward rt (encoder rt m) e _ ne Ngram_position_matrix nm
              output_all_encoded_layers false output_attentions r2)
    as [[[layers atts] r3]| |] eqn:Henc; try discriminate.
  apply RobertaEncoder_forward_sizes in Henc. destruct Henc as (Hlen & Hatt & Htens).
  specialize (Htens eq_refl). rewrite andb_true_r in Hlen. rewrite orb_false_r in Hatt.
  unfold mbind, M_bind, mret, M_ret, liftR.
  destruct (last_layer layers) as [seq| |] eqn:Hlast; try discriminate.
  apply last_layer_elem_of in Hlast.
  assert (Hseq : is_tensor seq).
  { rewrite Forall_forall in Htens. apply Htens.
    apply last_Some in Hlast as [l' ->]. apply elem_of_app. right. constructor. }
  destruct Hseq as [t ->].
  destruct (RobertaPooler_forward rt (pooler rt m) (VTensor rt t)) as [p| |] eqn:Hpool;
    try discriminate.
  intros [= <- _]. cbn [pooled_output encoded_layers attentions].
  exists t. split; [exact Hpool|]. split.
  - destruct output_all_encoded_layers; [|reflexivity].
    exists layers. repeat split; assumption.
  - destruct output_attentions; [|reflexivity].
    destruct Hatt as (a & -> & Ha). exists a. split; [reflexivity | exact Ha].
Qed.

(** X17: What the model returns without checkpointing.  The pooled output is
    the pooler's value on the last hidden state, a tensor.  The first entry
    is that state alone, or with [output_all_encoded_layers] the list of
    the states after every layer, which ends with it.  The attention
    probabilities are returned exactly when asked for, one per layer with
    [RobertaLayer]s and none with DeepSpeed kernel layers. *)
Theorem RobertaModel_forward_output (rt : Runtime) (m : RobertaModel rt)
    (input_ids : list (list Z)) (token_type_ids attention_mask : option (list (list Z)))
    (input_Ngram_ids Ngram_attention_mask Ngram_token_type_ids : option (list (list Z)))
    (Ngram_position_matrix : option Tensor3)
    (output_all_encoded_layers output_attentions : bool) (rng rng' : RNG rt)
    (out : RobertaModelOutput rt) :
  RobertaModel_forward rt m input_ids token_type_ids attention_mask
    input_Ngram_ids Ngram_attention_mask Ngram_token_type_ids
    Ngram_position_matrix output_all_encoded_layers false output_attentions rng
  = Ok (out, rng') ->
  exists sequence_output,
    RobertaPooler_forward rt (pooler rt m) (VTensor rt sequence_output)
    = Ok (pooled_output rt out) /\
    (if output_all_encoded_layers
     then exists l, encoded_layers rt out = AllLayers rt l /\
            length l = len_layer rt (layer rt (encoder rt m)) /\
            last l = Some (VTensor rt sequence_output) /\
            Forall is_tensor l
     else encoded_layers rt out = LastLayer rt (VTensor rt sequence_output)) /\
    (if output_attentions
     then exists a, attentions rt out = Some a /\
            length a = (if is_transformer_kernel rt (encoder rt m)
                        then 0 else len_layer rt (layer rt (encoder rt m)))
     else attentions rt out = None).
Proof.
  apply RobertaModel_forward_result.
Qed.

Lemma RobertaModel_forward_output_witness :
  exists out sequence_output l a,
    RobertaModel_forward rational_runtime (demo_model 2) [[0%Z]] None None
      None None None None true false true tt = Ok (out, tt) /\
    RobertaPooler_forward rational_runtime (pooler rational_runtime (demo_model 2))
      (VTensor rational_runtime sequence_output)
    = Ok (pooled_output rational_runtime out) /\
    encoded_layers rational_runtime out = AllLayers rational_runtime l /\
    length l = 2 /\
    attentions rational_runtime out = Some a /\ length a = 2.
Proof.
  destruct (RobertaModel_forward rational_runtime (demo_model 2) [[0%Z]] None None
              None None None None true false true tt)
    as [[out []]| |] eqn:E;
    [| vm_compute in E; discriminate E | vm_compute in E; discriminate E].
  destruct (RobertaModel_forward_output rational_runtime (demo_model 2) [[0%Z]] None None
              None None None None true true tt tt out E)
    as (t & Hp & (l & Hl & Hlen & _) & (a & Ha & Hla)).
  exists out, t, l, a. repeat split; assumption.
Defined.


(** ** Pre-training models *)

Lemma DenseAct_forward_total (rt : Runtime) (m : DenseAct) (x : Vec) :
  DenseAct_forward rt m x <> Diverge.
Proof.
  destruct m as [la|ra]; simpl; [|discriminate]. unfold LinearActivation_forward.
  destruct (la_fused_gelu la), (la_fused_tanh la), (la_fused_relu la), (la_act_fn la);
    discriminate.
Qed.

Lemma RobertaPredictionHeadTransform_forward_total (rt : Runtime)
    (m : RobertaPredictionHeadTransform) (h : Hidden) :
  RobertaPredictionHeadTransform_forward rt m h <> Diverge.
Proof.
  assert (Hrow : forall x, RobertaPredictionHeadTransform_row rt m x <> Diverge).
  { intros x. unfold RobertaPredictionHeadTransform_row.
    apply result_bind_total; [apply DenseAct_forward_total|]. intros y.
    destruct (useLN (pht_config m)); [|discriminate].
    destruct (pht_LayerNorm m); simpl; [discriminate | apply RMSNorm_forward_total]. }
  unfold RobertaPredictionHeadTransform_forward, hidden_mapR.
  destruct h as [t|rows]; unfold fmap, result_fmap.
  - pose proof (mapR_total_fuel _ t (fun row => mapR_total_fuel _ row Hrow)) as H.
    destruct (mapR _ t); [discriminate | discriminate | contradiction].
  - pose proof (mapR_total_fuel _ rows Hrow) as H.
    destruct (mapR _ rows); [discriminate | discriminate | contradiction].
Qed.

Lemma RobertaLMPredictionHead_forward_None_raises (rt : Runtime)
    (cls : RobertaLMPredictionHead) (h : Hidden) :
  sparse_predict cls = false -> raises (RobertaLMPredictionHead_forward rt cls h None).
Proof.
  intros Hs. unfold RobertaLMPredictionHead_forward. rewrite Hs. simpl.
  unfold mbind, result_bind.
  pose proof (RobertaPredictionHeadTransform_forward_total rt (transform cls) h) as Htot.
  destruct (RobertaPredictionHeadTransform_forward rt (transform cls) h) as [?|e|];
    [exists TypeError | exists e | contradiction]; reflexivity.
Qed.

Lemma call_predictions_None_raises (rt : Runtime) (cls : RobertaLMPredictionHead)
    (sequence_output : EncodedLayers rt) :
  sparse_predict cls = false -> raises (call_predictions rt cls sequence_output None).
Proof.
  intros Hs. unfold call_predictions.
  destruct sequence_output as [l|[t|t p]]; try (exists TypeError; reflexivity).
  apply RobertaLMPredictionHead_forward_None_raises, Hs.
Qed.

Lemma RobertaEncoder_forward_total (rt : Runtime) (m : RobertaEncoder rt)
    (hidden_states : Tensor3) (attention_mask : Tensor4)
    (Ngram_hidden_states Ngram_position_matrix : option Tensor3)
    (Ngram_attention_mask : option Tensor4)
    (output_all_encoded_layers output_attentions : bool) (rng : RNG rt) :
  RobertaEncoder_forward rt m hidden_states attention_mask Ngram_hidden_states
    Ngram_position_matrix Ngram_attention_mask output_all_encoded_layers false
    output_attentions rng <> Diverge.
Proof.
  unfold RobertaEncoder_forward. apply M_bind_total.
  - intros r. apply M_bind_total; [|intros; discriminate].
    intros r'. destruct (layer rt m) as [ls|ls]; apply encoder_loop_total.
    + intros l h r2. unfold run_kernel, mbind, M_bind, liftS, mret, M_ret.
      destruct (l h attention_mask r2). discriminate.
    + intros l h r2. apply RobertaLayer_forward_total.
  - intros [[h layers] atts] r. apply M_bind_total; [|intros; discriminate].
    intros r'. destruct (negb output_all_encoded_layers || false); [|discriminate].
    apply M_bind_total; [|intros; discriminate].
    intros r2. destruct (useLN _ && _); [|discriminate].
    apply liftR_total. destruct h as [t|t p]; simpl; [|discriminate].
    unfold fmap, result_fmap.
    pose proof (LayerNorm_forward_total rt (FinalLayerNorm rt m) t) as H.
    destruct (LayerNorm_forward rt (FinalLayerNorm rt m) t);
      [discriminate | discriminate | contradiction].
Qed.

Lemma RobertaModel_forward_total (rt : Runtime) (m : RobertaModel rt)
    (input_ids : list (list Z)) (token_type_ids attention_mask : option (list (list Z)))
    (input_Ngram_ids Ngram_attention_mask Ngram_token_type_ids : option (list (list Z)))
    (Ngram_position_matrix : option Tensor3)
    (output_all_encoded_layers output_attentions : bool) (rng : RNG rt) :
  RobertaModel_forward rt m input_ids token_type_ids attention_mask
    input_Ngram_ids Ngram_attention_mask Ngram_token_type_ids
    Ngram_position_matrix output_all_encoded_layers false output_attentions rng
  <> Diverge.
Proof.
  unfold RobertaModel_forward. cbv zeta.
  apply M_bind_total; [intros r; apply RobertaEmbeddings_forward_total|].
  intros e r. apply M_bind_total; [intros r'; apply Ngram_inputs_total|].
  intros [ne nm] r'. apply M_bind_total; [intros r2; apply RobertaEncoder_forward_total|].
  intros [layers atts] r2. apply M_bind_total.
  - intros r3. apply liftR_total. unfold last_layer. destruct (last layers); discriminate.
  - intros seq r3. apply M_bind_total; [|intros; discriminate].
    intros r4. apply liftR_total. destruct seq as [t|t p]; simpl; [|discriminate].
    apply result_bind_total.
    + unfold first_token. apply mapR_total_fuel. intros s. destruct (s !! 0); discriminate.
    + intros rows. apply mapR_total_fuel, DenseAct_forward_total.
Qed.

(** X18: Without labels a masked-LM model in dense mode raises on every batch:
    the scores are asked of the head without masked-token indexes, which
    the dense mode cannot do without. *)
Theorem RobertaLMHeadModel_forward_needs_labels (rt : Runtime)
    (m : RobertaLMHeadModel rt) (batch : LMHeadBatch) (output_attentions : bool)
    (rng : RNG rt) :
  sparse_predict (lm_cls rt m) = false ->
  lb_masked_lm_labels batch = None ->
  raises (RobertaLMHeadModel_forward rt m batch output_attentions rng).
Proof.
  intros Hs Hl. unfold RobertaLMHeadModel_forward. cbv zeta. rewrite Hl.
  unfold mbind at 1, M_bind at 1.
  match goal with
  | |- context [RobertaModel_forward rt ?m0 ?a ?b ?c ?d ?e ?f ?g false false false rng] =>
      pose proof (RobertaModel_forward_total rt m0 a b c d e f g false false rng) as Htot;
      destruct (RobertaModel_forward rt m0 a b c d e f g false false false rng)
        as [[out r]|err|]; [|exists err; reflexivity | contradiction]
  end.
  unfold mbind, M_bind, liftR, mret, M_ret.
  destruct (call_predictions_None_raises rt (lm_cls rt m) (encoded_layers rt out) Hs)
    as [err ->].
  exists err. reflexivity.
Qed.

Lemma RobertaLMHeadModel_forward_needs_labels_witness :
  raises (RobertaLMHeadModel_forward rational_runtime demo_lm_model (demo_lm_batch None)
            false tt).
Proof.
  exact (RobertaLMHeadModel_forward_needs_labels rational_runtime demo_lm_model
           (demo_lm_batch None) false tt eq_refl eq_refl).
Defined.

(** X19: Without both label tensors a pre-training model in dense mode raises
    on every batch, for the same reason. *)
Theorem RobertaForPreTraining_forward_needs_labels (rt : Runtime)
    (m : RobertaForPreTraining rt) (batch : PreTrainingBatch) (rng : RNG rt) :
  sparse_predict (pth_predictions (pt_cls rt m)) = false ->
  pb_masked_lm_labels batch = None \/ pb_next_sentence_label batch = None ->
  raises (RobertaForPreTraining_forward rt m batch rng).
Proof.
  intros Hs Hl. unfold RobertaForPreTraining_forward. cbv zeta.
  unfold mbind at 1, M_bind at 1.
  match goal with
  | |- context [RobertaModel_forward rt ?m0 ?a ?b ?c ?d ?e ?f ?g false false false rng] =>
      pose proof (RobertaModel_forward_total rt m0 a b c d e f g false false rng) as Htot;
      destruct (RobertaModel_forward rt m0 a b c d e f g false false false rng)
        as [[out r]|err|]; [|exists err; reflexivity | contradiction]
  end.
  assert (Hnone : raises (RobertaPreTrainingHeads_forward rt (pt_cls rt m)
                            (encoded_layers rt out) (pooled_output rt out) None)).
  { unfold RobertaPreTrainingHeads_forward.
    destruct (call_predictions_None_raises rt (pth_predictions (pt_cls rt m))
                (encoded_layers rt out) Hs) as [err ->].
    exists err. reflexivity. }
  destruct Hnone as [err Herr].
  destruct (pb_masked_lm_labels batch) as [labels|], (pb_next_sentence_label batch) as [n|],
    Hl as [H|H]; try discriminate H;
    unfold mbind, M_bind, liftR, mret, M_ret; rewrite Herr; exists err; reflexivity.
Qed.

Lemma RobertaForPreTraining_forward_needs_labels_witness :
  raises (RobertaForPreTraining_forward rational_runtime demo_pretraining_model
            (demo_pretraining_batch (Some [[0%Z]]) None) tt).
Proof.
  exact (RobertaForPreTraining_forward_needs_labels rational_runtime
           demo_pretraining_model (demo_pretraining_batch (Some [[0%Z]]) None) tt
           eq_refl (or_intror eq_refl)).
Defined.

(** X20: With labels, the masked-LM model returns the masked-LM loss of the
    last hidden state of the underlying model.  Under [output_attentions]
    the entry appended to it is the pooled output: the model is run without
    that flag, so the last entry of what it returns holds no attention
    probabilities. *)
Theorem RobertaLMHeadModel_forward_outputs (rt : Runtime) (m : RobertaLMHeadModel rt)
    (batch : LMHeadBatch) (output_attentions : bool) (rng rng' : RNG rt)
    (masked_lm_labels : list (list Z)) (outputs : LMHeadOutput rt) :
  lb_masked_lm_labels batch = Some masked_lm_labels ->
  RobertaLMHeadModel_forward rt m batch output_attentions rng = Ok (outputs, rng') ->
  exists roberta_output sequence_output loss,
    RobertaModel_forward rt (lm_roberta rt m) (lb_input_ids batch)
      (lb_token_type_ids batch) (lb_attention_mask batch)
      (if lm_is_Ngram rt m then lb_input_Ngram_ids batch else None)
      (if lm_is_Ngram rt m then lb_Ngram_attention_mask batch else None)
      (if lm_is_Ngram rt m then lb_Ngram_token_type_ids batch else None)
      (if lm_is_Ngram rt m then lb_Ngram_position_matrix batch else None)
      false false false rng = Ok (roberta_output, rng') /\
    encoded_layers rt roberta_output = LastLayer rt (VTensor rt sequence_output) /\
    masked_lm_loss rt (lm_cls rt m) sequence_output masked_lm_labels = Ok loss /\
    outputs = Outputs rt loss
                (if output_attentions
                 then Some (LastPooled rt (pooled_output rt roberta_output))
                 else None).
Proof.
  intros Hl. unfold RobertaLMHeadModel_forward. cbv zeta. rewrite Hl.
  unfold mbind at 1, M_bind at 1.
  match goal with
  | |- context [RobertaModel_forward rt ?m0 ?a ?b ?c ?d ?e ?f ?g false false false rng] =>
      destruct (RobertaModel_forward rt m0 a b c d e f g false false false rng)
        as [[out r]| |] eqn:Hm; try discriminate
  end.
  destruct (RobertaModel_forward_result rt _ _ _ _ _ _ _ _ _ _ _ _ _ Hm)
    as (t & _ & Henc & Hatt).
  cbv iota in Henc, Hatt.
  unfold mbind, M_bind, liftR, mret, M_ret.
  rewrite Henc. unfold call_predictions.
  destruct (RobertaOnlyMLMHead_forward rt (lm_cls rt m) t
              (Some (masked_token_indexes_of masked_lm_labels)))
    as [scores| |] eqn:Hp; try discriminate.
  destruct (index_select (concat masked_lm_labels) (masked_token_indexes_of masked_lm_labels))
    as [target| |] eqn:Ht; try discriminate.
  destruct (nn_CrossEntropyLoss rt (-1) (view_rows scores) target)
    as [loss| |] eqn:Hce; try discriminate.
  intros [= <- <-].
  exists out, t, loss.
  split; [reflexivity|]. split; [exact Henc|]. split.
  - unfold masked_lm_loss. cbv zeta. rewrite Hp. simpl. rewrite Ht. simpl. exact Hce.
  - unfold roberta_output_last. rewrite Hatt. reflexivity.
Qed.

Lemma RobertaLMHeadModel_forward_outputs_witness :
  exists loss pooled,
    RobertaLMHeadModel_forward rational_runtime demo_lm_model
      (demo_lm_batch (Some [[0%Z]])) true tt
    = Ok (Outputs rational_runtime loss (Some (LastPooled rational_runtime pooled)), tt).
Proof.
  destruct (RobertaLMHeadModel_forward rational_runtime demo_lm_model
              (demo_lm_batch (Some [[0%Z]])) true tt)
    as [[outputs []]| |] eqn:E;
    [| vm_compute in E; discriminate E | vm_compute in E; discriminate E].
  destruct (RobertaLMHeadModel_forward_outputs rational_runtime demo_lm_model
              (demo_lm_batch (Some [[0%Z]])) true tt tt [[0%Z]] outputs eq_refl E)
    as (out & t & loss & _ & _ & _ & ->).
  exists loss, (pooled_output rational_runtime out). reflexivity.
Defined.

(** X21: With both label tensors, the pre-training model returns the sum of the
    masked-LM loss of the last hidden state and of the cross entropy of the
    next-sentence scores, which are the linear image of the pooled output. *)
Theorem RobertaForPreTraining_forward_total_loss (rt : Runtime)
    (m : RobertaForPreTraining rt) (batch : PreTrainingBatch) (rng rng' : RNG rt)
    (masked_lm_labels : list (list Z)) (next_sentence_label : list Z)
    (output : PreTrainingOutput) :
  pb_masked_lm_labels batch = Some masked_lm_labels ->
  pb_next_sentence_label batch = Some next_sentence_label ->
  RobertaForPreTraining_forward rt m batch rng = Ok (output, rng') ->
  exists roberta_output sequence_output masked_loss,
    RobertaModel_forward rt (pt_roberta rt m) (pb_input_ids batch)
      (pb_token_type_ids batch) (pb_attention_mask batch) None None None None
      false false false rng = Ok (roberta_output, rng') /\
    encoded_layers rt roberta_output = LastLayer rt (VTensor rt sequence_output) /\
    masked_lm_loss rt (pth_predictions (pt_cls rt m)) sequence_output masked_lm_labels
    = Ok masked_loss /\
    output = TotalLoss
               (masked_loss
                + F_cross_entropy rt (-1)
                    (map (nn_Linear_forward (pth_seq_relationship (pt_cls rt m)))
                       (pooled_output rt roberta_output))
                    next_sentence_label).
Proof.
  intros Hl Hn. unfold RobertaForPreTraining_forward. cbv zeta. rewrite Hl, Hn.
  unfold mbind at 1, M_bind at 1.
  match goal with
  | |- context [RobertaModel_forward rt ?m0 ?a ?b ?c ?d ?e ?f ?g false false false rng] =>
      destruct (RobertaModel_forward rt m0 a b c d e f g false false false rng)
        as [[out r]| |] eqn:Hm; try discriminate
  end.
  destruct (RobertaModel_forward_result rt _ _ _ _ _ _ _ _ _ _ _ _ _ Hm)
    as (t & _ & Henc & _).
  cbv iota in Henc.
  unfold mbind, M_bind, liftR, mret, M_ret.
  unfold RobertaPreTrainingHeads_forward. rewrite Henc. unfold call_predictions.
  unfold mbind, result_bind.
  destruct (RobertaOnlyMLMHead_forward rt (pth_predictions (pt_cls rt m)) t
              (Some (masked_token_indexes_of masked_lm_labels)))
    as [scores| |] eqn:Hp; try discriminate.
  destruct (index_select (concat masked_lm_labels) (masked_token_indexes_of masked_lm_labels))
    as [target| |] eqn:Ht; try discriminate.
  destruct (nn_CrossEntropyLoss rt (-1) (view_rows scores) target)
    as [loss| |] eqn:Hce; try discriminate.
  match goal with
  | |- context [nn_CrossEntropyLoss rt (-1) ?sc next_sentence_label] =>
      assert (Hnext : forall l2, nn_CrossEntropyLoss rt (-1) sc next_sentence_label = Ok l2 ->
                l2 = F_cross_entropy rt (-1) sc next_sentence_label);
      [ intros l2; unfold nn_CrossEntropyLoss;
        destruct (negb _); [discriminate|]; destruct (forallb _ _); [|discriminate];
        intros [= <-]; reflexivity |];
      destruct (nn_CrossEntropyLoss rt (-1) sc next_sentence_label)
        as [l2| |] eqn:Hce2; try discriminate
  end.
  intros [= <- <-].
  exists out, t, loss.
  split; [reflexivity|]. split; [exact Henc|]. split.
  - unfold masked_lm_loss. cbv zeta. rewrite Hp. simpl. rewrite Ht. simpl. exact Hce.
  - rewrite (Hnext l2 eq_refl). reflexivity.
Qed.

Lemma RobertaForPreTraining_forward_total_loss_witness :
  exists total_loss,
    RobertaForPreTraining_forward rational_runtime demo_pretraining_model
      (demo_pretraining_batch (Some [[0%Z]]) (Some [0%Z])) tt
    = Ok (TotalLoss total_loss, tt).
Proof.
  destruct (RobertaForPreTraining_forward rational_runtime demo_pretraining_model
              (demo_pretraining_batch (Some [[0%Z]]) (Some [0%Z])) tt)
    as [[output []]| |] eqn:E;
    [| vm_compute in E; discriminate E | vm_compute in E; discriminate E].
  destruct (RobertaForPreTraining_forward_total_loss rational_runtime
              demo_pretraining_model (demo_pretraining_batch (Some [[0%Z]]) (Some [0%Z]))
              tt tt [[0%Z]] [0%Z] output eq_refl eq_refl E)
    as (out & t & loss & _ & _ & _ & ->).
  eexists. reflexivity.
Defined.


(** ** Sequence classification *)

(** X22: The labels enter the loss only.  A run with labels that returns, returns
    a loss and the logits of the run without labels, which returns no loss;
    neither run returns hidden states or attention probabilities.  The
    logits are the classifier's image of the dropout of the pooled output
    of the underlying model. *)
Theorem RobertaForSequenceClassification_forward_labels (rt : Runtime) {Labels : Type}
    (nn_Dropout : Q -> Matrix -> RNG rt -> Matrix * RNG rt)
    (MSELoss : list Q -> Labels -> result Q)
    (CrossEntropyLoss : Matrix -> Labels -> result Q)
    (m : RobertaForSequenceClassification rt)
    (input_ids : list (list Z)) (token_type_ids attention_mask : option (list (list Z)))
    (input_Ngram_ids Ngram_attention_mask Ngram_token_type_ids : option (list (list Z)))
    (Ngram_position_matrix : option Tensor3) (labels : Labels)
    (checkpoint_activations : bool) (rng rng' : RNG rt)
    (out : SequenceClassifierOutput rt) :
  RobertaForSequenceClassification_forward rt nn_Dropout MSELoss CrossEntropyLoss m
    input_ids token_type_ids attention_mask input_Ngram_ids Ngram_attention_mask
    Ngram_token_type_ids Ngram_position_matrix (Some labels) checkpoint_activations rng
  = Ok (out, rng') ->
  exists loss,
    out = {| sco_loss := Some loss; sco_logits := sco_logits rt out;
             sco_hidden_states := None; sco_attentions := None |} /\
    (if (sc_num_labels rt m =? 1)%Z
     then MSELoss (concat (sco_logits rt out)) labels = Ok loss
     else CrossEntropyLoss (sco_logits rt out) labels = Ok loss) /\
    RobertaForSequenceClassification_forward rt nn_Dropout MSELoss CrossEntropyLoss m
      input_ids token_type_ids attention_mask input_Ngram_ids Ngram_attention_mask
      Ngram_token_type_ids Ngram_position_matrix None checkpoint_activations rng
    = Ok ({| sco_loss := None; sco_logits := sco_logits rt out;
             sco_hidden_states := None; sco_attentions := None |}, rng').
Proof.
  intros H. unfold RobertaForSequenceClassification_forward in *. cbv zeta in *.
  unfold mbind, M_bind, liftS, liftR, mret, M_ret in *.
  match type of H with
  | context [RobertaModel_forward rt ?m0 ?a ?b ?c ?d ?e ?f ?g false ?k false rng] =>
      destruct (RobertaModel_forward rt m0 a b c d e f g false k false rng)
        as [[outputs r]| |]; try discriminate H
  end.
  destruct (nn_Dropout (sc_dropout rt m) (pooled_output rt outputs) r) as [pooled r'].
  destruct (sc_num_labels rt m =? 1)%Z.
  - destruct (MSELoss _ labels) as [loss| |] eqn:Hloss; try discriminate H.
    injection H as <- <-. exists loss.
    split; [reflexivity|]. split; [exact Hloss | reflexivity].
  - destruct (CrossEntropyLoss _ labels) as [loss| |] eqn:Hloss; try discriminate H.
    injection H as <- <-. exists loss.
    split; [reflexivity|]. split; [exact Hloss | reflexivity].
Qed.

Lemma RobertaForSequenceClassification_forward_labels_witness :
  exists out,
    RobertaForSequenceClassification_forward rational_runtime eval_dropout zero_loss
      zero_loss (demo_classifier 1) [[0%Z]] None None None None None None (Some [1%Z])
      false tt = Ok (out, tt) /\
    RobertaForSequenceClassification_forward rational_runtime eval_dropout zero_loss
      zero_loss (demo_classifier 1) [[0%Z]] None None None None None None None
      false tt
    = Ok ({| sco_loss := None; sco_logits := sco_logits rational_runtime out;
             sco_hidden_states := None; sco_attentions := None |}, tt).
Proof.
  destruct (RobertaForSequenceClassification_forward rational_runtime eval_dropout
              zero_loss zero_loss (demo_classifier 1) [[0%Z]] None None None None None
              None (Some [1%Z]) false tt)
    as [[out []]| |] eqn:E;
    [| vm_compute in E; discriminate E | vm_compute in E; discriminate E].
  destruct (RobertaForSequenceClassification_forward_labels rational_runtime eval_dropout
              zero_loss zero_loss (demo_classifier 1) [[0%Z]] None None None None None
              None [1%Z] false tt tt out E) as (loss & _ & _ & H).
  exists out. split; [reflexivity | exact H].
Defined.

(** X23: The classifier's [checkpoint_activations] argument cannot be used with
    the layers of the default path: over a model whose encoder holds at
    least one [RobertaLayer] the forward pass raises on every input. *)
Theorem RobertaForSequenceClassification_forward_checkpoint (rt : Runtime) {Labels : Type}
    (nn_Dropout : Q -> Matrix -> RNG rt -> Matrix * RNG rt)
    (MSELoss : list Q -> Labels -> result Q)
    (CrossEntropyLoss : Matrix -> Labels -> result Q)
    (m : RobertaForSequenceClassification rt)
    (l : RobertaLayer) (ls : list RobertaLayer)
    (input_ids : list (list Z)) (token_type_ids attention_mask : option (list (list Z)))
    (input_Ngram_ids Ngram_attention_mask Ngram_token_type_ids : option (list (list Z)))
    (Ngram_position_matrix : option Tensor3) (labels : option Labels) (rng : RNG rt) :
  layer rt (encoder rt (sc_roberta rt m)) = PyLayers rt (l :: ls) ->
  raises (RobertaForSequenceClassification_forward rt nn_Dropout MSELoss CrossEntropyLoss m
            input_ids token_type_ids attention_mask input_Ngram_ids Ngram_attention_mask
            Ngram_token_type_ids Ngram_position_matrix labels true rng).
Proof.
  intros Hlayer. unfold RobertaForSequenceClassification_forward. cbv zeta.
  unfold mbind at 1, M_bind at 1.
  match goal with
  | |- context [RobertaModel_forward rt ?m0 ?a ?b ?c ?d ?e ?f ?g false true false rng] =>
      destruct (RobertaModel_forward_checkpoint_error rt m0 l ls a b c d e f g false false
                  rng Hlayer) as [err ->]
  end.
  exists err. reflexivity.
Qed.

Lemma RobertaForSequenceClassification_forward_checkpoint_witness :
  raises (RobertaForSequenceClassification_forward rational_runtime eval_dropout zero_loss
            zero_loss (demo_classifier 2) [[0%Z]] None None None None None None
            (Some [1%Z]) true tt).
Proof.
  exact (RobertaForSequenceClassification_forward_checkpoint rational_runtime eval_dropout
           zero_loss zero_loss (demo_classifier 2) demo_layer [demo_layer] [[0%Z]]
           None None None None None None (Some [1%Z]) tt eq_refl).
Defined.


(** ** Masked-token indexes and the masked-LM loss of the two models *)

Lemma masked_lm_loss_gathered (rt : Runtime) (cls : RobertaLMPredictionHead)
    (t : Tensor3) (masked_lm_labels : list (list Z)) :
  Forall (fun r => is_ok (RobertaPredictionHeadTransform_row rt (transform cls) r))
    (concat t) ->
  masked_lm_loss rt cls t masked_lm_labels = gathered_loss rt cls t masked_lm_labels.
Proof.
  intros Htot. unfold masked_lm_loss, gathered_loss, RobertaOnlyMLMHead_forward. cbv zeta.
  rewrite (RobertaLMPredictionHead_forward_rows rt cls _ _ Htot).
  unfold mbind, result_bind.
  destruct (index_select (concat t) _) as [rows| |]; try reflexivity.
  destruct (mapR (logit_row rt cls) rows) as [logits| |]; reflexivity.
Qed.

Lemma masked_targets (masked_lm_labels : list (list Z)) :
  Forall (Forall in_int64) masked_lm_labels ->
  exists targets,
    index_select (concat masked_lm_labels) (masked_token_indexes_of masked_lm_labels)
    = Ok targets /\
    Forall (fun v => v <> (-1)%Z) targets /\
    length targets = length (masked_token_indexes_of masked_lm_labels).
Proof.
  intros Hr.
  pose proof (fun i => elem_of_masked_token_indexes masked_lm_labels i Hr) as Hmem.
  set (idx := masked_token_indexes_of masked_lm_labels) in *.
  assert (Hlt : Forall (fun i => i < length (concat masked_lm_labels)) idx).
  { apply Forall_forall. intros i Hi. apply Hmem in Hi as (v & Hv & _).
    eapply lookup_lt_Some, Hv. }
  destruct (index_select_ok (concat masked_lm_labels) idx Hlt) as [targets Htg].
  exists targets. split; [exact Htg|]. split; [|apply (mapR_length _ _ _ Htg)].
  apply Forall_forall. intros v Hv.
  apply index_select_Forall2 in Htg.
  destruct (proj1 (list_elem_of_lookup targets v) Hv) as [k Hk].
  destruct (Forall2_lookup_r _ _ _ _ _ Htg Hk) as (i & Hi & Hiv).
  assert (Hin : i ∈ idx) by (eapply list_elem_of_lookup_2, Hi).
  apply Hmem in Hin as (v' & Hv' & Hne). congruence.
Qed.

(** C5: the masked-token index list holds, in ascending order, exactly the
    flat positions whose label is not -1; for a (2, 5) label tensor with
    labels at (0, 2) and (1, 0) only it is [2; 5]; the labels gathered at
    these positions are all real.  The two forward passes compute the
    masked-LM loss from the gathered rows and labels alone: where the head
    transform is defined on the rows of the last hidden state,
    [RobertaLMHeadModel.forward] returns, and [RobertaForPreTraining.forward]
    adds to the next-sentence loss, the cross entropy of the logit rows of
    the hidden rows gathered at the indexes against the labels gathered
    there, and they raise what that computation raises. *)
Theorem masked_token_indexes_and_loss (rt : Runtime) (masked_lm_labels : list (list Z)) :
  Forall (Forall in_int64) masked_lm_labels ->
  let idx := masked_token_indexes_of masked_lm_labels in
  StronglySorted lt idx /\
  (forall i, i ∈ idx <->
             exists v, concat masked_lm_labels !! i = Some v /\ v <> (-1)%Z) /\
  (forall a b, in_int64 a -> in_int64 b -> a <> (-1)%Z -> b <> (-1)%Z ->
     masked_token_indexes_of [[-1; -1; a; -1; -1]; [b; -1; -1; -1; -1]]%Z = [2; 5]) /\
  (exists targets,
     index_select (concat masked_lm_labels) idx = Ok targets /\
     Forall (fun v => v <> (-1)%Z) targets /\ length targets = length idx) /\
  (forall (m : RobertaLMHeadModel rt) (batch : LMHeadBatch) (output_attentions : bool)
          (rng rng' : RNG rt) (roberta_output : RobertaModelOutput rt)
          (sequence_output : Tensor3),
     lb_masked_lm_labels batch = Some masked_lm_labels ->
     RobertaModel_forward rt (lm_roberta rt m) (lb_input_ids batch)
       (lb_token_type_ids batch) (lb_attention_mask batch)
       (if lm_is_Ngram rt m then lb_input_Ngram_ids batch else None)
       (if lm_is_Ngram rt m then lb_Ngram_attention_mask batch else None)
       (if lm_is_Ngram rt m then lb_Ngram_token_type_ids batch else None)
       (if lm_is_Ngram rt m then lb_Ngram_position_matrix batch else None)
       false false false rng = Ok (roberta_output, rng') ->
     encoded_layers rt roberta_output = LastLayer rt (VTensor rt sequence_output) ->
     Forall (fun r => is_ok (RobertaPredictionHeadTransform_row rt
                               (transform (lm_cls rt m)) r))
       (concat sequence_output) ->
     RobertaLMHeadModel_forward rt m batch output_attentions rng
     = match gathered_loss rt (lm_cls rt m) sequence_output masked_lm_labels with
       | Ok loss =>
           Ok (Outputs rt loss
                 (if output_attentions
                  then Some (LastPooled rt (pooled_output rt roberta_output))
                  else None), rng')
       | Raise e => Raise e
       | Diverge => Diverge
       end) /\
  (forall (m : RobertaForPreTraining rt) (batch : PreTrainingBatch)
          (next_sentence_label : list Z) (rng rng' : RNG rt)
          (roberta_output : RobertaModelOutput rt) (sequence_output : Tensor3),
     pb_masked_lm_labels batch = Some masked_lm_labels ->
     pb_next_sentence_label batch = Some next_sentence_label ->
     RobertaModel_forward rt (pt_roberta rt m) (pb_input_ids batch)
       (pb_token_type_ids batch) (pb_attention_mask batch) None None None None
       false false false rng = Ok (roberta_output, rng') ->
     encoded_layers rt roberta_output = LastLayer rt (VTensor rt sequence_output) ->
     Forall (fun r => is_ok (RobertaPredictionHeadTransform_row rt
                               (transform (pth_predictions (pt_cls rt m))) r))
       (concat sequence_output) ->
     RobertaForPreTraining_forward rt m batch rng
     = match gathered_loss rt (pth_predictions (pt_cls rt m)) sequence_output
               masked_lm_labels with
       | Ok masked_lm_loss =>
           match nn_CrossEntropyLoss rt (-1)
                   (map (nn_Linear_forward (pth_seq_relationship (pt_cls rt m)))
                      (pooled_output rt roberta_output))
                   next_sentence_label with
           | Ok next_sentence_loss =>
               Ok (TotalLoss (masked_lm_loss + next_sentence_loss), rng')
           | Raise e => Raise e
           | Diverge => Diverge
           end
       | Raise e => Raise e
       | Diverge => Diverge
       end).
Proof.
  intros Hr idx.
  pose proof (fun i => elem_of_masked_token_indexes masked_lm_labels i Hr) as Hmem.
  fold idx in Hmem.
  split; [apply nonzero_from_sorted|]. split; [exact Hmem|]. split; [|split; [|split]].
  - intros a b Ha Hb Hna Hnb. unfold masked_token_indexes_of, torch_nonzero. simpl.
    change (int64_wrap (-1 + 1)) with 0%Z. simpl.
    destruct (Z.eqb_spec (int64_wrap (a + 1)) 0) as [E|_];
      [apply int64_wrap_succ_zero in E; [contradiction|assumption]|].
    destruct (Z.eqb_spec (int64_wrap (b + 1)) 0) as [E|_];
      [apply int64_wrap_succ_zero in E; [contradiction|assumption]|].
    reflexivity.
  - apply masked_targets, Hr.
  - intros m batch output_attentions rng rng' out t Hl Hm Henc Htot.
    rewrite <- (masked_lm_loss_gathered rt _ _ _ Htot).
    unfold RobertaLMHeadModel_forward. cbv zeta. rewrite Hl.
    unfold mbind at 1, M_bind at 1. rewrite Hm.
    unfold mbind, M_bind, liftR, mret, M_ret.
    rewrite Henc. unfold call_predictions, masked_lm_loss. cbv zeta.
    unfold mbind, result_bind.
    destruct (RobertaOnlyMLMHead_forward rt (lm_cls rt m) t _) as [scores| |];
      try reflexivity.
    destruct (index_select (concat masked_lm_labels) _) as [target| |]; try reflexivity.
    destruct (nn_CrossEntropyLoss rt (-1) (view_rows scores) target) as [loss| |];
      try reflexivity.
    unfold roberta_output_last.
    assert (Hatt : attentions rt out = None).
    { destruct (RobertaModel_forward_result rt _ _ _ _ _ _ _ _ _ _ _ _ _ Hm)
        as (_ & _ & _ & Hatt). exact Hatt. }
    rewrite Hatt. reflexivity.
  - intros m batch next rng rng' out t Hl Hn Hm Henc Htot.
    rewrite <- (masked_lm_loss_gathered rt _ _ _ Htot).
    unfold RobertaForPreTraining_forward. cbv zeta. rewrite Hl, Hn.
    unfold mbind at 1, M_bind at 1. rewrite Hm.
    unfold mbind, M_bind, liftR, mret, M_ret.
    unfold RobertaPreTrainingHeads_forward. rewrite Henc.
    unfold call_predictions, masked_lm_loss. cbv zeta.
    unfold mbind, result_bind.
    destruct (RobertaOnlyMLMHead_forward rt (pth_predictions (pt_cls rt m)) t _)
      as [scores| |]; try reflexivity.
    destruct (index_select (concat masked_lm_labels) _) as [target| |]; try reflexivity.
    destruct (nn_CrossEntropyLoss rt (-1) (view_rows scores) target) as [loss| |];
      try reflexivity.
    destruct (nn_CrossEntropyLoss rt (-1) _ next) as [l2| |]; reflexivity.
Qed.

Lemma masked_token_indexes_and_loss_witness :
  masked_token_indexes_of [[-1; -1; 7; -1; -1]; [3; -1; -1; -1; -1]]%Z = [2; 5] /\
  masked_token_indexes_of [[-1; 0]]%Z = [1] /\
  (exists loss,
     gathered_loss rational_runtime (unit_head false [5%Q]) two_token_sequence [[-1; 0]]%Z
     = Ok loss /\
     RobertaLMHeadModel_forward rational_runtime two_token_lm_model
       (two_token_lm_batch [[-1; 0]]%Z) true tt
     = Ok (Outputs rational_runtime loss
             (Some (LastPooled rational_runtime [[0 # 2000000000001]]%Q)), tt)) /\
  (exists masked_lm_loss next_sentence_loss,
     gathered_loss rational_runtime (unit_head true [5%Q]) two_token_sequence [[-1; 0]]%Z
     = Ok masked_lm_loss /\
     RobertaForPreTraining_forward rational_runtime two_token_pretraining_model
       (two_token_pretraining_batch [[-1; 0]]%Z [1%Z]) tt
     = Ok (TotalLoss (masked_lm_loss + next_sentence_loss), tt)).
Proof.
  destruct (masked_token_indexes_and_loss rational_runtime [[-1; 0]]%Z)
    as (_ & _ & Hex & _ & Hlm & Hpt).
  { unfold in_int64. repeat constructor; lia. }
  split; [apply Hex; [unfold in_int64; lia | unfold in_int64; lia | discriminate | discriminate]|].
  split; [reflexivity|].
  split.
  - specialize (Hlm two_token_lm_model (two_token_lm_batch [[-1; 0]]%Z) true tt tt
                  two_token_output two_token_sequence eq_refl).
    rewrite Hlm.
    + assert (Hg : gathered_loss rational_runtime (unit_head false [5%Q])
                     two_token_sequence [[-1; 0]]%Z = Ok 0%Q) by (vm_compute; reflexivity).
      exists 0%Q. split; [exact Hg|].
      change (lm_cls rational_runtime two_token_lm_model) with (unit_head false [5%Q]).
      rewrite Hg. reflexivity.
    + vm_compute. reflexivity.
    + reflexivity.
    + repeat constructor; eexists; reflexivity.
  - specialize (Hpt two_token_pretraining_model
                  (two_token_pretraining_batch [[-1; 0]]%Z [1%Z]) [1%Z] tt tt
                  two_token_output two_token_sequence eq_refl eq_refl).
    rewrite Hpt.
    + assert (Hg : gathered_loss rational_runtime (unit_head true [5%Q])
                     two_token_sequence [[-1; 0]]%Z = Ok 0%Q) by (vm_compute; reflexivity).
      exists 0%Q, 0%Q. split; [exact Hg|].
      change (pth_predictions (pt_cls rational_runtime two_token_pretraining_model))
        with (unit_head true [5%Q]).
      rewrite Hg.
      match goal with
      | |- context [nn_CrossEntropyLoss ?a ?b ?c ?d] =>
          assert (Hn : nn_CrossEntropyLoss a b c d = Ok 0%Q) by (vm_compute; reflexivity);
          rewrite Hn
      end.
      reflexivity.
    + vm_compute. reflexivity.
    + reflexivity.
    + repeat constructor; eexists; reflexivity.
Defined.
